(** * Cryptique: embedding generation and vector migration pipeline

    A shallow embedding of
    - [backend/python/services/embedding_generator.py]
      ([EmbeddingGenerator], [EmbeddingQualityValidator], [EmbeddingOptimizer]),
    - [backend/python/services/vector_migrator.py] ([VectorMigrator]),
    - [backend/python/utils/logger.py] ([LogContext]),
    and the properties the specification states about them.

    Conventions.
    - A Python [float] is an IEEE binary64 number, here a primitive [float];
      a one-dimensional [np.ndarray] is a [list] of them.
    - Code that can raise returns an [outcome]; code that reads or writes the
      objects ([self.cache], [self.progress], files) or calls a collaborator
      (embedding provider, document store, clock) runs in the monad [M] over
      an explicit state.  State changes made before an exception is raised
      persist, as they do in Python.
    - Collaborators that live outside the two services are the fields of the
      class [Env]: every theorem holds for every behaviour they can show. *)

From Stdlib Require Import ZArith QArith Qabs Qminmax Floats Reals Lra Ascii String.
From stdpp Require Import gmap strings list pretty sorting.

Set Warnings "-inexact-float,-abstract-large-number,-register-all".
Set Default Proof Using "Type".

(* ===================================================================== *)
(** ** Python runtime: exceptions and the state-and-exception monad       *)
(* ===================================================================== *)

Module Py.

(** An exception object: its class name and [str(e)]. *)
Inductive exn : Type := Exn (cls : string) (msg : string).

Definition str (e : exn) : string := let 'Exn _ msg := e in msg.
Definition cls_of (e : exn) : string := let 'Exn c _ := e in c.

Definition ValueError (msg : string) : exn := Exn "ValueError" msg.
Definition TypeError (msg : string) : exn := Exn "TypeError" msg.
Definition NameError (msg : string) : exn := Exn "NameError" msg.
(** [KeyError(key)] for a string key: [str(e)] is the [repr] of the key,
      the key between single quotes. *)
Definition KeyError (key : string) : exn := Exn "KeyError" ("'" +:+ key +:+ "'").
Definition FileNotFoundError (msg : string) : exn := Exn "FileNotFoundError" msg.
Definition JSONDecodeError (msg : string) : exn := Exn "JSONDecodeError" msg.

Inductive outcome (A : Type) : Type :=
  | Ok (a : A)
  | Raise (e : exn).
Arguments Ok {A} a.
Arguments Raise {A} e.

(** Sequencing of two steps that can raise. *)
Definition and_then {A B} (o : outcome A) (k : A -> outcome B) : outcome B :=
    match o with Ok a => k a | Raise e => Raise e end.

Definition is_ok {A} (o : outcome A) : bool :=
    match o with Ok _ => true | Raise _ => false end.

(** A computation over a state [S] that returns an [A] or raises. *)
Definition M (S A : Type) : Type := S -> outcome A * S.

Definition ret {S A} (a : A) : M S A := fun s => (Ok a, s).
Definition raise {S A} (e : exn) : M S A := fun s => (Raise e, s).
Definition bind {S A B} (m : M S A) (k : A -> M S B) : M S B :=
    fun s => match m s with
             | (Ok a, s') => k a s'
             | (Raise e, s') => (Raise e, s')
             end.
Definition get {S} : M S S := fun s => (Ok s, s).
Definition gets {S A} (f : S -> A) : M S A := fun s => (Ok (f s), s).
Definition modify {S} (f : S -> S) : M S unit := fun s => (Ok tt, f s).
Definition lift_outcome {S A} (o : outcome A) : M S A := fun s => (o, s).

(** [try: body except Exception as e: handler e]. *)
Definition try_except {S A} (body : M S A) (handler : exn -> M S A) : M S A :=
    fun s => match body s with
             | (Ok a, s') => (Ok a, s')
             | (Raise e, s') => handler e s'
             end.

(** [try: body finally: cleanup]: the cleanup runs on both exits and the
      outcome of the body is kept. *)
Definition try_finally {S A} (body : M S A) (cleanup : S -> S) : M S A :=
    fun s => let '(o, s') := body s in (o, cleanup s').

(** Run a computation over a part [T] of the state [S]. *)
Definition zoom {S T A} (proj : S -> T) (upd : T -> S -> S) (m : M T A) : M S A :=
    fun s => let '(o, t') := m (proj s) in (o, upd t' s).

(** [for x in xs: body x], threading the state, stopping at the first
      exception. *)
Fixpoint for_each {S A} (xs : list A) (body : A -> M S unit) : M S unit :=
    match xs with
    | [] => ret tt
    | x :: xs' => bind (body x) (fun _ => for_each xs' body)
    end.

(** A comprehension whose element computation has effects. *)
Fixpoint map_m {S A B} (f : A -> M S B) (xs : list A) : M S (list B) :=
    match xs with
    | [] => ret []
    | x :: xs' => bind (f x) (fun y => bind (map_m f xs') (fun ys => ret (y :: ys)))
    end.

(** [range(0, stop, step)] for a positive [step]: [0, step, 2*step, ...]
      below [stop]. *)
Definition range_step (stop step : nat) : list nat :=
    (fun k => k * step) <$> seq 0 (Nat.div (stop + step - 1) step).

(** [range(0, stop, step)] for any integer [step]: zero is an error, a
      negative step gives the empty range (the start is not above [stop]). *)
Definition py_range (stop : nat) (step : Z) : outcome (list nat) :=
    if Z.eqb step 0 then Raise (ValueError "range() arg 3 must not be zero")
    else if Z.ltb step 0 then Ok []
    else Ok (range_step stop (Z.to_nat step)).

(** The slice [xs[i:j]]. *)
Definition slice {A} (xs : list A) (i j : nat) : list A := take (j - i) (drop i xs).

End Py.

Export Py.

Declare Scope py_scope.
Delimit Scope py_scope with py.
Notation "x <- m ;; k" := (Py.bind m (fun x => k))
  (at level 100, m at next level, right associativity) : py_scope.
Notation "m ;;; k" := (Py.bind m (fun _ => k))
  (at level 100, right associativity) : py_scope.
Open Scope py_scope.

(* ===================================================================== *)
(** ** numpy on one-dimensional arrays                                     *)
(* ===================================================================== *)

(** The arithmetic a vector routine needs.  The program runs it on binary64
    numbers ([ieee]); read over the real numbers ([exact]) the same routine
    gives the value the floating-point run approximates. *)
Class FloatOps (F : Type) : Type := {
  f_zero : F;
  f_add : F -> F -> F;
  f_sub : F -> F -> F;
  f_mul : F -> F -> F;
  f_div : F -> F -> F;
  f_sqrt : F -> F;
  f_lt : F -> F -> bool;
  f_of_nat : nat -> F
}.

#[export] Instance ieee : FloatOps float := {|
  f_zero := 0%float;
  f_add := PrimFloat.add;
  f_sub := PrimFloat.sub;
  f_mul := PrimFloat.mul;
  f_div := PrimFloat.div;
  f_sqrt := PrimFloat.sqrt;
  f_lt := PrimFloat.ltb;
  f_of_nat := fun n => PrimFloat.of_uint63 (Uint63.of_Z (Z.of_nat n))
|}.

#[export] Instance exact : FloatOps R := {|
  f_zero := 0%R;
  f_add := Rplus;
  f_sub := Rminus;
  f_mul := Rmult;
  f_div := Rdiv;
  f_sqrt := sqrt;
  f_lt := fun x y => if Rlt_dec x y then true else false;
  f_of_nat := INR
|}.

Module Np.

Abbreviation ndarray := (list float).

Section Generic.
Context {F : Type} `{FloatOps F}.

(** [np.sum(v)]. *)
Definition sum (v : list F) : F := fold_left f_add v f_zero.

(** [v.dot(v)]. *)
Definition sqnorm (v : list F) : F :=
      fold_left (fun acc x => f_add acc (f_mul x x)) v f_zero.

(** [np.linalg.norm(v)] for a one-dimensional [v]: [sqrt(v.dot(v))]. *)
Definition linalg_norm (v : list F) : F := f_sqrt (sqnorm v).

(** [np.mean(v)]: the sum over the number of components; [0/0] on an
        empty array. *)
Definition mean (v : list F) : F := f_div (sum v) (f_of_nat (length v)).

(** [np.var(v)]: the mean of the squared deviations from the mean. *)
Definition var (v : list F) : F :=
      let m := mean v in
      mean ((fun x => f_mul (f_sub x m) (f_sub x m)) <$> v).

(** [v / c] for a scalar [c]. *)
Definition div_scalar (v : list F) (c : F) : list F := (fun x => f_div x c) <$> v.
End Generic.

(** [np.any(np.isnan(v))] and [np.any(np.isinf(v))]. *)
Definition any_isnan (v : ndarray) : bool := existsb PrimFloat.is_nan v.
Definition any_isinf (v : ndarray) : bool := existsb PrimFloat.is_infinity v.

(** [np.dot(a, b)] for one-dimensional arguments: shapes must agree. *)
Definition dot (a b : ndarray) : outcome float :=
    if Nat.eqb (length a) (length b)
    then Ok (fold_left (fun acc p => (acc + p.1 * p.2)%float) (zip a b) 0%float)
    else Raise (ValueError "shapes not aligned").

(** [a - b] with numpy broadcasting: equal lengths, or one operand of
      length one. *)
Definition subtract (a b : ndarray) : outcome ndarray :=
    if Nat.eqb (length a) (length b)
    then Ok ((fun p => (p.1 - p.2)%float) <$> zip a b)
    else match a, b with
         | [x], _ => Ok ((fun y => (x - y)%float) <$> b)
         | _, [y] => Ok ((fun x => (x - y)%float) <$> a)
         | _, _ => Raise (ValueError "operands could not be broadcast together")
         end.

Definition is_finite (x : float) : bool :=
    negb (PrimFloat.is_nan x) && negb (PrimFloat.is_infinity x).

(** [sklearn.metrics.pairwise.cosine_similarity([a], [b])[0][0]]: both rows
      are validated (at least one feature, finite entries, same width), each
      is divided by its norm (a zero norm is replaced by one), and the dot
      product of the two is returned. *)
Definition unit_row (v : ndarray) : ndarray :=
    let n := linalg_norm v in
    div_scalar v (if PrimFloat.eqb n 0%float then 1%float else n).

Definition cosine_similarity (a b : ndarray) : outcome float :=
    if Nat.eqb (length a) 0 || Nat.eqb (length b) 0
    then Raise (ValueError "Found array with 0 feature(s)")
    else if negb (forallb is_finite a && forallb is_finite b)
    then Raise (ValueError "Input contains NaN or infinity")
    else if negb (Nat.eqb (length a) (length b))
    then Raise (ValueError "Incompatible dimension for X and Y matrices")
    else dot (unit_row a) (unit_row b).

End Np.

(* ===================================================================== *)
(** ** services/embedding_generator.py: data model                        *)
(* ===================================================================== *)

Module EmbeddingModel.
Inductive t : Type := GEMINI | OPENAI | SENTENCE_TRANSFORMER | HUGGINGFACE | LOCAL.

#[export] Instance eq_dec : EqDecision t.
Proof. solve_decision. Defined.

Definition value (m : t) : string :=
    match m with
    | GEMINI => "gemini"
    | OPENAI => "openai"
    | SENTENCE_TRANSFORMER => "sentence_transformer"
    | HUGGINGFACE => "huggingface"
    | LOCAL => "local"
    end.

(** [str(model)], as an f-string renders it. *)
Definition repr (m : t) : string :=
    match m with
    | GEMINI => "EmbeddingModel.GEMINI"
    | OPENAI => "EmbeddingModel.OPENAI"
    | SENTENCE_TRANSFORMER => "EmbeddingModel.SENTENCE_TRANSFORMER"
    | HUGGINGFACE => "EmbeddingModel.HUGGINGFACE"
    | LOCAL => "EmbeddingModel.LOCAL"
    end.
End EmbeddingModel.

(** The [context] dictionary of one text: the keys the services read or
    write.  A key that is absent is [None]. *)
Module Context.
Record t : Type := mk {
    data_type : option string;
    source_type : option string;
    timeframe : option string;
    importance : option Z;
    site_id : option string;
    contract_id : option string
  }.

Definition has {A} (o : option A) : bool :=
    match o with Some _ => true | None => false end.

(** Truth value of the dictionary: it has at least one key. *)
Definition truthy (c : t) : bool :=
    has (data_type c) || has (source_type c) || has (timeframe c)
    || has (importance c) || has (site_id c) || has (contract_id c).
End Context.

Module Metadata.
(** [EmbeddingResult.metadata]: the dictionary [generate_embedding] builds,
      or the empty dictionary a cache document without metadata yields. *)
Inductive t : Type :=
  | Empty
  | Generated (text_length processed_text_length : nat) (context : option Context.t).
End Metadata.

Module EmbeddingResult.
Record t : Type := mk {
    success : bool;
    embedding : option Np.ndarray;
    model_used : option string;
    dimensions : option nat;
    quality_score : option float;
    processing_time : option float;
    metadata : option Metadata.t;
    error : option string
  }.

(** [EmbeddingResult(success=False, error=..., processing_time=...)]. *)
Definition failed (err : string) (time : option float) : t :=
    mk false None None None None time None (Some err).
End EmbeddingResult.

Module BatchMetadata.
Record t : Type := mk {
    successful_count : nat;
    failed_count : nat;
    average_quality : float;
    model_used : string;
    batch_size : Z
  }.
End BatchMetadata.

Module BatchEmbeddingResult.
Record t : Type := mk {
    success : bool;
    embeddings : option (list (option Np.ndarray));
    failed_indices : option (list nat);
    total_processed : nat;
    processing_time : option float;
    quality_scores : option (list (option float));
    metadata : option BatchMetadata.t;
    errors : option (list (option string))
  }.
End BatchEmbeddingResult.

(** A document of the [embedding_cache] collection. *)
Module CacheDoc.
Record t : Type := mk {
    cache_key : string;
    text : string;
    model : string;
    embedding : list float;
    quality_score : option float;
    metadata : option Metadata.t;
    created_at : float
  }.
End CacheDoc.

(* ===================================================================== *)
(** ** services/vector_migrator.py: data model                            *)
(* ===================================================================== *)

(** A [datetime], kept as its ISO-8601 text. *)
Definition datetime : Type := string.

Module DataSource.
Inductive t : Type :=
    ANALYTICS | SESSIONS | CAMPAIGNS | TRANSACTIONS | SMART_CONTRACTS | GRANULAR_EVENTS.

#[export] Instance eq_dec : EqDecision t.
Proof. solve_decision. Defined.

Definition value (s : t) : string :=
    match s with
    | ANALYTICS => "analytics"
    | SESSIONS => "sessions"
    | CAMPAIGNS => "campaigns"
    | TRANSACTIONS => "transactions"
    | SMART_CONTRACTS => "smart_contracts"
    | GRANULAR_EVENTS => "granular_events"
    end.

Definition name (s : t) : string :=
    match s with
    | ANALYTICS => "ANALYTICS"
    | SESSIONS => "SESSIONS"
    | CAMPAIGNS => "CAMPAIGNS"
    | TRANSACTIONS => "TRANSACTIONS"
    | SMART_CONTRACTS => "SMART_CONTRACTS"
    | GRANULAR_EVENTS => "GRANULAR_EVENTS"
    end.
End DataSource.

Module MigrationConfig.
Record t : Type := mk {
    source_types : list DataSource.t;
    batch_size : Z;
    max_workers : Z;
    embedding_model : EmbeddingModel.t;
    validate_data : bool;
    optimize_embeddings : bool;
    backup_original : bool;
    resume_from_checkpoint : bool
  }.

(** [MigrationConfig()]: the dataclass defaults. *)
Definition default : t :=
    mk [] 100 4 EmbeddingModel.GEMINI true true true true.
End MigrationConfig.

Module MigrationProgress.
Record t : Type := mk {
    total_records : Z;
    processed_records : Z;
    successful_records : Z;
    failed_records : Z;
    skipped_records : Z;
    current_source : option string;
    start_time : option datetime;
    estimated_completion : option datetime;
    errors : list string
  }.

(** [MigrationProgress()]. *)
Definition fresh : t := mk 0 0 0 0 0 None None None [].

Definition set_total_records (v : Z) (p : t) : t :=
    mk v (processed_records p) (successful_records p) (failed_records p)
       (skipped_records p) (current_source p) (start_time p)
       (estimated_completion p) (errors p).
Definition set_processed_records (v : Z) (p : t) : t :=
    mk (total_records p) v (successful_records p) (failed_records p)
       (skipped_records p) (current_source p) (start_time p)
       (estimated_completion p) (errors p).
Definition set_successful_records (v : Z) (p : t) : t :=
    mk (total_records p) (processed_records p) v (failed_records p)
       (skipped_records p) (current_source p) (start_time p)
       (estimated_completion p) (errors p).
Definition set_failed_records (v : Z) (p : t) : t :=
    mk (total_records p) (processed_records p) (successful_records p) v
       (skipped_records p) (current_source p) (start_time p)
       (estimated_completion p) (errors p).
Definition set_current_source (v : option string) (p : t) : t :=
    mk (total_records p) (processed_records p) (successful_records p)
       (failed_records p) (skipped_records p) v (start_time p)
       (estimated_completion p) (errors p).
Definition set_start_time (v : option datetime) (p : t) : t :=
    mk (total_records p) (processed_records p) (successful_records p)
       (failed_records p) (skipped_records p) (current_source p) v
       (estimated_completion p) (errors p).
Definition set_estimated_completion (v : option datetime) (p : t) : t :=
    mk (total_records p) (processed_records p) (successful_records p)
       (failed_records p) (skipped_records p) (current_source p) (start_time p)
       v (errors p).
End MigrationProgress.

(** A stored source document (analytics, session, transaction, smart
    contract).  The fields the migrator reads by name are explicit; a key
    that is absent is [None].  The remaining fields only feed the content
    templates and stay opaque in [payload]. *)
Module SourceRecord.
Record t : Type := mk {
    _id : option string;
    siteId : option string;
    teamId : option string;
    contractId : option string;
    payload : string
  }.
End SourceRecord.

(** A Mongo filter, as the migrator builds it. *)
Module Filter.
Record t : Type := mk {
    siteId_in : option (list string);
    contractId_in : option (list string);
    createdAt_gte : option datetime;
    createdAt_lte : option datetime
  }.
Definition empty : t := mk None None None None.
End Filter.

Module VectorDocument.
Record t : Type := mk {
    documentId : string;
    sourceType : string;
    sourceId : string;
    siteId : option string;
    teamId : option string;
    embedding : list float;
    content : option nat;
    dataType : string;
    originalRecord : SourceRecord.t;
    embeddingModel : option string;
    qualityScore : option float;
    processingTime : option float;
    migrationTimestamp : datetime;
    status : string;
    createdAt : datetime;
    updatedAt : datetime
  }.
End VectorDocument.

(** An entry of the list a batch processor returns. *)
Module RecordOutcome.
Inductive t : Type :=
  | Success (record_id : option string)
  | Failure (error : option string).

Definition success (r : t) : bool :=
    match r with Success _ => true | Failure _ => false end.
End RecordOutcome.

Module MigrationMetadata.
Inductive t : Type :=
  | Completed (migration_config : MigrationConfig.t) (completion_time : datetime)
  | Error (error : string)
  | Message (message : string)
  | Totals (total_records : nat) (successful_migrations : Z).
End MigrationMetadata.

Module MigrationResult.
Record t : Type := mk {
    success : bool;
    progress : MigrationProgress.t;
    processing_time : float;
    metadata : MigrationMetadata.t
  }.
End MigrationResult.

(* ===================================================================== *)
(** ** Collaborators                                                       *)
(* ===================================================================== *)

(** What the two services call but do not implement: the embedding
    providers, the document store ([utils/database.py] re-raises whatever
    the driver raises), the clocks and the hash function.  [World] is the
    state of everything outside the process; each call may change it and may
    raise. *)
Class Env (World : Type) : Type := {
(** [hashlib.md5(s.encode()).hexdigest()] *)
  md5_hexdigest : string -> string;
(** [time.time()] *)
  time_time : World -> float * World;
(** [datetime.now()] *)
  datetime_now : World -> datetime * World;
(** the API call behind [_generate_<model>_embedding], array conversion
      included *)
  provider_embed : EmbeddingModel.t -> string -> World -> outcome Np.ndarray * World;
(** [db.find_one_document("embedding_cache", {"cache_key": key})] *)
  db_find_one_cache : string -> World -> outcome (option CacheDoc.t) * World;
(** [db.insert_document("embedding_cache", doc)] *)
  db_insert_cache : CacheDoc.t -> World -> outcome string * World;
(** [db.find_documents(collection, filter)] *)
  db_find_documents : string -> Filter.t -> World -> outcome (list SourceRecord.t) * World;
(** [db.count_documents(collection, filter)] *)
  db_count_documents : string -> Filter.t -> World -> outcome Z * World;
(** [db.insert_document("vectordocuments", doc)] *)
  db_insert_vector : VectorDocument.t -> World -> outcome string * World;
(** the three content templates [_extract_<kind>_content]: pure functions
      of the stored record, whose fields beyond the identifiers stay opaque *)
  extract_analytics_content : SourceRecord.t -> outcome string;
  extract_session_content : SourceRecord.t -> outcome string;
  extract_transaction_content : SourceRecord.t -> outcome string
}.

(** What a run did to its collaborators, in order (a ghost record: the
    program keeps no such list). *)
Inductive event : Type :=
| ProviderCall (model : EmbeddingModel.t) (text : string)
| CacheFind (key : string)
| CacheInsert (key : string)
| VectorInsert (documentId : string).

(* ===================================================================== *)
(** ** utils/logger.py                                                     *)
(* ===================================================================== *)

Module Logger.

(** The names bound at the top level of [utils/logger.py]: its imports
      ([sys], [os], [Path], [logger], [Optional]) and its definitions.  The
      module [time] is imported inside the two decorators only, as a local
      name of each. *)
Definition module_globals : list string :=
    ["sys"; "os"; "Path"; "logger"; "Optional"; "setup_logger"; "get_logger";
     "log_performance"; "log_async_performance"; "LogContext"].

(** Reading a global name of the module. *)
Definition global_name (name : string) : outcome unit :=
    if bool_decide (name ∈ module_globals) then Ok tt
    else Raise (NameError ("name '" +:+ name +:+ "' is not defined")).

Section WithClock.
Context {S : Type} (time_time : M S float).

(** [@log_async_performance]: two clock readings (through its own
        [import time]) around the call, whose result or exception passes
        through. *)
Definition log_async_performance {A} (func : M S A) : M S A :=
      _ <- time_time;;
      result <- func;;
      _ <- time_time;;
      ret result.

(** [LogContext.__enter__]: [self.start_time = time.time()], where [time]
        is a global name of the module. *)
Definition LogContext__enter__ : M S unit :=
      lift_outcome (global_name "time");;;
      _ <- time_time;;
      ret tt.

(** [LogContext.__exit__]: reads [time.time()] again, logs, and returns
        [False]: an exception of the body is not suppressed. *)
Definition LogContext__exit__ : M S unit :=
      lift_outcome (global_name "time");;;
      _ <- time_time;;
      ret tt.

(** [with LogContext(...): body]. *)
Definition with_LogContext {A} (body : M S A) : M S A :=
      LogContext__enter__;;;
      fun s =>
        let '(o, s1) := body s in
        match LogContext__exit__ s1 with
        | (Ok _, s2) => (o, s2)
        | (Raise e, s2) => (Raise e, s2)
        end.
End WithClock.

End Logger.

(* ===================================================================== *)
(** ** services/embedding_generator.py                                     *)
(* ===================================================================== *)

Module Text.
(** The ASCII characters [str.isspace] accepts. *)
Definition is_space (a : ascii) : bool :=
    let n := nat_of_ascii a in
    (Nat.leb 9 n && Nat.leb n 13) || (Nat.leb 28 n && Nat.leb n 32).

Fixpoint lstrip (l : list ascii) : list ascii :=
    match l with
    | a :: l' => if is_space a then lstrip l' else l
    | [] => []
    end.

(** [s.strip()]. *)
Definition strip (s : string) : string :=
    string_of_list_ascii
      (rev (lstrip (rev (lstrip (list_ascii_of_string s))))).

(** [sep.join(parts)]. *)
Definition join (sep : string) (parts : list string) : string :=
    String.concat sep parts.

(** [s[:n]]. *)
Definition prefix (n : nat) (s : string) : string := String.substring 0 n s.

Definition nonempty (o : option string) : bool :=
    match o with Some s => negb (String.eqb s "") | None => false end.
End Text.

Module EmbeddingQualityValidator.

(** [_get_expected_dimensions]: [dimension_map.get(model, 768)]. *)
Definition _get_expected_dimensions (model : EmbeddingModel.t) : nat :=
    match model with
    | EmbeddingModel.GEMINI => 1536
    | EmbeddingModel.OPENAI => 3072
    | EmbeddingModel.SENTENCE_TRANSFORMER => 384
    | EmbeddingModel.HUGGINGFACE => 768
    | EmbeddingModel.LOCAL => 768
    end.

(** The five tests of [validate_embedding], in source order. *)
Definition dimension_ok (embedding : Np.ndarray) (model : EmbeddingModel.t) : bool :=
    Nat.eqb (length embedding) (_get_expected_dimensions model).
Definition finite_ok (embedding : Np.ndarray) : bool :=
    negb (Np.any_isnan embedding) && negb (Np.any_isinf embedding).
Definition magnitude_ok (embedding : Np.ndarray) : bool :=
    let magnitude := Np.linalg_norm embedding in
    PrimFloat.ltb 0.1 magnitude && PrimFloat.ltb magnitude 10.0.
Definition variance_ok (embedding : Np.ndarray) : bool :=
    PrimFloat.ltb 0.001 (Np.var embedding).
Definition text_ok (original_text : string) : bool :=
    Nat.ltb 10 (String.length original_text).

(** [quality_score += w] when the test passed. *)
Definition credit (passed : bool) (w : float) (quality_score : float) : float :=
    if passed then (quality_score + w)%float else quality_score.

(** [min(a, b)] on floats: [b] when [b < a], else [a]. *)
Definition py_min (a b : float) : float := if PrimFloat.ltb b a then b else a.

(** [validate_embedding].  No step of the body raises on a one-dimensional
      float array, so the [except] branch (which returns [0.0]) is not
      reachable from the callers modelled here. *)
Definition validate_embedding
      (embedding : Np.ndarray) (original_text : string) (model : EmbeddingModel.t) : float :=
    let quality_score := 0.0%float in
    let quality_score := credit (dimension_ok embedding model) 0.3 quality_score in
    let quality_score := credit (finite_ok embedding) 0.2 quality_score in
    let quality_score := credit (magnitude_ok embedding) 0.2 quality_score in
    let quality_score := credit (variance_ok embedding) 0.15 quality_score in
    let quality_score := credit (text_ok original_text) 0.15 quality_score in
    py_min quality_score 1.0.

End EmbeddingQualityValidator.

Module EmbeddingOptimizer.

(** [_normalize_embedding]: [embedding / norm if norm > 0 else embedding]. *)
Definition _normalize_embedding {F} `{FloatOps F} (embedding : list F) : list F :=
    let norm := Np.linalg_norm embedding in
    if f_lt f_zero norm then Np.div_scalar embedding norm else embedding.

(** [np.array(embeddings)] for a list of rows: the rows must have one
      length. *)
Definition as_matrix (embeddings : list Np.ndarray) : outcome (list Np.ndarray) :=
    match embeddings with
    | [] => Ok []
    | r :: _ =>
        if forallb (fun r' => Nat.eqb (length r') (length r)) embeddings
        then Ok embeddings
        else Raise (ValueError "setting an array element with a sequence")
    end.

Definition column (rows : list Np.ndarray) (j : nat) : Np.ndarray :=
    (fun r => nth j r 0%float) <$> rows.

Definition width (rows : list Np.ndarray) : nat :=
    match rows with [] => 0 | r :: _ => length r end.

(** [np.mean(a, axis=0)] and [np.std(a, axis=0)]. *)
Definition mean_axis0 (rows : list Np.ndarray) : Np.ndarray :=
    (fun j => Np.mean (column rows j)) <$> seq 0 (width rows).
Definition std_axis0 (rows : list Np.ndarray) : Np.ndarray :=
    (fun j => PrimFloat.sqrt (Np.var (column rows j))) <$> seq 0 (width rows).

(** [_standardize_embeddings]. *)
Definition _standardize_embeddings (embeddings : list Np.ndarray)
    : outcome (list Np.ndarray) :=
    match as_matrix embeddings with
    | Raise e => Raise e
    | Ok rows =>
        let mean := mean_axis0 rows in
        let std := std_axis0 rows in
        Ok ((fun r =>
               (fun '(x, (m, s)) => ((x - m) / (s + 1e-8))%float)
                 <$> zip r (zip mean std)) <$> rows)
    end.

(** [_center_embeddings]. *)
Definition _center_embeddings (embeddings : list Np.ndarray)
    : outcome (list Np.ndarray) :=
    match as_matrix embeddings with
    | Raise e => Raise e
    | Ok rows =>
        let mean := mean_axis0 rows in
        Ok ((fun r => (fun '(x, m) => (x - m)%float) <$> zip r mean) <$> rows)
    end.

(** [optimize_embeddings]: on any exception the input comes back. *)
Definition optimize_embeddings
      (embeddings : list Np.ndarray) (optimization_type : string) : list Np.ndarray :=
    let body : outcome (list Np.ndarray) :=
      if String.eqb optimization_type "normalize"
      then Ok (_normalize_embedding <$> embeddings)
      else if String.eqb optimization_type "standardize"
      then _standardize_embeddings embeddings
      else if String.eqb optimization_type "center"
      then _center_embeddings embeddings
      else Ok embeddings in
    match body with
    | Ok r => r
    | Raise _ => embeddings
    end.

End EmbeddingOptimizer.

Module EmbeddingGenerator.

(** The generator object and the world it talks to.  [batch_size] is
      [self.embedding_config['batch_size']]; [trace] is the ghost record of
      collaborator calls. *)
Record State (World : Type) : Type := mk {
    cache : gmap string EmbeddingResult.t;
    batch_size : Z;
    trace : list event;
    world : World
  }.
Arguments mk {World}.
Arguments cache {World}.
Arguments batch_size {World}.
Arguments trace {World}.
Arguments world {World}.

Section WithEnv.
Context {World : Type} {env : Env World}.

Definition set_cache (c : gmap string EmbeddingResult.t) (s : State World) : State World :=
      mk c (batch_size s) (trace s) (world s).
Definition log_event (e : event) : M (State World) unit :=
      modify (fun s => mk (cache s) (batch_size s) (trace s ++ [e]) (world s)).

(** A collaborator call that cannot raise, and one that can. *)
Definition ask {A} (f : World -> A * World) : M (State World) A :=
      fun s => let '(a, w) := f (world s) in
               (Ok a, mk (cache s) (batch_size s) (trace s) w).
Definition call {A} (f : World -> outcome A * World) : M (State World) A :=
      fun s => let '(o, w) := f (world s) in
               (o, mk (cache s) (batch_size s) (trace s) w).

(** [_generate_cache_key]. *)
Definition _generate_cache_key (text : string) (model : EmbeddingModel.t) : string :=
      md5_hexdigest (text +:+ ":" +:+ EmbeddingModel.value model).

(** [_format_context]. *)
Definition _format_context (context : Context.t) : string :=
      let context_parts :=
        (if Text.nonempty (Context.data_type context)
         then ["Data Type: " +:+ default "" (Context.data_type context)] else [])
        ++ (if Text.nonempty (Context.source_type context)
            then ["Source: " +:+ default "" (Context.source_type context)] else [])
        ++ (if Text.nonempty (Context.timeframe context)
            then ["Timeframe: " +:+ default "" (Context.timeframe context)] else [])
        ++ (match Context.importance context with
            | Some i => if Z.eqb i 0 then [] else ["Importance: " +:+ pretty i +:+ "/10"]
            | None => []
            end) in
      Text.join " | " context_parts.

(** [_preprocess_text]. *)
Definition _preprocess_text (text : string) (context : option Context.t) : string :=
      let processed_text := Text.strip text in
      let processed_text :=
        match context with
        | Some c =>
            if Context.truthy c
            then _format_context c +:+ String (ascii_of_nat 10) (String (ascii_of_nat 10) "")
                 +:+ processed_text
            else processed_text
        | None => processed_text
        end in
      let max_tokens := 8000 in
      if Nat.ltb max_tokens (String.length processed_text)
      then Text.prefix max_tokens processed_text
      else processed_text.

(** [_generate_gemini_embedding] and its three siblings: call the
        provider, log and re-raise what it raises. *)
Definition _generate_provider_embedding (model : EmbeddingModel.t) (text : string)
      : M (State World) Np.ndarray :=
      log_event (ProviderCall model text);;;
      try_except (call (provider_embed model text)) (fun e => raise e).

Definition _generate_gemini_embedding := _generate_provider_embedding EmbeddingModel.GEMINI.
Definition _generate_openai_embedding := _generate_provider_embedding EmbeddingModel.OPENAI.
Definition _generate_sentence_transformer_embedding :=
      _generate_provider_embedding EmbeddingModel.SENTENCE_TRANSFORMER.
Definition _generate_huggingface_embedding :=
      _generate_provider_embedding EmbeddingModel.HUGGINGFACE.

(** [_get_cached_embedding]: memory first, then the [embedding_cache]
        collection, whose hit is copied into memory. *)
Definition _get_cached_embedding (text : string) (model : EmbeddingModel.t)
      : M (State World) (option EmbeddingResult.t) :=
      let cache_key := _generate_cache_key text model in
      c <- gets cache;;
      match c !! cache_key with
      | Some r => ret (Some r)
      | None =>
          log_event (CacheFind cache_key);;;
          cached_doc <- call (db_find_one_cache cache_key);;
          match cached_doc with
          | Some doc =>
              let embedding := CacheDoc.embedding doc in
              let result :=
                EmbeddingResult.mk true (Some embedding)
                  (Some (EmbeddingModel.value model)) (Some (length embedding))
                  (Some (default 0.8%float (CacheDoc.quality_score doc)))
                  (Some 0.0%float)
                  (Some (default Metadata.Empty (CacheDoc.metadata doc)))
                  None in
              modify (fun s => set_cache (<[cache_key := result]> (cache s)) s);;;
              ret (Some result)
          | None => ret None
          end
      end.

(** [_cache_embedding]: memory, then the collection; a failing insert is
        logged and dropped. *)
Definition _cache_embedding
        (text : string) (model : EmbeddingModel.t) (result : EmbeddingResult.t)
      : M (State World) unit :=
      let cache_key := _generate_cache_key text model in
      modify (fun s => set_cache (<[cache_key := result]> (cache s)) s);;;
      embedding <- match EmbeddingResult.embedding result with
                   | Some v => ret v
                   | None => raise (Exn "AttributeError"
                                      "'NoneType' object has no attribute 'tolist'")
                   end;;
      created_at <- ask time_time;;
      let cache_doc :=
        CacheDoc.mk cache_key text (EmbeddingModel.value model) embedding
          (EmbeddingResult.quality_score result) (EmbeddingResult.metadata result)
          created_at in
      try_except
        (log_event (CacheInsert cache_key);;;
         _ <- call (db_insert_cache cache_doc);; ret tt)
        (fun _ => ret tt).

(** The body of the [try] of [generate_embedding]. *)
Definition generate_embedding_try
        (start_time : float) (text : string) (model : EmbeddingModel.t)
        (context : option Context.t) (use_cache : bool)
      : M (State World) EmbeddingResult.t :=
      cached_result <- (if use_cache then _get_cached_embedding text model else ret None);;
      match cached_result with
      | Some r => ret r
      | None =>
          let processed_text := _preprocess_text text context in
          embedding <-
            match model with
            | EmbeddingModel.GEMINI => _generate_gemini_embedding processed_text
            | EmbeddingModel.OPENAI => _generate_openai_embedding processed_text
            | EmbeddingModel.SENTENCE_TRANSFORMER =>
                _generate_sentence_transformer_embedding processed_text
            | EmbeddingModel.HUGGINGFACE => _generate_huggingface_embedding processed_text
            | EmbeddingModel.LOCAL =>
                raise (ValueError ("Unsupported model: " +:+ EmbeddingModel.repr model))
            end;;
          let quality_score :=
            EmbeddingQualityValidator.validate_embedding embedding text model in
          now <- ask time_time;;
          let result :=
            EmbeddingResult.mk true (Some embedding)
              (Some (EmbeddingModel.value model)) (Some (length embedding))
              (Some quality_score) (Some (now - start_time)%float)
              (Some (Metadata.Generated (String.length text)
                       (String.length processed_text) context))
              None in
          (if use_cache then _cache_embedding text model result else ret tt);;;
          ret result
      end.

(** [generate_embedding], before decoration. *)
Definition generate_embedding__wrapped
        (text : string) (model : EmbeddingModel.t)
        (context : option Context.t) (use_cache : bool)
      : M (State World) EmbeddingResult.t :=
      start_time <- ask time_time;;
      try_except
        (generate_embedding_try start_time text model context use_cache)
        (fun e =>
           now <- ask time_time;;
           ret (EmbeddingResult.failed (str e) (Some (now - start_time)%float))).

(** [generate_embedding], as callers see it. *)
Definition generate_embedding
        (text : string) (model : EmbeddingModel.t)
        (context : option Context.t) (use_cache : bool)
      : M (State World) EmbeddingResult.t :=
      Logger.log_async_performance (ask time_time)
        (generate_embedding__wrapped text model context use_cache).

(** [context[i] if context else None]: the context of the text at position
        [i] of a batch; a list of contexts that is not empty and has no
        position [i] is an [IndexError]. *)
Definition text_context_at (context : option (list Context.t)) (i : nat)
      : outcome (option Context.t) :=
      match context with
      | Some ((_ :: _) as cs) =>
          match cs !! i with
          | Some c => Ok (Some c)
          | None => Raise (Exn "IndexError" "list index out of range")
          end
      | _ => Ok None
      end.

(** The first loop of [_process_batch]: one task per text, submitted in the
        order of the texts.  It yields the tasks submitted and, when
        [context[i]] raised, the exception that stopped it. *)
Fixpoint submit_tasks
        (texts : list (nat * string)) (model : EmbeddingModel.t)
        (context : option (list Context.t)) (use_cache : bool)
      : list (M (State World) EmbeddingResult.t) * option exn :=
      match texts with
      | [] => ([], None)
      | (i, text) :: rest =>
          match text_context_at context i with
          | Ok text_context =>
              let '(futures, stopped) := submit_tasks rest model context use_cache in
              (generate_embedding text model text_context use_cache :: futures, stopped)
          | Raise e => ([], Some e)
          end
      end.

(** [_process_batch].  Every text becomes a task of the thread pool and
        [as_completed] hands the results back in the order the tasks finish:
        [completion_order] is that order, a permutation of the positions of
        [texts] chosen by the scheduler.  A task runs [generate_embedding] to
        its end before the next one is looked at.  When the submitting loop
        raises, leaving the [with] block waits for the tasks submitted so
        far, whose results nobody reads, and the exception goes on to the
        caller. *)
Definition _process_batch
        (texts : list string) (model : EmbeddingModel.t)
        (context : option (list Context.t)) (use_cache : bool) (max_workers : Z)
        (completion_order : list nat)
      : M (State World) (list EmbeddingResult.t) :=
      (if Z.leb max_workers 0
       then raise (ValueError "max_workers must be greater than 0")
       else ret tt);;;
      let '(futures, stopped) :=
        submit_tasks (zip (seq 0 (length texts)) texts) model context use_cache in
      match stopped with
      | None =>
          map_m (fun i =>
                   match futures !! i with
                   | Some future =>
                       try_except future
                         (fun e => ret (EmbeddingResult.failed (str e) None))
                   | None => raise (Exn "IndexError" "no such task")
                   end)
                completion_order
      | Some e =>
          for_each completion_order
            (fun i =>
               match futures !! i with
               | Some future => try_except (_ <- future;; ret tt) (fun _ => ret tt)
               | None => ret tt
               end);;;
          raise e
      end.

(** The accumulators of [generate_batch_embeddings]. *)
Record Collected : Type := collected {
      c_embeddings : list (option Np.ndarray);
      c_failed_indices : list nat;
      c_quality_scores : list (option float);
      c_errors : list (option string)
    }.

(** The inner loop [for j, result in enumerate(batch_results)]. *)
Definition collect_result (i : nat) (acc : Collected) (jr : nat * EmbeddingResult.t)
      : Collected :=
      let '(j, result) := jr in
      if EmbeddingResult.success result
      then collected (c_embeddings acc ++ [EmbeddingResult.embedding result])
                     (c_failed_indices acc)
                     (c_quality_scores acc ++ [EmbeddingResult.quality_score result])
                     (c_errors acc)
      else collected (c_embeddings acc ++ [None])
                     (c_failed_indices acc ++ [i + j])
                     (c_quality_scores acc ++ [Some 0.0%float])
                     (c_errors acc ++ [EmbeddingResult.error result]).

Definition collect_batch (i : nat) (acc : Collected)
        (batch_results : list EmbeddingResult.t) : Collected :=
      fold_left (collect_result i) (zip (seq 0 (length batch_results)) batch_results) acc.

(** The outer loop [for i in range(0, len(texts), batch_size)]; [schedule i]
        is the completion order of the batch that starts at [i]. *)
Fixpoint process_batches
        (starts : list nat) (texts : list string) (model : EmbeddingModel.t)
        (batch_size : nat) (context : option (list Context.t)) (use_cache : bool)
        (max_workers : Z) (schedule : nat -> list nat) (acc : Collected)
      : M (State World) Collected :=
      match starts with
      | [] => ret acc
      | i :: starts' =>
          let batch_texts := slice texts i (i + batch_size) in
          let batch_context :=
            match context with
            | Some ((_ :: _) as cs) => Some (slice cs i (i + batch_size))
            | _ => None
            end in
          batch_results <-
            _process_batch batch_texts model batch_context use_cache max_workers
              (schedule i);;
          process_batches starts' texts model batch_size context use_cache
            max_workers schedule (collect_batch i acc batch_results)
      end.

(** [[q for q in quality_scores if q > 0]]: comparing [None] with a
        number is a [TypeError]. *)
Fixpoint positive_scores (qs : list (option float)) : outcome (list float) :=
      match qs with
      | [] => Ok []
      | None :: _ =>
          Raise (TypeError "'>' not supported between instances of 'NoneType' and 'int'")
      | Some q :: qs' =>
          match positive_scores qs' with
          | Ok r => Ok (if PrimFloat.ltb 0 q then q :: r else r)
          | Raise e => Raise e
          end
      end.

(** [generate_batch_embeddings], before decoration. *)
Definition generate_batch_embeddings__wrapped
        (texts : list string) (model : EmbeddingModel.t) (batch_size : option Z)
        (context : option (list Context.t)) (use_cache : bool) (max_workers : Z)
        (schedule : nat -> list nat)
      : M (State World) BatchEmbeddingResult.t :=
      start_time <- ask time_time;;
      try_except
        (match texts with
         | [] =>
             ret (BatchEmbeddingResult.mk false None None 0 None None None
                    (Some [Some "No texts provided"]))
         | _ =>
             configured <- gets EmbeddingGenerator.batch_size;;
             let batch_size :=
               match batch_size with
               | Some b => if Z.eqb b 0 then configured else b
               | None => configured
               end in
             starts <- lift_outcome (py_range (length texts) batch_size);;
             acc <- process_batches starts texts model (Z.to_nat batch_size) context
                      use_cache max_workers schedule (collected [] [] [] []);;
             let embeddings := c_embeddings acc in
             let failed_indices := c_failed_indices acc in
             let quality_scores := c_quality_scores acc in
             let successful_embeddings :=
               filter (fun e => is_Some e) embeddings in
             avg_quality <-
               match quality_scores with
               | [] => ret 0%float
               | _ => qs <- lift_outcome (positive_scores quality_scores);;
                      ret (Np.mean qs)
               end;;
             now <- ask time_time;;
             ret (BatchEmbeddingResult.mk
                    (Nat.ltb 0 (length successful_embeddings))
                    (Some embeddings) (Some failed_indices) (length texts)
                    (Some (now - start_time)%float) (Some quality_scores)
                    (Some (BatchMetadata.mk (length successful_embeddings)
                             (length failed_indices) avg_quality
                             (EmbeddingModel.value model) batch_size))
                    (Some (c_errors acc)))
         end)
        (fun e =>
           now <- ask time_time;;
           ret (BatchEmbeddingResult.mk false None None 0
                  (Some (now - start_time)%float) None None (Some [Some (str e)]))).

(** [generate_batch_embeddings], as callers see it. *)
Definition generate_batch_embeddings
        (texts : list string) (model : EmbeddingModel.t) (batch_size : option Z)
        (context : option (list Context.t)) (use_cache : bool) (max_workers : Z)
        (schedule : nat -> list nat)
      : M (State World) BatchEmbeddingResult.t :=
      Logger.log_async_performance (ask time_time)
        (generate_batch_embeddings__wrapped texts model batch_size context use_cache
           max_workers schedule).

(** [calculate_similarity]: every exception of the body, the one for an
        unknown method included, is logged and answered with [0.0]. *)
Definition calculate_similarity_try
        (embedding1 embedding2 : Np.ndarray) (method : string) : outcome float :=
      if String.eqb method "cosine"
      then Np.cosine_similarity embedding1 embedding2
      else if String.eqb method "euclidean"
      then match Np.subtract embedding1 embedding2 with
           | Ok d => Ok (1 / (1 + Np.linalg_norm d))%float
           | Raise e => Raise e
           end
      else if String.eqb method "dot"
      then Np.dot embedding1 embedding2
      else Raise (ValueError ("Unsupported similarity method: " +:+ method)).

Definition calculate_similarity
        (embedding1 embedding2 : Np.ndarray) (method : string) : outcome float :=
      match calculate_similarity_try embedding1 embedding2 method with
      | Ok x => Ok x
      | Raise _ => Ok 0.0%float
      end.

End WithEnv.
End EmbeddingGenerator.

(* ===================================================================== *)
(** ** json, as the checkpoint code uses it                                *)
(* ===================================================================== *)

Module Json.

(** The Python values that reach [json.dump] here. *)
Inductive pyval : Type :=
  | PNone
  | PBool (b : bool)
  | PInt (z : Z)
  | PStr (s : string)
  | PList (l : list pyval)
  | PDict (d : list (string * pyval))
  | PEnum (cls : string) (member : string).

(** The lexemes of a JSON text; a file holds the lexemes written so far. *)
Inductive token : Type :=
  | TLBrace | TRBrace | TLBracket | TRBracket | TComma | TColon
  | TNull | TTrue | TFalse | TNum (z : Z) | TString (s : string).

(** [json.dump(v, f)] writes chunk after chunk and stops at the first
      object the encoder has no rule for: [encode v] is what reached the
      file, and the exception if there was one.  An [Enum] member has no
      rule. *)
Fixpoint encode (v : pyval) : list token * option exn :=
    match v with
    | PNone => ([TNull], None)
    | PBool b => ([if b then TTrue else TFalse], None)
    | PInt z => ([TNum z], None)
    | PStr s => ([TString s], None)
    | PEnum cls _ =>
        ([], Some (TypeError ("Object of type " +:+ cls +:+ " is not JSON serializable")))
    | PList l =>
        let fix items (l : list pyval) (first : bool) : list token * option exn :=
          match l with
          | [] => ([TRBracket], None)
          | x :: r =>
              let sep := if first then [] else [TComma] in
              match encode x with
              | (tx, Some e) => (sep ++ tx, Some e)
              | (tx, None) =>
                  let '(tr, er) := items r false in (sep ++ tx ++ tr, er)
              end
          end in
        let '(ts, e) := items l true in (TLBracket :: ts, e)
    | PDict d =>
        let fix members (d : list (string * pyval)) (first : bool)
          : list token * option exn :=
          match d with
          | [] => ([TRBrace], None)
          | (k, x) :: r =>
              let sep := if first then [] else [TComma] in
              match encode x with
              | (tx, Some e) => (sep ++ [TString k; TColon] ++ tx, Some e)
              | (tx, None) =>
                  let '(tr, er) := members r false in
                  (sep ++ [TString k; TColon] ++ tx ++ tr, er)
              end
          end in
        let '(ts, e) := members d true in (TLBrace :: ts, e)
    end.

(** A recursive-descent reader of one value; [None] on malformed or
      incomplete input.  [fuel] bounds the nesting and the number of
      elements; the length of the input is enough. *)
Fixpoint parse_value (fuel : nat) (ts : list token) : option (pyval * list token) :=
    match fuel with
    | 0 => None
    | S fuel' =>
        match ts with
        | TNull :: r => Some (PNone, r)
        | TTrue :: r => Some (PBool true, r)
        | TFalse :: r => Some (PBool false, r)
        | TNum z :: r => Some (PInt z, r)
        | TString s :: r => Some (PStr s, r)
        | TLBracket :: TRBracket :: r => Some (PList [], r)
        | TLBracket :: r =>
            (fix items (n : nat) (ts : list token) (acc : list pyval)
               : option (pyval * list token) :=
               match n with
               | 0 => None
               | S n' =>
                   match parse_value fuel' ts with
                   | Some (v, TComma :: r') => items n' r' (acc ++ [v])
                   | Some (v, TRBracket :: r') => Some (PList (acc ++ [v]), r')
                   | _ => None
                   end
               end) fuel' r []
        | TLBrace :: TRBrace :: r => Some (PDict [], r)
        | TLBrace :: r =>
            (fix members (n : nat) (ts : list token) (acc : list (string * pyval))
               : option (pyval * list token) :=
               match n with
               | 0 => None
               | S n' =>
                   match ts with
                   | TString k :: TColon :: r1 =>
                       match parse_value fuel' r1 with
                       | Some (v, TComma :: r') => members n' r' (acc ++ [(k, v)])
                       | Some (v, TRBrace :: r') => Some (PDict (acc ++ [(k, v)]), r')
                       | _ => None
                       end
                   | _ => None
                   end
               end) fuel' r []
        | _ => None
        end
    end.

(** [json.load] on the content of a file. *)
Definition load (content : list token) : outcome pyval :=
    match parse_value (S (length content)) content with
    | Some (v, []) => Ok v
    | Some (_, _ :: _) => Raise (JSONDecodeError "Extra data")
    | None => Raise (JSONDecodeError "Expecting value")
    end.

(** [d[k]] on a loaded value. *)
Definition getitem (v : pyval) (k : string) : outcome pyval :=
    match v with
    | PDict d =>
        match list_find (fun kv => kv.1 = k) (reverse d) with
        | Some (_, (_, x)) => Ok x
        | None => Raise (KeyError k)
        end
    | _ => Raise (TypeError "object is not subscriptable")
    end.

End Json.

(* ===================================================================== *)
(** ** services/vector_migrator.py                                         *)
(* ===================================================================== *)

Module VectorMigrator.

(** The migrator object, its own generator, and the files on disk. *)
Record State (World : Type) : Type := mk {
    config : MigrationConfig.t;
    progress : MigrationProgress.t;
    checkpoint_file : string;
    is_running : bool;
    should_pause : bool;
    embedding_generator : EmbeddingGenerator.State World;
    files : gmap string (list Json.token)
  }.
Arguments mk {World}.
Arguments config {World}.
Arguments progress {World}.
Arguments checkpoint_file {World}.
Arguments is_running {World}.
Arguments should_pause {World}.
Arguments embedding_generator {World}.
Arguments files {World}.

(** The three record kinds with a migration of their own.  The three
      copies of [migrate_<kind>_data] and of [_process_<kind>_batch] in the
      source differ in these constants only. *)
Inductive SourceKind : Type := Analytics | Session | Transaction.

Definition collection (k : SourceKind) : string :=
    match k with
    | Analytics => "analytics" | Session => "sessions" | Transaction => "transactions"
    end.
Definition data_type (k : SourceKind) : string :=
    match k with
    | Analytics => "analytics" | Session => "session" | Transaction => "transaction"
    end.
Definition importance (k : SourceKind) : Z :=
    match k with Analytics => 7 | Session => 6 | Transaction => 8 end.

(** Truth value of an optional list: present and not empty. *)
Definition truthy {A} (l : option (list A)) : bool :=
    match l with Some (_ :: _) => true | _ => false end.

Definition EmbeddingModel_name (m : EmbeddingModel.t) : string :=
    match m with
    | EmbeddingModel.GEMINI => "GEMINI"
    | EmbeddingModel.OPENAI => "OPENAI"
    | EmbeddingModel.SENTENCE_TRANSFORMER => "SENTENCE_TRANSFORMER"
    | EmbeddingModel.HUGGINGFACE => "HUGGINGFACE"
    | EmbeddingModel.LOCAL => "LOCAL"
    end.

(** [self.config.__dict__]: the fields of the dataclass, in order; the
      source types and the embedding model are [Enum] members. *)
Definition config__dict__ (c : MigrationConfig.t) : Json.pyval :=
    Json.PDict
      [("source_types",
        Json.PList ((fun s => Json.PEnum "DataSource" (DataSource.name s))
                      <$> MigrationConfig.source_types c));
       ("batch_size", Json.PInt (MigrationConfig.batch_size c));
       ("max_workers", Json.PInt (MigrationConfig.max_workers c));
       ("embedding_model",
        Json.PEnum "EmbeddingModel"
          (EmbeddingModel_name (MigrationConfig.embedding_model c)));
       ("validate_data", Json.PBool (MigrationConfig.validate_data c));
       ("optimize_embeddings", Json.PBool (MigrationConfig.optimize_embeddings c));
       ("backup_original", Json.PBool (MigrationConfig.backup_original c));
       ("resume_from_checkpoint", Json.PBool (MigrationConfig.resume_from_checkpoint c))].

(** The dictionary [_save_checkpoint] hands to [json.dump]. *)
Definition checkpoint_data
      (p : MigrationProgress.t) (c : MigrationConfig.t) (timestamp : datetime)
    : Json.pyval :=
    Json.PDict
      [("progress",
        Json.PDict
          [("total_records", Json.PInt (MigrationProgress.total_records p));
           ("processed_records", Json.PInt (MigrationProgress.processed_records p));
           ("successful_records", Json.PInt (MigrationProgress.successful_records p));
           ("failed_records", Json.PInt (MigrationProgress.failed_records p));
           ("current_source",
            match MigrationProgress.current_source p with
            | Some s => Json.PStr s
            | None => Json.PNone
            end)]);
       ("config", config__dict__ c);
       ("timestamp", Json.PStr timestamp)].

(** The checkpoint is written by [_save_checkpoint] only: a counter that
      is not an integer, or a source that is neither a string nor [null],
      counts as a load error. *)
Definition as_int (v : Json.pyval) : outcome Z :=
    match v with
    | Json.PInt z => Ok z
    | _ => Raise (TypeError "counter is not an integer")
    end.
Definition as_optional_str (v : Json.pyval) : outcome (option string) :=
    match v with
    | Json.PStr s => Ok (Some s)
    | Json.PNone => Ok None
    | _ => Raise (TypeError "source is not a string")
    end.

Section WithEnv.
Context {World : Type} {env : Env World}.

Definition set_progress (p : MigrationProgress.t) (s : State World) : State World :=
      mk (config s) p (checkpoint_file s) (is_running s) (should_pause s)
         (embedding_generator s) (files s).
Definition set_is_running (b : bool) (s : State World) : State World :=
      mk (config s) (progress s) (checkpoint_file s) b (should_pause s)
         (embedding_generator s) (files s).
Definition set_should_pause (b : bool) (s : State World) : State World :=
      mk (config s) (progress s) (checkpoint_file s) (is_running s) b
         (embedding_generator s) (files s).
Definition set_embedding_generator
        (g : EmbeddingGenerator.State World) (s : State World) : State World :=
      mk (config s) (progress s) (checkpoint_file s) (is_running s) (should_pause s)
         g (files s).
Definition set_files (f : gmap string (list Json.token)) (s : State World)
      : State World :=
      mk (config s) (progress s) (checkpoint_file s) (is_running s) (should_pause s)
         (embedding_generator s) f.

Definition update_progress (f : MigrationProgress.t -> MigrationProgress.t)
      : M (State World) unit :=
      modify (fun s => set_progress (f (progress s)) s).

(** A call on [self.embedding_generator], and the collaborator calls. *)
Definition on_generator {A} (m : M (EmbeddingGenerator.State World) A)
      : M (State World) A :=
      zoom embedding_generator set_embedding_generator m.
Definition ask {A} (f : World -> A * World) : M (State World) A :=
      on_generator (EmbeddingGenerator.ask f).
Definition call {A} (f : World -> outcome A * World) : M (State World) A :=
      on_generator (EmbeddingGenerator.call f).

(** [_save_checkpoint]: [open(..., 'w')] creates or empties the file,
        [json.dump] writes what it can encode, any exception is logged. *)
Definition _save_checkpoint : M (State World) unit :=
      s <- get;;
      timestamp <- ask datetime_now;;
      let data := checkpoint_data (progress s) (config s) timestamp in
      try_except
        (modify (fun s => set_files (<[checkpoint_file s := []]> (files s)) s);;;
         let '(written, err) := Json.encode data in
         modify (fun s => set_files (<[checkpoint_file s := written]> (files s)) s);;;
         match err with
         | Some e => raise e
         | None => ret tt
         end)
        (fun _ => ret tt).

(** [_load_checkpoint]: both [except] branches only log. *)
Definition _load_checkpoint : M (State World) unit :=
      try_except
        (s <- get;;
         content <- match files s !! checkpoint_file s with
                    | Some c => ret c
                    | None => raise (FileNotFoundError (checkpoint_file s))
                    end;;
         data <- lift_outcome (Json.load content);;
         progress_data <- lift_outcome (Json.getitem data "progress");;
         v <- lift_outcome (and_then (Json.getitem progress_data "total_records") as_int);;
         update_progress (MigrationProgress.set_total_records v);;;
         v <- lift_outcome (and_then (Json.getitem progress_data "processed_records") as_int);;
         update_progress (MigrationProgress.set_processed_records v);;;
         v <- lift_outcome (and_then (Json.getitem progress_data "successful_records") as_int);;
         update_progress (MigrationProgress.set_successful_records v);;;
         v <- lift_outcome (and_then (Json.getitem progress_data "failed_records") as_int);;
         update_progress (MigrationProgress.set_failed_records v);;;
         v <- lift_outcome (and_then (Json.getitem progress_data "current_source") as_optional_str);;
         update_progress (MigrationProgress.set_current_source v))
        (fun _ => ret tt).

(** [_finalize_migration]: stamps the completion time and removes the
        checkpoint file if there is one. *)
Definition _finalize_migration : M (State World) unit :=
      now <- ask datetime_now;;
      update_progress (MigrationProgress.set_estimated_completion (Some now));;;
      try_except
        (modify (fun s =>
                   match files s !! checkpoint_file s with
                   | Some _ => set_files (delete (checkpoint_file s) (files s)) s
                   | None => s
                   end))
        (fun _ => ret tt).

(** [pause_migration] and [resume_migration]. *)
Definition pause_migration : M (State World) unit :=
      modify (set_should_pause true);;;
      _save_checkpoint.
Definition resume_migration : M (State World) unit :=
      modify (set_should_pause false);;;
      _load_checkpoint.

(** [[str(c["_id"]) for c in contracts]]. *)
Definition contract_ids_of (contracts : list SourceRecord.t) : outcome (list string) :=
      foldr (fun c acc =>
               match SourceRecord._id c, acc with
               | Some i, Ok r => Ok (i :: r)
               | None, _ => Raise (KeyError "_id")
               | _, Raise e => Raise e
               end) (Ok []) contracts.

Definition siteId_filter (site_ids : option (list string)) : Filter.t :=
      if truthy site_ids then Filter.mk site_ids None None None else Filter.empty.
Definition contractId_filter (contract_ids : option (list string)) : Filter.t :=
      if truthy contract_ids then Filter.mk None contract_ids None None else Filter.empty.
Definition with_dates (start_date end_date : option datetime) (f : Filter.t) : Filter.t :=
      match start_date, end_date with
      | None, None => f
      | _, _ => Filter.mk (Filter.siteId_in f) (Filter.contractId_in f) start_date end_date
      end.

(** [_count_source_records]. *)
Definition _count_source_records
        (source : DataSource.t) (site_ids team_ids : option (list string))
        (start_date end_date : option datetime) : M (State World) Z :=
      match source with
      | DataSource.ANALYTICS =>
          call (db_count_documents "analytics"
                  (with_dates start_date end_date (siteId_filter site_ids)))
      | DataSource.SESSIONS =>
          call (db_count_documents "sessions"
                  (with_dates start_date end_date (siteId_filter site_ids)))
      | DataSource.CAMPAIGNS =>
          call (db_count_documents "campaigns"
                  (with_dates start_date end_date (siteId_filter site_ids)))
      | DataSource.TRANSACTIONS =>
          filter_dict <-
            (if truthy site_ids
             then contracts <- call (db_find_documents "smartcontracts"
                                       (siteId_filter site_ids));;
                  contract_ids <- lift_outcome (contract_ids_of contracts);;
                  ret (Filter.mk None (Some contract_ids) None None)
             else ret Filter.empty);;
          call (db_count_documents "transactions"
                  (with_dates start_date end_date filter_dict))
      | _ => ret 0%Z
      end.

(** [_calculate_total_records]. *)
Fixpoint count_sources
        (sources : list DataSource.t) (site_ids team_ids : option (list string))
        (start_date end_date : option datetime) (total : Z) : M (State World) Z :=
      match sources with
      | [] => ret total
      | source :: rest =>
          count <- _count_source_records source site_ids team_ids start_date end_date;;
          count_sources rest site_ids team_ids start_date end_date (total + count)%Z
      end.

Definition _calculate_total_records
        (site_ids team_ids : option (list string))
        (start_date end_date : option datetime) : M (State World) unit :=
      cfg <- gets config;;
      total <- count_sources (MigrationConfig.source_types cfg) site_ids team_ids
                 start_date end_date 0%Z;;
      update_progress (MigrationProgress.set_total_records total).

(** [_extract_<kind>_content]. *)
Definition _extract_content (k : SourceKind) (record : SourceRecord.t) : outcome string :=
      match k with
      | Analytics => extract_analytics_content record
      | Session => extract_session_content record
      | Transaction => extract_transaction_content record
      end.

(** The [context] dictionary a batch processor passes with a record. *)
Definition record_context (k : SourceKind) (record : SourceRecord.t) : Context.t :=
      match k with
      | Transaction =>
Context.mk (Some (data_type k)) (Some (data_type k)) None (Some (importance k))
            None (SourceRecord.contractId record)
      | _ =>
Context.mk (Some (data_type k)) (Some (data_type k)) None (Some (importance k))
            (SourceRecord.siteId record) None
      end.

(** [_create_vector_document]. *)
Definition _create_vector_document
        (original_record : SourceRecord.t) (embedding_result : EmbeddingResult.t)
        (source_type : string) : M (State World) VectorDocument.t :=
      source_id <- match SourceRecord._id original_record with
                   | Some i => ret i
                   | None => raise (KeyError "_id")
                   end;;
      embedding <- match EmbeddingResult.embedding embedding_result with
                   | Some v => ret v
                   | None => raise (Exn "AttributeError"
                                      "'NoneType' object has no attribute 'tolist'")
                   end;;
      content <- match EmbeddingResult.metadata embedding_result with
                 | Some (Metadata.Generated _ n _) => ret (Some n)
                 | Some Metadata.Empty => ret None
                 | None => raise (Exn "AttributeError"
                                    "'NoneType' object has no attribute 'get'")
                 end;;
      migration_timestamp <- ask datetime_now;;
      created_at <- ask datetime_now;;
      updated_at <- ask datetime_now;;
      ret (VectorDocument.mk (source_type +:+ "_" +:+ source_id) source_type source_id
             (SourceRecord.siteId original_record) (SourceRecord.teamId original_record)
             embedding content source_type original_record
             (EmbeddingResult.model_used embedding_result)
             (EmbeddingResult.quality_score embedding_result)
             (EmbeddingResult.processing_time embedding_result)
             migration_timestamp "active" created_at updated_at).

(** One turn of the loop of [_process_<kind>_batch]: the entry appended
        to [results] for [record]. *)
Definition process_record (k : SourceKind) (record : SourceRecord.t)
      : M (State World) RecordOutcome.t :=
      try_except
        (content <- lift_outcome (_extract_content k record);;
         cfg <- gets config;;
         embedding_result <-
           on_generator
             (EmbeddingGenerator.generate_embedding content
                (MigrationConfig.embedding_model cfg)
                (Some (record_context k record)) true);;
         if EmbeddingResult.success embedding_result
         then
           vector_doc <- _create_vector_document record embedding_result (data_type k);;
           on_generator
             (EmbeddingGenerator.log_event
                (VectorInsert (VectorDocument.documentId vector_doc)));;;
           _ <- call (db_insert_vector vector_doc);;
           ret (RecordOutcome.Success (SourceRecord._id record))
         else ret (RecordOutcome.Failure (EmbeddingResult.error embedding_result)))
        (fun e => ret (RecordOutcome.Failure (Some (str e)))).

(** [_process_analytics_batch] and its two siblings. *)
Definition _process_batch_of (k : SourceKind) (batch : list SourceRecord.t)
      : M (State World) (list RecordOutcome.t) :=
      map_m (process_record k) batch.

Definition _process_analytics_batch := _process_batch_of Analytics.
Definition _process_session_batch := _process_batch_of Session.
Definition _process_transaction_batch := _process_batch_of Transaction.

(** [sum(1 for r in batch_results if r['success'])]. *)
Definition count_success (batch_results : list RecordOutcome.t) : Z :=
      Z.of_nat (length (filter (fun r => RecordOutcome.success r = true) batch_results)).

(** The loop [for i in range(0, total_records, batch_size)] of
        [migrate_<kind>_data]; it returns [successful_migrations]. *)
Fixpoint batch_loop
        (k : SourceKind) (data : list SourceRecord.t) (batch_size : nat)
        (starts : list nat) (successful_migrations : Z) : M (State World) Z :=
      match starts with
      | [] => ret successful_migrations
      | i :: starts' =>
          let batch := slice data i (i + batch_size) in
          batch_results <- _process_batch_of k batch;;
          let successful_migrations :=
            (successful_migrations + count_success batch_results)%Z in
          update_progress
            (fun p => MigrationProgress.set_processed_records
                        (MigrationProgress.processed_records p + Z.of_nat (length batch))%Z p);;;
          update_progress
            (fun p => MigrationProgress.set_successful_records
                        (MigrationProgress.successful_records p + successful_migrations)%Z p);;;
          batch_loop k data batch_size starts' successful_migrations
      end.

Definition result_now (success : bool) (start_time : float)
        (metadata : MigrationMetadata.t) : M (State World) MigrationResult.t :=
      p <- gets progress;;
      now <- ask time_time;;
      ret (MigrationResult.mk success p (now - start_time)%float metadata).

(** The block under [with LogContext(...)] in [migrate_<kind>_data]. *)
Definition migrate_kind_block
        (k : SourceKind) (ids : option (list string)) (batch_size : Z)
        (start_time : float) : M (State World) MigrationResult.t :=
      let filter_dict :=
        match k with
        | Transaction => contractId_filter ids
        | _ => siteId_filter ids
        end in
      data <- call (db_find_documents (collection k) filter_dict);;
      match data with
      | [] => result_now true start_time (MigrationMetadata.Message "No data to migrate")
      | _ =>
          let total_records := length data in
          starts <- lift_outcome (py_range total_records batch_size);;
          successful_migrations <-
            batch_loop k data (Z.to_nat batch_size) starts 0%Z;;
          result_now true start_time
            (MigrationMetadata.Totals total_records successful_migrations)
      end.

(** [migrate_<kind>_data], before decoration. *)
Definition migrate_kind_data__wrapped
        (k : SourceKind) (ids : option (list string)) (batch_size : option Z)
      : M (State World) MigrationResult.t :=
      start_time <- ask time_time;;
      cfg <- gets config;;
      let batch_size :=
        match batch_size with
        | Some b => if Z.eqb b 0 then MigrationConfig.batch_size cfg else b
        | None => MigrationConfig.batch_size cfg
        end in
      try_except
        (Logger.with_LogContext (ask time_time)
           (migrate_kind_block k ids batch_size start_time))
        (fun e => result_now false start_time (MigrationMetadata.Error (str e))).

Definition migrate_kind_data
        (k : SourceKind) (ids : option (list string)) (batch_size : option Z)
      : M (State World) MigrationResult.t :=
      Logger.log_async_performance (ask time_time)
        (migrate_kind_data__wrapped k ids batch_size).

(** [migrate_analytics_data], [migrate_session_data],
        [migrate_transaction_data]. *)
Definition migrate_analytics_data := migrate_kind_data Analytics.
Definition migrate_session_data := migrate_kind_data Session.
Definition migrate_transaction_data := migrate_kind_data Transaction.

(** [_migrate_data_source]: the result of the migration is dropped. *)
Definition _migrate_data_source
        (source : DataSource.t) (site_ids team_ids : option (list string))
        (start_date end_date : option datetime) : M (State World) unit :=
      cfg <- gets config;;
      match source with
      | DataSource.ANALYTICS =>
          _ <- migrate_analytics_data site_ids (Some (MigrationConfig.batch_size cfg));;
          ret tt
      | DataSource.SESSIONS =>
          _ <- migrate_session_data site_ids (Some (MigrationConfig.batch_size cfg));;
          ret tt
      | DataSource.TRANSACTIONS =>
          contract_ids <-
            (if truthy site_ids
             then contracts <- call (db_find_documents "smartcontracts"
                                       (Filter.mk site_ids None None None));;
                  ids <- lift_outcome (contract_ids_of contracts);;
                  ret (Some ids)
             else ret None);;
          _ <- migrate_transaction_data contract_ids
                 (Some (MigrationConfig.batch_size cfg));;
          ret tt
      | _ => ret tt
      end.

(** The loop [for source in self.config.source_types] of
        [migrate_all_data].  The run yields to the event loop at every
        [await]; [others k] is what the other coroutines did to the migrator
        (a [pause_migration], say) by the time the [k]-th turn tests
        [should_pause]. *)
Fixpoint source_loop
        (sources : list DataSource.t) (k : nat) (others : nat -> M (State World) unit)
        (site_ids team_ids : option (list string))
        (start_date end_date : option datetime) : M (State World) unit :=
      match sources with
      | [] => ret tt
      | source :: rest =>
          others k;;;
          paused <- gets should_pause;;
          if paused
          then _save_checkpoint
          else
            update_progress
              (MigrationProgress.set_current_source (Some (DataSource.value source)));;;
            _migrate_data_source source site_ids team_ids start_date end_date;;;
            source_loop rest (S k) others site_ids team_ids start_date end_date
      end.

(** The block under [with LogContext(...)] in [migrate_all_data]. *)
Definition migrate_all_block
        (others : nat -> M (State World) unit)
        (site_ids team_ids : option (list string))
        (start_date end_date : option datetime) (start_time : float)
      : M (State World) MigrationResult.t :=
      cfg <- gets config;;
      (if MigrationConfig.resume_from_checkpoint cfg then _load_checkpoint else ret tt);;;
      _calculate_total_records site_ids team_ids start_date end_date;;;
      source_loop (MigrationConfig.source_types cfg) 0 others
        site_ids team_ids start_date end_date;;;
      _finalize_migration;;;
      p <- gets progress;;
      now <- ask time_time;;
      completion_time <- ask datetime_now;;
      ret (MigrationResult.mk true p (now - start_time)%float
             (MigrationMetadata.Completed cfg completion_time)).

(** [migrate_all_data], before decoration. *)
Definition migrate_all_data__wrapped
        (others : nat -> M (State World) unit)
        (site_ids team_ids : option (list string))
        (start_date end_date : option datetime) : M (State World) MigrationResult.t :=
      start_time <- ask time_time;;
      modify (set_is_running true);;;
      now <- ask datetime_now;;
      update_progress (MigrationProgress.set_start_time (Some now));;;
      try_finally
        (try_except
           (Logger.with_LogContext (ask time_time)
              (migrate_all_block others site_ids team_ids start_date end_date start_time))
           (fun e => result_now false start_time (MigrationMetadata.Error (str e))))
        (set_is_running false).

Definition migrate_all_data
        (others : nat -> M (State World) unit)
        (site_ids team_ids : option (list string))
        (start_date end_date : option datetime) : M (State World) MigrationResult.t :=
      Logger.log_async_performance (ask time_time)
        (migrate_all_data__wrapped others site_ids team_ids start_date end_date).

End WithEnv.
End VectorMigrator.

(* ===================================================================== *)
(** ** Reference notions used by the statements                            *)
(* ===================================================================== *)

(** The rational number a finite binary64 value stands for. *)
Definition float_value (f : float) : Q :=
  match Prim2SF f with
  | S754_finite s m e =>
      let magnitude :=
        (inject_Z (Z.pos m)
         * (if (0 <=? e)%Z then inject_Z (2 ^ e) else / inject_Z (2 ^ (- e))))%Q in
      if s then (- magnitude)%Q else magnitude
  | _ => 0%Q
  end.

(** The quality score as the specification words it: the exact sum of the
    weights of the tests that pass, capped at one. *)
Definition weight (passed : bool) (w : Q) : Q := if passed then w else 0%Q.
Definition spec_quality_score (dimension finite magnitude variance text : bool) : Q :=
  Qmin 1
    (weight dimension (3 # 10) + weight finite (2 # 10) + weight magnitude (2 # 10)
     + weight variance (15 # 100) + weight text (15 # 100))%Q.

(** The score of [validate_embedding] as a function of the outcomes of its
    five tests. *)
Definition score_of (dimension finite magnitude variance text : bool) : float :=
  EmbeddingQualityValidator.py_min
    (EmbeddingQualityValidator.credit text 0.15
       (EmbeddingQualityValidator.credit variance 0.15
          (EmbeddingQualityValidator.credit magnitude 0.2
             (EmbeddingQualityValidator.credit finite 0.2
                (EmbeddingQualityValidator.credit dimension 0.3 0%float)))))
    1.0.

(** A vector whose components all compare equal to [0.0]. *)
Definition is_zero_vector (v : Np.ndarray) : bool :=
  forallb (fun x => PrimFloat.eqb x 0%float) v.

(** [n] components, alternately [a] and [-a]. *)
Fixpoint alternating (a : float) (n : nat) : Np.ndarray :=
  match n with
  | 0 => []
  | S n' => a :: alternating (- a)%float n'
  end.

(** A scripted world for the concrete runs.  The state of the world is the
    number of clock readings so far; the provider raises "API Error" when
    [failing] accepts the clock and the text, and embeds any other text as a
    two-component vector; the embedding cache collection is empty and
    accepts every insert; [store] gives the documents of each collection;
    the content of a record is its payload; the hash is the identity. *)
Definition scripted_env
    (failing : nat -> string -> bool) (store : string -> list SourceRecord.t)
  : Env nat := {|
  md5_hexdigest := fun s => s;
  time_time := fun w => (f_of_nat w, S w);
  datetime_now := fun w => (pretty w, S w);
  provider_embed := fun _ text w =>
    (if failing w text then Raise (Exn "Exception" "API Error")
     else Ok [f_of_nat (String.length text); 1%float], w);
  db_find_one_cache := fun _ w => (Ok None, w);
  db_insert_cache := fun _ w => (Ok "1", w);
  db_find_documents := fun c _ w => (Ok (store c), w);
  db_count_documents := fun c _ w => (Ok (Z.of_nat (length (store c))), w);
  db_insert_vector := fun _ w => (Ok "1", w);
  extract_analytics_content := fun r => Ok (SourceRecord.payload r);
  extract_session_content := fun r => Ok (SourceRecord.payload r);
  extract_transaction_content := fun r => Ok (SourceRecord.payload r)
|}.

(** The reading of the clock in a generator state, and the state after it. *)
Definition clock_of {World : Type} {env : Env World}
    (s : EmbeddingGenerator.State World) : float :=
  fst (time_time (EmbeddingGenerator.world s)).
Definition tick {World : Type} {env : Env World}
    (s : EmbeddingGenerator.State World) : EmbeddingGenerator.State World :=
  EmbeddingGenerator.mk (EmbeddingGenerator.cache s) (EmbeddingGenerator.batch_size s)
    (EmbeddingGenerator.trace s) (snd (time_time (EmbeddingGenerator.world s))).

(** A generator with an empty memory cache and batch size 100, at clock 0. *)
Definition fresh_generator : EmbeddingGenerator.State nat :=
  EmbeddingGenerator.mk ∅ 100 [] 0.

(** A migrator as its constructor leaves it, over [fresh_generator], with
    no file on disk. *)
Definition fresh_migrator (config : MigrationConfig.t) : VectorMigrator.State nat :=
  VectorMigrator.mk config MigrationProgress.fresh "migration_checkpoint.json"
    false false fresh_generator ∅.

(** [n] stored records with identifiers "1" .. "n", of one site, with
    payload "visits". *)
Definition sample_records (n : nat) : list SourceRecord.t :=
  (fun i => SourceRecord.mk (Some (pretty (S i))) (Some "site") None None "visits")
    <$> seq 0 n.

(** A store whose "analytics" collection holds [n] sample records and whose
    other collections are empty. *)
Definition analytics_store (n : nat) (collection : string) : list SourceRecord.t :=
  if String.eqb collection "analytics" then sample_records n else [].

(** What a migrator state holds besides its generator. *)
Definition migrator_part {World : Type} (s : VectorMigrator.State World) :=
  (VectorMigrator.config s, VectorMigrator.progress s, VectorMigrator.checkpoint_file s,
   VectorMigrator.is_running s, VectorMigrator.should_pause s, VectorMigrator.files s).

(** Two migrator states that differ at most in the state of the world: a
    step that relates them has read clocks, and nothing else. *)
Definition only_world_changed {World : Type} (s s' : VectorMigrator.State World) : Prop :=
  migrator_part s' = migrator_part s
  /\ EmbeddingGenerator.cache (VectorMigrator.embedding_generator s')
     = EmbeddingGenerator.cache (VectorMigrator.embedding_generator s)
  /\ EmbeddingGenerator.trace (VectorMigrator.embedding_generator s')
     = EmbeddingGenerator.trace (VectorMigrator.embedding_generator s).

(** A computation that leaves the migrator's own fields and the files as
    they are (it may use the generator and the collaborators), and one that
    always returns. *)
Definition frames {World A : Type} (m : M (VectorMigrator.State World) A) : Prop :=
  forall s o s', m s = (o, s') -> migrator_part s' = migrator_part s.
Definition total {S A : Type} (m : M S A) : Prop :=
  forall s, exists a s', m s = (Ok a, s').

(** The sizes of the batches the loop of [migrate_<kind>_data] cuts [n]
    records into, for a batch size [b]. *)
Definition batch_sizes (n b : nat) : list nat :=
  (fun i => Nat.min b (n - i)) <$> range_step n b.

(** What the loop of [migrate_<kind>_data] adds to [successful_records]
    over batches with [counts] successes, when [so_far] records had
    succeeded before them: after each batch, the number of successes since
    the start of the run. *)
Fixpoint running_totals (so_far : Z) (counts : list Z) : Z :=
  match counts with
  | [] => 0
  | c :: counts' => (so_far + c) + running_totals (so_far + c) counts'
  end.

(** The batches the loop of [migrate_<kind>_data] cuts [data] into:
    [data[i:i + b]] for [i] in [range(0, len(data), b)]. *)
Definition batches_of {A} (data : list A) (b : nat) : list (list A) :=
  (fun i => slice data i (i + b)) <$> range_step (length data) b.

(** A text that ends with [suffix]. *)
Definition ends_with (suffix text : string) : bool :=
  String.eqb
    (substring (String.length text - String.length suffix) (String.length suffix) text)
    suffix.

(** Two records of one site, with payloads "bad" and "good", and the store
    that holds them in its "analytics" collection. *)
Definition two_records : list SourceRecord.t :=
  [SourceRecord.mk (Some "1") (Some "site") None None "bad";
   SourceRecord.mk (Some "2") (Some "site") None None "good"].
Definition two_record_store (collection : string) : list SourceRecord.t :=
  if String.eqb collection "analytics" then two_records else [].

(** A configuration with two sources, analytics then sessions. *)
Definition two_source_config : MigrationConfig.t :=
  MigrationConfig.mk [DataSource.ANALYTICS; DataSource.SESSIONS] 10 4
    EmbeddingModel.GEMINI true true true true.

(** Another coroutine that calls [pause_migration] by the time the [n]-th
    turn of the loop over the sources tests [should_pause], and does nothing
    at the other turns. *)
Definition pause_at {World : Type} {env : Env World} (n : nat) (k : nat)
  : M (VectorMigrator.State World) unit :=
  if Nat.eqb k n then VectorMigrator.pause_migration else ret tt.

(** The successfully migrated records of a batch, read off the entries its
    processor returned: the entries [{'success': True, 'record_id': ...}]. *)
Fixpoint migrated (entries : list RecordOutcome.t) : Z :=
  match entries with
  | [] => 0
  | RecordOutcome.Success _ :: rest => 1 + migrated rest
  | RecordOutcome.Failure _ :: rest => migrated rest
  end.

(** The entries the batch processor returns for each of [batches], run one
    after the other from [s], and the state the last one leaves. *)
Fixpoint entries_of_batches {World : Type} {env : Env World}
    (k : VectorMigrator.SourceKind) (batches : list (list SourceRecord.t))
    (s : VectorMigrator.State World)
  : list (list RecordOutcome.t) * VectorMigrator.State World :=
  match batches with
  | [] => ([], s)
  | batch :: rest =>
      let '(o, s1) := VectorMigrator._process_batch_of k batch s in
      let '(entries, s2) := entries_of_batches k rest s1 in
      (match o with Ok results => results | Raise _ => [] end :: entries, s2)
  end.

(** A computation of the migrator that does not read the progress object:
    run from a state with another progress, it does the same and leaves
    that progress in place. *)
Definition progress_blind {World A : Type} (m : M (VectorMigrator.State World) A) : Prop :=
  forall p s,
    m (VectorMigrator.set_progress p s)
    = (let '(o, s') := m s in (o, VectorMigrator.set_progress p s')).

(** A world as [scripted_env] scripts it, but whose [embedding_cache]
    collection cannot be reached: every lookup in it raises. *)
Definition store_down_env : Env nat := {|
  md5_hexdigest := fun s => s;
  time_time := fun w => (f_of_nat w, S w);
  datetime_now := fun w => (pretty w, S w);
  provider_embed := fun _ text w => (Ok [f_of_nat (String.length text); 1%float], w);
  db_find_one_cache := fun _ w => (Raise (Exn "ConnectionError" "store unreachable"), w);
  db_insert_cache := fun _ w => (Ok "1", w);
  db_find_documents := fun _ _ w => (Ok [], w);
  db_count_documents := fun _ _ w => (Ok 0%Z, w);
  db_insert_vector := fun _ w => (Ok "1", w);
  extract_analytics_content := fun r => Ok (SourceRecord.payload r);
  extract_session_content := fun r => Ok (SourceRecord.payload r);
  extract_transaction_content := fun r => Ok (SourceRecord.payload r)
|}.

(** The generator state after one more collaborator call: the events [evs]
    recorded and the world at [w]. *)
Definition after_calls {World : Type} (s : EmbeddingGenerator.State World)
    (evs : list event) (w : World) : EmbeddingGenerator.State World :=
  EmbeddingGenerator.mk (EmbeddingGenerator.cache s) (EmbeddingGenerator.batch_size s)
    (EmbeddingGenerator.trace s ++ evs) w.

(** What a [generate_embedding] call that started in [s] returns when the
    body of its [try] raised [e] and left the generator in [s']:
    [EmbeddingResult(success=False, error=str(e), processing_time=now -
    start_time)], after the clock readings of the handler and of the
    decorator. *)
Definition failed_call {World : Type} {env : Env World}
    (s s' : EmbeddingGenerator.State World) (e : exn)
  : outcome EmbeddingResult.t * EmbeddingGenerator.State World :=
  (Ok (EmbeddingResult.mk false None None None None
         (Some (clock_of s' - clock_of (tick s))%float) None (Some (str e))),
   tick (tick s')).

(** The test the test suite applies to a normalized vector:
    [abs(np.linalg.norm(emb) - 1.0) < 1e-10]. *)
Definition has_unit_length (v : Np.ndarray) : bool :=
  PrimFloat.ltb (abs (Np.linalg_norm v - 1)) 1e-10.

(* ===================================================================== *)
(** ** Further notions used by the statements                              *)
(* ===================================================================== *)

(** [batch_size or self.embedding_config['batch_size']]: the batch size
    [generate_batch_embeddings] works with. *)
Definition effective_batch_size (requested : option Z) (configured : Z) : Z :=
  match requested with
  | Some b => if Z.eqb b 0 then configured else b
  | None => configured
  end.

(** A result as [generate_embedding] builds it on success: it carries a
    vector, its length, and no error. *)
Definition successful_result (r : EmbeddingResult.t) : Prop :=
  EmbeddingResult.success r = true
  /\ EmbeddingResult.error r = None
  /\ exists v, EmbeddingResult.embedding r = Some v
               /\ EmbeddingResult.dimensions r = Some (length v).

(** A memory cache that holds successful results only. *)
Definition cache_of_successes {World : Type} (s : EmbeddingGenerator.State World) : Prop :=
  map_Forall (fun _ r => successful_result r) (EmbeddingGenerator.cache s).

(** The provider calls of one uncached [generate_embedding]: one for a
    model with a provider, none for [LOCAL]. *)
Definition provider_calls (model : EmbeddingModel.t) (text : string) : list event :=
  match model with
  | EmbeddingModel.LOCAL => []
  | _ => [ProviderCall model text]
  end.

(** [xs[:k]] for an integer [k]: a negative [k] counts from the end. *)
Definition py_take {A} (k : Z) (xs : list A) : list A :=
  if Z.leb 0 k then take (Z.to_nat k) xs
  else take (length xs - Z.to_nat (- k)) xs.

(** [similarities.sort(key=lambda x: x[1], reverse=True)].  The sort of
    Python is stable, also in reverse, and compares the keys with [<] only;
    on keys that are not NaN this determines its result, which is the one
    of the insertion sort below: descending, pairs of equal key in their
    original order. *)
Fixpoint insert_descending (x : nat * float) (l : list (nat * float))
  : list (nat * float) :=
  match l with
  | [] => [x]
  | y :: l' =>
      if PrimFloat.ltb x.2 y.2 then y :: insert_descending x l' else x :: l
  end.
Definition sort_descending (l : list (nat * float)) : list (nat * float) :=
  foldr insert_descending [] l.

(** [find_similar_embeddings]: the candidates that are not [None] and whose
    cosine similarity to the query is at least [threshold], best first, cut
    to [top_k]; any exception is logged and answered with the empty list. *)
Fixpoint similar_candidates
    (query_embedding : Np.ndarray) (candidates : list (nat * option Np.ndarray))
    (threshold : float) : outcome (list (nat * float)) :=
  match candidates with
  | [] => Ok []
  | (i, candidate) :: rest =>
      match candidate with
      | Some c =>
          and_then (EmbeddingGenerator.calculate_similarity query_embedding c "cosine")
            (fun similarity =>
               and_then (similar_candidates query_embedding rest threshold)
                 (fun similarities =>
                    Ok (if PrimFloat.leb threshold similarity
                        then (i, similarity) :: similarities
                        else similarities)))
      | None => similar_candidates query_embedding rest threshold
      end
  end.

Definition find_similar_embeddings
    (query_embedding : Np.ndarray) (candidate_embeddings : list (option Np.ndarray))
    (top_k : Z) (threshold : float) : list (nat * float) :=
  match similar_candidates query_embedding
          (zip (seq 0 (length candidate_embeddings)) candidate_embeddings) threshold with
  | Ok similarities => py_take top_k (sort_descending similarities)
  | Raise _ => []
  end.

(** In a list sorted best first, a pair [q] after a pair [p] is not
    better than [p]. *)
Definition not_better (p q : nat * float) : Prop := PrimFloat.leb q.2 p.2 = true.

(* ===================================================================== *)
(** ** Properties of the quality validator                                 *)
(* ===================================================================== *)

Section QualityScore.
Import EmbeddingQualityValidator.

(** NaN absorbs the operations the vector routines use. *)
Lemma nan_div_l (y : float) : (nan / y)%float = nan.
Proof.
    apply Prim2SF_inj. rewrite div_spec.
    change (Prim2SF nan) with S754_nan. by destruct (Prim2SF y).
Qed.

Lemma sum_nan (n : nat) : Np.sum (replicate (S n) nan) = nan.
Proof.
    unfold Np.sum. cbn [replicate fold_left].
    change (f_add f_zero nan) with nan.
    induction n as [|n IH]; [done|]. cbn [replicate fold_left].
    by change (f_add nan nan) with nan.
Qed.

Lemma mean_nan (n : nat) : Np.mean (replicate (S n) nan) = nan.
Proof. unfold Np.mean. rewrite sum_nan. apply nan_div_l. Qed.

Lemma var_nan (n : nat) : Np.var (replicate (S n) nan) = nan.
Proof.
    unfold Np.var. cbv zeta. rewrite mean_nan, fmap_replicate.
    change (f_mul (f_sub nan nan) (f_sub nan nan)) with nan. apply mean_nan.
Qed.

Lemma sqnorm_nan (n : nat) : Np.sqnorm (replicate (S n) nan) = nan.
Proof.
    unfold Np.sqnorm. cbn [replicate fold_left].
    change (f_add f_zero (f_mul nan nan)) with nan.
    induction n as [|n IH]; [done|]. cbn [replicate fold_left].
    by change (f_add nan (f_mul nan nan)) with nan.
Qed.

Lemma validate_embedding_score_of embedding text model :
    validate_embedding embedding text model
    = score_of (dimension_ok embedding model) (finite_ok embedding)
        (magnitude_ok embedding) (variance_ok embedding) (text_ok text).
Proof. reflexivity. Qed.

Lemma nan_vector_checks (n : nat) :
    finite_ok (replicate (S n) nan) = false
    /\ magnitude_ok (replicate (S n) nan) = false
    /\ variance_ok (replicate (S n) nan) = false.
Proof.
    split; [done|]. split.
    - unfold magnitude_ok, Np.linalg_norm. by rewrite sqnorm_nan.
    - unfold variance_ok. by rewrite var_nan.
Qed.

Lemma empty_vector_checks (model : EmbeddingModel.t) :
    dimension_ok [] model = false /\ magnitude_ok [] = false /\ variance_ok [] = false.
Proof. by destruct model. Qed.

Lemma score_of_bounds b1 b2 b3 b4 b5 :
    PrimFloat.leb 0 (score_of b1 b2 b3 b4 b5) = true
    /\ PrimFloat.leb (score_of b1 b2 b3 b4 b5) 1 = true.
Proof. by destruct b1, b2, b3, b4, b5. Qed.

Lemma score_of_close b1 b2 b3 b4 b5 :
    (Qabs (float_value (score_of b1 b2 b3 b4 b5) - spec_quality_score b1 b2 b3 b4 b5)
     <= 1 # (2 ^ 53))%Q.
Proof. destruct b1, b2, b3, b4, b5; by vm_compute. Qed.

Lemma nan_vector_score (n : nat) text model :
    PrimFloat.ltb (validate_embedding (replicate n nan) text model) 0.5 = true.
Proof.
    rewrite validate_embedding_score_of. destruct n as [|n].
    - change (replicate 0 nan) with (@nil float).
      destruct (empty_vector_checks model) as (H1 & H2 & H3).
      rewrite H1, H2, H3. by destruct (finite_ok _), (text_ok _).
    - destruct (nan_vector_checks n) as (H1 & H2 & H3).
      rewrite H1, H2, H3. by destruct (dimension_ok _ _), (text_ok _).
Qed.

(** C6, as amended.  For every vector, text and model the score of
      [validate_embedding] lies in [0,1]; it is the sum, accumulated in
      binary64 in source order and capped at 1.0, of the weights of the
      tests that pass (0.30 dimension, 0.20 no NaN/Inf, 0.20 magnitude
      strictly between 0.1 and 10.0, 0.15 variance above 0.001, 0.15 text
      longer than 10 characters), and so is within 2^-53 of the exact sum;
      a vector of NaNs scores below 0.5; a vector that passes all five tests
      scores 1.0, above 0.85. *)
Theorem validate_embedding_weighted_score :
    forall (embedding : Np.ndarray) (text : string) (model : EmbeddingModel.t),
      let s := validate_embedding embedding text model in
      let dimension := dimension_ok embedding model in
      let finite := finite_ok embedding in
      let magnitude := magnitude_ok embedding in
      let variance := variance_ok embedding in
      let long_text := text_ok text in
      (PrimFloat.leb 0 s = true /\ PrimFloat.leb s 1 = true)
      /\ s = score_of dimension finite magnitude variance long_text
      /\ (Qabs (float_value s
                - spec_quality_score dimension finite magnitude variance long_text)
          <= 1 # (2 ^ 53))%Q
      /\ (forall n : nat,
            PrimFloat.ltb (validate_embedding (replicate n nan) text model) 0.5 = true)
      /\ (dimension && finite && magnitude && variance && long_text = true ->
          s = 1%float /\ PrimFloat.ltb 0.85 s = true).
Proof.
    intros embedding text model. cbv zeta.
    rewrite validate_embedding_score_of.
    split; [apply score_of_bounds|]. split; [done|].
    split; [apply score_of_close|]. split; [intros n; apply nan_vector_score|].
    intros Hall. repeat (apply andb_prop in Hall as [Hall ?]).
    by repeat match goal with H : _ = true |- _ => rewrite H; clear H end.
Qed.

(** A vector that passes all five tests: 384 components of magnitude 0.1. *)
Lemma validate_embedding_weighted_score_witness :
    validate_embedding (alternating 0.1 384) "hello world!"
      EmbeddingModel.SENTENCE_TRANSFORMER = 1%float
    /\ PrimFloat.ltb 0.85
         (validate_embedding (alternating 0.1 384) "hello world!"
            EmbeddingModel.SENTENCE_TRANSFORMER) = true.
Proof.
    apply (validate_embedding_weighted_score (alternating 0.1 384) "hello world!"
             EmbeddingModel.SENTENCE_TRANSFORMER).
    vm_compute. reflexivity.
Defined.

(** C6, counterexample.  The vector of 384 components alternating between
      1 and -1 has the dimension of the sentence-transformer model, no NaN
      or infinite component and variance exactly 1; with a text of twelve
      characters it scores 0.8, which is not above 0.85: its norm is
      sqrt(384) > 10, so the magnitude test fails. *)
Lemma unit_variance_vector_scores_below_085 :
    let v := alternating 1 384 in
    dimension_ok v EmbeddingModel.SENTENCE_TRANSFORMER = true
    /\ finite_ok v = true
    /\ Np.var v = 1%float
    /\ text_ok "hello world!" = true
    /\ magnitude_ok v = false
    /\ validate_embedding v "hello world!" EmbeddingModel.SENTENCE_TRANSFORMER = 0.8%float
    /\ PrimFloat.ltb 0.85
         (validate_embedding v "hello world!" EmbeddingModel.SENTENCE_TRANSFORMER) = false.
Proof. vm_compute. repeat split; reflexivity. Qed.

End QualityScore.

(* ===================================================================== *)
(** ** Properties of normalization                                         *)
(* ===================================================================== *)

Section Normalization.
Import EmbeddingOptimizer.

Lemma normalize_length {F} `{FloatOps F} (v : list F) :
    length (_normalize_embedding v) = length v.
Proof.
    unfold _normalize_embedding, Np.div_scalar. cbv zeta.
    destruct (f_lt _ _); [apply length_fmap | done].
Qed.

(** Over the reals. *)
Lemma sqnorm_acc_nonneg (v : list R) (a : R) :
    (0 <= a)%R -> (0 <= fold_left (fun acc x => f_add acc (f_mul x x)) v a)%R.
Proof.
    revert a. induction v as [|x v IH]; intros a Ha; [done|].
    cbn [fold_left]. apply IH. cbn. nra.
Qed.

Lemma sqnorm_acc_scaled (v : list R) (a c : R) :
    c <> 0%R ->
    fold_left (fun acc x => f_add acc (f_mul x x)) (Np.div_scalar v c) (a / (c * c))%R
    = (fold_left (fun acc x => f_add acc (f_mul x x)) v a / (c * c))%R.
Proof.
    intros Hc. revert a. induction v as [|x v IH]; intros a; [done|].
    cbn [Np.div_scalar fmap list_fmap fold_left].
    rewrite <- IH. f_equal. cbn. field. done.
Qed.

Lemma normalize_unit_exact (v : list R) :
    (0 < Np.linalg_norm v)%R -> Np.linalg_norm (_normalize_embedding v) = 1%R.
Proof.
    intros Hpos. unfold _normalize_embedding. cbv zeta.
    cbn [f_lt f_zero exact]. destruct (Rlt_dec 0 (Np.linalg_norm v)) as [_|Hn]; [|done].
    unfold Np.linalg_norm in *. cbn [f_sqrt exact] in *.
    set (c := sqrt (Np.sqnorm v)) in *.
    assert (Hsq : (0 <= Np.sqnorm v)%R) by (apply sqnorm_acc_nonneg; cbn; lra).
    assert (Hcc : (c * c)%R = Np.sqnorm v) by (apply sqrt_sqrt; done).
    unfold Np.sqnorm at 1.
    replace (@f_zero R exact) with (0 / (c * c))%R by (cbn; field; lra).
    rewrite sqnorm_acc_scaled by lra.
    change (fold_left _ v 0%R) with (Np.sqnorm v).
    rewrite <- Hcc. replace (c * c / (c * c))%R with 1%R by (field; lra).
    apply sqrt_1.
Qed.

(** In binary64. *)
Lemma eqb_zero_cases (x : float) :
    PrimFloat.eqb x 0 = true -> x = 0%float \/ x = (-0)%float.
Proof.
    rewrite FloatAxioms.eqb_spec. intros Hx.
    assert (Hz : exists s, Prim2SF x = S754_zero s).
    { destruct (Prim2SF x) as [s|[]| |[] m e]; vm_compute in Hx; try discriminate Hx.
      by exists s. }
    destruct Hz as [s Hs].
    rewrite <- (SF2Prim_Prim2SF x), Hs. destruct s; [right|left]; reflexivity.
Qed.

Lemma sqnorm_zero (v : Np.ndarray) :
    is_zero_vector v = true -> Np.sqnorm v = 0%float.
Proof.
    unfold Np.sqnorm. change (@f_zero float ieee) with 0%float.
    induction v as [|x v IH]; [done|].
    cbn [is_zero_vector forallb]. intros [Hx Hv]%andb_prop.
    cbn [fold_left].
    destruct (eqb_zero_cases x Hx) as [-> | ->];
      (change (f_add 0%float (f_mul _ _)) with 0%float; by apply IH).
Qed.

Lemma normalize_zero (v : Np.ndarray) :
    is_zero_vector v = true -> _normalize_embedding v = v.
Proof.
    intros Hv. unfold _normalize_embedding, Np.linalg_norm. cbv zeta.
    by rewrite sqnorm_zero.
Qed.

(** C10, at the failing inputs.  Normalization is total and keeps the
      dimension of every vector, the "normalize" optimization applies it to
      each vector, and a vector of zeros comes back unchanged, with no
      division.  But a vector whose squares leave the range of binary64
      does not come back with unit length.  For [1e200, 1e200] the sum of
      the squares overflows: the computed norm is +infinity, the guard
      [norm > 0] passes, and the result is [0, 0], of norm 0.  For
      [1e-200, 1e-200], which is not a vector of zeros, the squares
      underflow: the computed norm is 0 and the vector comes back as it is.
      Neither result passes [abs(norm - 1.0) < 1e-10], which the results for
      the three vectors of the test suite pass. *)
Theorem normalize_embedding_not_unit_length :
    (forall v : Np.ndarray, length (_normalize_embedding v) = length v)
    /\ (forall vs : list Np.ndarray,
          optimize_embeddings vs "normalize" = _normalize_embedding <$> vs)
    /\ (forall v : Np.ndarray, is_zero_vector v = true -> _normalize_embedding v = v)
    /\ (let big := [1e200; 1e200]%float in
        Np.linalg_norm big = infinity
        /\ PrimFloat.ltb 0 (Np.linalg_norm big) = true
        /\ optimize_embeddings [big] "normalize" = [[0; 0]%float]
        /\ Np.linalg_norm (_normalize_embedding big) = 0%float
        /\ has_unit_length (_normalize_embedding big) = false)
    /\ (let tiny := [1e-200; 1e-200]%float in
        is_zero_vector tiny = false
        /\ Np.linalg_norm tiny = 0%float
        /\ optimize_embeddings [tiny] "normalize" = [tiny]
        /\ has_unit_length (_normalize_embedding tiny) = false)
    /\ (has_unit_length (_normalize_embedding [3; 4; 0]%float) = true
        /\ has_unit_length (_normalize_embedding [1; 1; 1]%float) = true
        /\ has_unit_length (_normalize_embedding [2; 0; 0]%float) = true).
Proof.
    split; [apply @normalize_length|].
    split; [reflexivity|].
    split; [apply normalize_zero|].
    vm_compute. repeat split; reflexivity.
Qed.

(** The theorem at a vector of zeros of both signs. *)
Lemma normalize_embedding_not_unit_length_witness :
    _normalize_embedding [0; -0; 0]%float = [0; -0; 0]%float.
Proof.
    destruct normalize_embedding_not_unit_length as (_ & _ & Hzero & _).
    apply Hzero. vm_compute. reflexivity.
Defined.

End Normalization.

(* ===================================================================== *)
(** ** Properties of similarity                                            *)
(* ===================================================================== *)

Section Similarity.
Import EmbeddingGenerator.

(** C2, as amended.  For every pair of vectors, a method string other
      than "cosine", "euclidean" and "dot" makes the body raise
      [ValueError("Unsupported similarity method: ...")]; the handler of
      [calculate_similarity] swallows it, and the caller receives the
      float 0.0: no crash, and no error result either. *)
Theorem calculate_similarity_unknown_method :
    forall (embedding1 embedding2 : Np.ndarray) (method : string),
      method <> "cosine" -> method <> "euclidean" -> method <> "dot" ->
      calculate_similarity_try embedding1 embedding2 method
      = Raise (ValueError ("Unsupported similarity method: " +:+ method))
      /\ calculate_similarity embedding1 embedding2 method = Ok 0%float.
Proof.
    intros e1 e2 method Hc He Hd.
    assert (Htry : calculate_similarity_try e1 e2 method
                   = Raise (ValueError ("Unsupported similarity method: " +:+ method))).
    { unfold calculate_similarity_try.
      apply String.eqb_neq in Hc, He, Hd. by rewrite Hc, He, Hd. }
    split; [done|]. unfold calculate_similarity. by rewrite Htry.
Qed.

Lemma calculate_similarity_unknown_method_witness :
    calculate_similarity_try [1; 2]%float [3; 4]%float "manhattan"
    = Raise (ValueError "Unsupported similarity method: manhattan")
    /\ calculate_similarity [1; 2]%float [3; 4]%float "manhattan" = Ok 0%float.
Proof.
    apply (calculate_similarity_unknown_method [1; 2]%float [3; 4]%float "manhattan");
      discriminate.
Defined.

(** C2, counterexample.  With the unknown method "manhattan" the call
      returns 0.0, the very value the orthogonal pair [1, 0], [0, 1] scores
      under "cosine" and under "dot": the caller cannot tell the failure
      from a zero similarity. *)
Lemma calculate_similarity_unknown_method_returns_zero :
    calculate_similarity [1; 0]%float [0; 1]%float "manhattan" = Ok 0%float
    /\ calculate_similarity [1; 0]%float [0; 1]%float "cosine" = Ok 0%float
    /\ calculate_similarity [1; 0]%float [0; 1]%float "dot" = Ok 0%float.
Proof. vm_compute. repeat split; reflexivity. Qed.

End Similarity.

(* ===================================================================== *)
(** ** Properties of the embedding generator                               *)
(* ===================================================================== *)

(** [x <= x] holds for every binary64 number but NaN. *)
Lemma leb_refl_not_nan (x : float) :
  PrimFloat.is_nan x = false -> PrimFloat.leb x x = true.
Proof.
  unfold PrimFloat.is_nan. rewrite leb_spec, FloatAxioms.eqb_spec.
  unfold SFleb, SFeqb. destruct (SFcompare _ _) as [[]|]; done.
Qed.

Section Generator.
Import EmbeddingGenerator.
Context {World : Type} {env : Env World}.

Lemma ask_time_time (s : State World) :
  ask time_time s = (Ok (clock_of s), tick s).
Proof. unfold ask, clock_of, tick. by destruct (time_time (world s)). Qed.

Lemma log_async_performance_run {A} (m : M (State World) A) (s : State World) :
  Logger.log_async_performance (ask time_time) m s
  = match m (tick s) with
    | (Ok a, s') => (Ok a, tick s')
    | (Raise e, s') => (Raise e, s')
    end.
Proof.
  unfold Logger.log_async_performance, bind. rewrite ask_time_time.
  destruct (m (tick s)) as [[a|e] s']; [|done].
  by rewrite ask_time_time.
Qed.

(** A call of [generate_embedding], step by step: the decorator reads the
    clock, the function reads it again for [start_time], the body of the
    [try] runs, and its exception, if any, becomes a failed result. *)
Lemma generate_embedding_run text model context use_cache (s : State World) :
  generate_embedding text model context use_cache s
  = match generate_embedding_try (clock_of (tick s)) text model context use_cache
            (tick (tick s)) with
    | (Ok r, s') => (Ok r, tick s')
    | (Raise e, s') =>
        (Ok (EmbeddingResult.failed (str e)
               (Some (clock_of s' - clock_of (tick s))%float)),
         tick (tick s'))
    end.
Proof.
  unfold generate_embedding. rewrite log_async_performance_run.
  unfold generate_embedding__wrapped, bind, try_except. rewrite ask_time_time.
  destruct (generate_embedding_try _ _ _ _ _ _) as [[r|e] s']; [done|].
  by rewrite ask_time_time.
Qed.

Lemma try_hit start text model context (s : State World) r :
  cache s !! _generate_cache_key text model = Some r ->
  generate_embedding_try start text model context true s = (Ok r, s).
Proof.
  intros Hc. unfold generate_embedding_try, _get_cached_embedding, bind, gets.
  by rewrite Hc.
Qed.

Lemma cache_embedding_inserts text model r (s s' : State World) :
  _cache_embedding text model r s = (Ok tt, s') ->
  cache s' = <[_generate_cache_key text model := r]> (cache s)
  /\ batch_size s' = batch_size s.
Proof.
  unfold _cache_embedding, bind, modify, try_except, log_event, call, ask, raise, ret.
  destruct (EmbeddingResult.embedding r); [|done].
  cbn. destruct (time_time _) as [t w]. cbn.
  destruct (db_insert_cache _ _) as [[i|e] w']; cbn; by intros [= <-].
Qed.

Lemma get_cached_hit text model (s s' : State World) r :
  _get_cached_embedding text model s = (Ok (Some r), s') ->
  cache s' !! _generate_cache_key text model = Some r.
Proof.
  unfold _get_cached_embedding, bind, gets.
  destruct (cache s !! _generate_cache_key text model) as [r0|] eqn:Hc.
  { unfold ret. by intros [= <- <-]. }
  unfold log_event, modify, call, ret. cbn.
  destruct (db_find_one_cache _ _) as [[[doc|]|e] w]; cbn; [|done..].
  intros [= <- <-]. cbn. by rewrite lookup_insert_eq.
Qed.

(** Whatever a cached call returns without raising is in the memory cache
    afterwards, under the key of its text and model. *)
Lemma try_caches start text model context (s s' : State World) r :
  generate_embedding_try start text model context true s = (Ok r, s') ->
  cache s' !! _generate_cache_key text model = Some r.
Proof.
  unfold generate_embedding_try, bind.
  destruct (_get_cached_embedding text model s) as [[[r0|]|e] s0] eqn:Hget; [| |done].
  { unfold ret. intros [= <- <-]. by eapply get_cached_hit. }
  lazymatch goal with
  | |- (match ?x with _ => _ end) = _ -> _ => destruct x as [[v|e] s1]; [|done]
  end.
  rewrite ask_time_time.
  lazymatch goal with
  | |- (match ?x with _ => _ end) = _ -> _ =>
      destruct x as [[[]|e] s2] eqn:Hins; [|done]
  end.
  unfold ret. intros [= <- <-]. apply cache_embedding_inserts in Hins as [-> _].
  by rewrite lookup_insert_eq.
Qed.

(** The provider step of [generate_embedding], for a model that has a
    provider: the call is recorded, and what the provider returns or raises
    is what the step returns or raises. *)
Lemma provider_step_run model text (s : State World) o w' :
  model <> EmbeddingModel.LOCAL ->
  provider_embed model text (world s) = (o, w') ->
  match model with
  | EmbeddingModel.GEMINI => _generate_gemini_embedding text
  | EmbeddingModel.OPENAI => _generate_openai_embedding text
  | EmbeddingModel.SENTENCE_TRANSFORMER => _generate_sentence_transformer_embedding text
  | EmbeddingModel.HUGGINGFACE => _generate_huggingface_embedding text
  | EmbeddingModel.LOCAL =>
      raise (ValueError ("Unsupported model: " +:+ EmbeddingModel.repr model))
  end s
  = (o, after_calls s [ProviderCall model text] w').
Proof.
  intros Hm Hp.
  destruct model; try done;
    unfold _generate_gemini_embedding, _generate_openai_embedding,
      _generate_sentence_transformer_embedding, _generate_huggingface_embedding,
      _generate_provider_embedding, bind, log_event, modify, try_except, call, raise;
    cbn; rewrite Hp; by destruct o.
Qed.

(** The lookup of a cached call that misses in memory: the store is asked,
    and its miss, or its exception, is the outcome. *)
Lemma get_cached_miss text model (s : State World) w0 :
  cache s !! _generate_cache_key text model = None ->
  db_find_one_cache (_generate_cache_key text model) (world s) = (Ok None, w0) ->
  _get_cached_embedding text model s
  = (Ok None, after_calls s [CacheFind (_generate_cache_key text model)] w0).
Proof.
  intros Hc Hf. unfold _get_cached_embedding, bind, gets. rewrite Hc.
  unfold log_event, modify, call. cbn. by rewrite Hf.
Qed.

Lemma get_cached_raise text model (s : State World) e w0 :
  cache s !! _generate_cache_key text model = None ->
  db_find_one_cache (_generate_cache_key text model) (world s) = (Raise e, w0) ->
  _get_cached_embedding text model s
  = (Raise e, after_calls s [CacheFind (_generate_cache_key text model)] w0).
Proof.
  intros Hc Hf. unfold _get_cached_embedding, bind, gets. rewrite Hc.
  unfold log_event, modify, call. cbn. by rewrite Hf.
Qed.

(** The body of the [try] when the lookup, if there was one, missed and the
    provider raises: the exception leaves the body, nothing is cached. *)
Lemma try_provider_failure start text model context (use_cache : bool)
    (s s0 : State World) e w' :
  (if use_cache then _get_cached_embedding text model else ret None) s = (Ok None, s0) ->
  model <> EmbeddingModel.LOCAL ->
  provider_embed model (_preprocess_text text context) (world s0) = (Raise e, w') ->
  generate_embedding_try start text model context use_cache s
  = (Raise e, after_calls s0 [ProviderCall model (_preprocess_text text context)] w').
Proof.
  intros Hget Hm Hp. unfold generate_embedding_try, bind at 1. rewrite Hget.
  unfold bind at 1. cbv zeta.
  by rewrite (provider_step_run model _ s0 (Raise e) w' Hm Hp).
Qed.

(** C5.  For every text, model, context and cache flag, and from every
    state of the generator and of its collaborators, [generate_embedding]
    returns a result and never raises.  An exception [e] of the body of its
    [try] becomes [EmbeddingResult(success=False, error=str(e),
    processing_time=now - start_time)].  In particular a provider that
    raises [e], whether the call went to it at once ([use_cache=False]) or
    after a miss in the memory cache and in the store, yields that failed
    result with the provider's message, nothing cached; so does a store
    that raises on the lookup, and so does the model without a provider,
    with the message "Unsupported model: EmbeddingModel.LOCAL". *)
Theorem generate_embedding_never_raises :
  forall text model context use_cache (s : State World),
    let key := _generate_cache_key text model in
    let processed_text := _preprocess_text text context in
    (exists r s', generate_embedding text model context use_cache s = (Ok r, s'))
    /\ (forall e s',
          generate_embedding_try (clock_of (tick s)) text model context use_cache
            (tick (tick s)) = (Raise e, s') ->
          generate_embedding text model context use_cache s
          = (Ok (EmbeddingResult.mk false None None None None
                   (Some (clock_of s' - clock_of (tick s))%float) None (Some (str e))),
             tick (tick s')))
    /\ (forall e w',
          model <> EmbeddingModel.LOCAL ->
          provider_embed model processed_text (world (tick (tick s))) = (Raise e, w') ->
          generate_embedding text model context false s
          = failed_call s
              (after_calls (tick (tick s)) [ProviderCall model processed_text] w') e)
    /\ (forall e w0 w',
          model <> EmbeddingModel.LOCAL ->
          cache s !! key = None ->
          db_find_one_cache key (world (tick (tick s))) = (Ok None, w0) ->
          provider_embed model processed_text w0 = (Raise e, w') ->
          generate_embedding text model context true s
          = failed_call s
              (after_calls (tick (tick s))
                 [CacheFind key; ProviderCall model processed_text] w') e)
    /\ (forall e w0,
          cache s !! key = None ->
          db_find_one_cache key (world (tick (tick s))) = (Raise e, w0) ->
          generate_embedding text model context true s
          = failed_call s (after_calls (tick (tick s)) [CacheFind key] w0) e)
    /\ generate_embedding text EmbeddingModel.LOCAL context false s
       = failed_call s (tick (tick s))
           (ValueError "Unsupported model: EmbeddingModel.LOCAL").
Proof.
  intros text model context use_cache s key processed_text.
  split; [|split; [|split; [|split; [|split]]]].
  - rewrite generate_embedding_run.
    destruct (generate_embedding_try _ _ _ _ _ _) as [[r|e] s']; eauto.
  - intros e s' Htry. by rewrite generate_embedding_run, Htry.
  - intros e w' Hm Hp. rewrite generate_embedding_run.
    by rewrite (try_provider_failure _ _ _ _ false _ (tick (tick s)) e w' eq_refl Hm Hp).
  - intros e w0 w' Hm Hc Hf Hp. rewrite generate_embedding_run.
    pose proof (get_cached_miss text model (tick (tick s)) w0 Hc Hf) as Hget.
    rewrite (try_provider_failure _ _ _ _ true _ _ e w' Hget Hm Hp).
    unfold failed_call, after_calls. cbn. by rewrite <- app_assoc.
  - intros e w0 Hc Hf. rewrite generate_embedding_run.
    pose proof (get_cached_raise text model (tick (tick s)) e w0 Hc Hf) as Hget.
    unfold generate_embedding_try, bind at 1. by rewrite Hget.
  - by rewrite generate_embedding_run.
Qed.

(** C9, as amended.  When a [generate_embedding] call with [use_cache=true]
    succeeds, the next call for the same text and model (whatever its
    context) returns the very same result from the memory cache: the same
    vector, bit for bit, and the same [processing_time], hence one that is
    not greater; it calls neither the provider nor the store and leaves the
    cache as it was. *)
Theorem generate_embedding_cache_idempotent :
  forall text model context1 context2 (s s1 : State World) r1,
    generate_embedding text model context1 true s = (Ok r1, s1) ->
    EmbeddingResult.success r1 = true ->
    exists r2 s2,
      generate_embedding text model context2 true s1 = (Ok r2, s2)
      /\ EmbeddingResult.embedding r2 = EmbeddingResult.embedding r1
      /\ EmbeddingResult.processing_time r2 = EmbeddingResult.processing_time r1
      /\ (forall t1 t2,
            EmbeddingResult.processing_time r1 = Some t1 ->
            EmbeddingResult.processing_time r2 = Some t2 ->
            PrimFloat.is_nan t1 = false -> PrimFloat.leb t2 t1 = true)
      /\ r2 = r1
      /\ trace s2 = trace s1
      /\ cache s2 = cache s1.
Proof.
  intros text model context1 context2 s s1 r1 Hfirst Hsucc.
  assert (Hcached : cache s1 !! _generate_cache_key text model = Some r1).
  { rewrite generate_embedding_run in Hfirst.
    destruct (generate_embedding_try _ _ _ _ _ _) as [[r|e] s'] eqn:Htry.
    - injection Hfirst as <- <-. change (cache (tick s')) with (cache s').
      by eapply try_caches.
    - injection Hfirst as <- <-. discriminate Hsucc. }
  exists r1, (tick (tick (tick s1))).
  split.
  { rewrite generate_embedding_run, (try_hit _ _ _ _ _ r1); done. }
  repeat split; try done.
  intros t1 t2 H1 H2 Hnan. rewrite H1 in H2. injection H2 as <-.
  by apply leb_refl_not_nan.
Qed.

End Generator.

Section GeneratorRuns.
Import EmbeddingGenerator.

(** C5 at a provider that always fails, without and with the cache, at a
    store that cannot be reached, and at the model without a provider: each
    call returns the failed result with the message of the exception and
    the elapsed time. *)
Lemma generate_embedding_never_raises_witness :
  let E := scripted_env (fun _ _ => true) (fun _ => []) in
  generate_embedding (env := E) "alpha" EmbeddingModel.GEMINI None false fresh_generator
  = (Ok (EmbeddingResult.mk false None None None None (Some 1%float) None
           (Some "API Error")),
     EmbeddingGenerator.mk ∅ 100 [ProviderCall EmbeddingModel.GEMINI "alpha"] 4)
  /\ generate_embedding (env := E) "alpha" EmbeddingModel.GEMINI None true fresh_generator
     = (Ok (EmbeddingResult.mk false None None None None (Some 1%float) None
              (Some "API Error")),
        EmbeddingGenerator.mk ∅ 100
          [CacheFind "alpha:gemini"; ProviderCall EmbeddingModel.GEMINI "alpha"] 4)
  /\ generate_embedding (env := store_down_env) "alpha" EmbeddingModel.GEMINI None true
       fresh_generator
     = (Ok (EmbeddingResult.mk false None None None None (Some 1%float) None
              (Some "store unreachable")),
        EmbeddingGenerator.mk ∅ 100 [CacheFind "alpha:gemini"] 4)
  /\ generate_embedding (env := E) "alpha" EmbeddingModel.LOCAL None true fresh_generator
     = (Ok (EmbeddingResult.mk false None None None None (Some 1%float) None
              (Some "Unsupported model: EmbeddingModel.LOCAL")),
        EmbeddingGenerator.mk ∅ 100 [CacheFind "alpha:local"] 4).
Proof.
  intros E.
  destruct (generate_embedding_never_raises (env := E)
              "alpha" EmbeddingModel.GEMINI None false fresh_generator)
    as (_ & _ & Hprovider & Hmiss & _ & _).
  destruct (generate_embedding_never_raises (env := store_down_env)
              "alpha" EmbeddingModel.GEMINI None true fresh_generator)
    as (_ & _ & _ & _ & Hstore & _).
  destruct (generate_embedding_never_raises (env := E)
              "alpha" EmbeddingModel.LOCAL None true fresh_generator)
    as (_ & Hbody & _).
  split; [|split; [|split]].
  - etransitivity;
      [apply (Hprovider (Exn "Exception" "API Error") 2); [discriminate | reflexivity]
      |vm_compute; reflexivity].
  - etransitivity;
      [apply (Hmiss (Exn "Exception" "API Error") 2 2);
       [discriminate | reflexivity | reflexivity | reflexivity]
      |vm_compute; reflexivity].
  - etransitivity;
      [apply (Hstore (Exn "ConnectionError" "store unreachable") 2);
       [reflexivity | reflexivity]
      |vm_compute; reflexivity].
  - apply (Hbody (ValueError "Unsupported model: EmbeddingModel.LOCAL")
             (EmbeddingGenerator.mk ∅ 100 [CacheFind "alpha:local"] 2)).
    vm_compute. reflexivity.
Defined.

(** C9 at a provider that always answers: the second call returns the
    result of the first. *)
Lemma generate_embedding_cache_idempotent_witness :
  let E := scripted_env (fun _ _ => false) (fun _ => []) in
  let r1 :=
    EmbeddingResult.mk true (Some [5; 1]%float) (Some "gemini") (Some 2)
      (Some 0.55%float) (Some 1%float) (Some (Metadata.Generated 5 5 None)) None in
  let s1 :=
    (generate_embedding (env := E) "alpha" EmbeddingModel.GEMINI None true
       fresh_generator).2 in
  exists r2 s2,
    generate_embedding (env := E) "alpha" EmbeddingModel.GEMINI None true s1 = (Ok r2, s2)
    /\ EmbeddingResult.embedding r2 = EmbeddingResult.embedding r1
    /\ EmbeddingResult.processing_time r2 = EmbeddingResult.processing_time r1
    /\ (forall t1 t2,
          EmbeddingResult.processing_time r1 = Some t1 ->
          EmbeddingResult.processing_time r2 = Some t2 ->
          PrimFloat.is_nan t1 = false -> PrimFloat.leb t2 t1 = true)
    /\ r2 = r1
    /\ trace s2 = trace s1
    /\ cache s2 = cache s1.
Proof.
  intros E r1 s1.
  apply (generate_embedding_cache_idempotent (env := E)
           "alpha" EmbeddingModel.GEMINI None None fresh_generator s1 r1).
  - vm_compute. reflexivity.
  - reflexivity.
Defined.

(** C9, counterexample.  The provider fails until the clock has been read
    three times and answers afterwards.  The first call returns a failed
    result with no vector and caches nothing; the second call, for the same
    text and model, goes to the store and to the provider again and returns
    a vector: the two results differ. *)
Lemma generate_embedding_not_idempotent_after_failure :
  let E := scripted_env (fun w _ => Nat.ltb w 3) (fun _ => []) in
  exists r1 s1 r2 s2,
    generate_embedding (env := E) "alpha" EmbeddingModel.GEMINI None true
      fresh_generator = (Ok r1, s1)
    /\ generate_embedding (env := E) "alpha" EmbeddingModel.GEMINI None true s1
       = (Ok r2, s2)
    /\ EmbeddingResult.embedding r1 = None
    /\ EmbeddingResult.embedding r2 = Some [5; 1]%float
    /\ trace s2
       = trace s1 ++ [CacheFind "alpha:gemini";
                      ProviderCall EmbeddingModel.GEMINI "alpha";
                      CacheInsert "alpha:gemini"].
Proof.
  intros E. eexists _, _, _, _.
  split; [vm_compute; reflexivity|]. split; [vm_compute; reflexivity|].
  vm_compute. repeat split; reflexivity.
Qed.

(** C1, at the failing input.  Two texts in one batch; the provider fails
    on the first text, "alpha", and embeds the second, "beta", as [4, 1];
    the task of the second text finishes first.  The result of the batch
    holds the vector of "beta" at position 0 and [None] at position 1, and
    reports index 1 as failed, although it is the text at index 0 that
    failed: positions follow the order of completion, not the order of the
    input. *)
Theorem generate_batch_embeddings_completion_order :
  let E := scripted_env (fun _ t => String.eqb t "alpha") (fun _ => []) in
  let texts := ["alpha"; "beta"] in
  exists r s',
    generate_batch_embeddings (env := E) texts EmbeddingModel.GEMINI (Some 2%Z) None
      false 4 (fun _ => [1; 0]) fresh_generator = (Ok r, s')
    /\ BatchEmbeddingResult.embeddings r = Some [Some [4; 1]%float; None]
    /\ BatchEmbeddingResult.failed_indices r = Some [1]
    /\ BatchEmbeddingResult.quality_scores r = Some [Some 0.55%float; Some 0%float]
    /\ (generate_embedding (env := E) "alpha" EmbeddingModel.GEMINI None false
          fresh_generator).1
       = Ok (EmbeddingResult.failed "API Error" (Some 1%float))
    /\ EmbeddingResult.embedding
       <$> (match (generate_embedding (env := E) "beta" EmbeddingModel.GEMINI None false
                     fresh_generator).1 with
            | Ok r' => Some r'
            | Raise _ => None
            end)
       = Some (Some [4; 1]%float).
Proof.
  intros E texts. eexists _, _.
  split; [vm_compute; reflexivity|].
  vm_compute. repeat split; reflexivity.
Qed.

End GeneratorRuns.

(* ===================================================================== *)
(** ** Properties of the checkpoint                                        *)
(* ===================================================================== *)

(** Whatever the progress, the configuration and the time stamp,
    [json.dump] stops inside the "config" entry, at the first [Enum] member,
    and what it has written by then is not a JSON document. *)
Lemma encode_checkpoint_truncated p c timestamp :
  exists written e,
    Json.encode (VectorMigrator.checkpoint_data p c timestamp) = (written, Some e)
    /\ Json.load written = Raise (JSONDecodeError "Expecting value").
Proof.
  destruct c as [[|source sources] bs mw model b1 b2 b3 b4];
    destruct p as [t pr su fa sk [src|] st ec er];
    eexists _, _; split; vm_compute; reflexivity.
Qed.

Section Checkpoint.
Import VectorMigrator.
Context {World : Type} {env : Env World}.

Lemma load_truncated (s : State World) written :
  files s !! checkpoint_file s = Some written ->
  Json.load written = Raise (JSONDecodeError "Expecting value") ->
  _load_checkpoint s = (Ok tt, s).
Proof.
  intros Hf Hl. unfold _load_checkpoint, try_except, bind, get, lift_outcome.
  rewrite Hf. unfold ret. cbv beta iota. by rewrite Hl.
Qed.

Lemma save_checkpoint_run (s : State World) :
  exists written e s',
    _save_checkpoint s = (Ok tt, s')
    /\ Json.encode (checkpoint_data (progress s) (config s)
                      (fst (datetime_now (EmbeddingGenerator.world (embedding_generator s)))))
       = (written, Some e)
    /\ files s' = <[checkpoint_file s := written]> (files s)
    /\ checkpoint_file s' = checkpoint_file s
    /\ progress s' = progress s
    /\ config s' = config s
    /\ should_pause s' = should_pause s.
Proof.
  unfold _save_checkpoint, bind, get, ask, on_generator, zoom, EmbeddingGenerator.ask.
  destruct (datetime_now _) as [ts w] eqn:Hnow. cbn [fst].
  destruct (encode_checkpoint_truncated (progress s) (config s) ts) as (written & e & He & _).
  exists written, e. eexists. split.
  { unfold try_except, modify, ret, raise. cbv beta zeta iota.
    cbn [progress config checkpoint_file files set_files set_embedding_generator
         embedding_generator is_running should_pause EmbeddingGenerator.world
         EmbeddingGenerator.cache EmbeddingGenerator.trace EmbeddingGenerator.batch_size].
    rewrite He. cbv beta zeta iota. reflexivity. }
  split; [done|]. cbn. by rewrite insert_insert_eq.
Qed.

(** After [_save_checkpoint] the file exists and holds a truncated
    document, and [_load_checkpoint] changes nothing: the progress in memory
    stays what it was before the load. *)
Lemma save_then_load_restores_nothing (s : State World) (discarded : MigrationProgress.t) :
  exists s1 written,
    (_save_checkpoint s).2 = s1
    /\ files s1 !! checkpoint_file s1 = Some written
    /\ Json.load written = Raise (JSONDecodeError "Expecting value")
    /\ _load_checkpoint (set_progress discarded s1) = (Ok tt, set_progress discarded s1).
Proof.
  destruct (save_checkpoint_run s) as (written & e & s' & Hrun & He & Hf & Hc & _).
  destruct (encode_checkpoint_truncated (progress s) (config s)
              (fst (datetime_now (EmbeddingGenerator.world (embedding_generator s)))))
    as (written' & e' & He' & Hload).
  rewrite He in He'. injection He' as <- <-.
  exists s', written. rewrite Hrun. split; [done|].
  assert (Hlook : files s' !! checkpoint_file s' = Some written).
  { by rewrite Hf, Hc, lookup_insert_eq. }
  split; [done|]. split; [done|].
  by apply (load_truncated _ written).
Qed.

End Checkpoint.

(** C8, at the failing input and in general.  Save the progress
    [total=100, processed=50, successful=45, failed=0,
    current_source="analytics"] with the default configuration, discard the
    progress in memory, load: the file exists, but [json.dump] stopped at
    [embedding_model], an [Enum] member, so the file is not a JSON document,
    the load fails inside its handler, and the five fields are the fresh
    0, 0, 0, 0, None instead of the saved values.  The same holds for every
    progress, configuration and environment: the load after a save restores
    nothing. *)
Theorem checkpoint_round_trip_restores_nothing :
  (let E := scripted_env (fun _ _ => false) (fun _ => []) in
   let saved :=
     MigrationProgress.mk 100 50 45 0 0 (Some "analytics") None None [] in
   let s0 := VectorMigrator.set_progress saved (fresh_migrator MigrationConfig.default) in
   let s1 := (VectorMigrator._save_checkpoint (env := E) s0).2 in
   let s2 :=
     (VectorMigrator._load_checkpoint
        (VectorMigrator.set_progress MigrationProgress.fresh s1)).2 in
   is_Some (VectorMigrator.files s1 !! "migration_checkpoint.json")
   /\ VectorMigrator.progress s1 = saved
   /\ (MigrationProgress.total_records (VectorMigrator.progress s2),
       MigrationProgress.processed_records (VectorMigrator.progress s2),
       MigrationProgress.successful_records (VectorMigrator.progress s2),
       MigrationProgress.failed_records (VectorMigrator.progress s2),
       MigrationProgress.current_source (VectorMigrator.progress s2))
      = (0%Z, 0%Z, 0%Z, 0%Z, None))
  /\ (forall (World : Type) (env : Env World) (s : VectorMigrator.State World)
             (discarded : MigrationProgress.t),
        VectorMigrator.progress
          (VectorMigrator._load_checkpoint
             (VectorMigrator.set_progress discarded
                (VectorMigrator._save_checkpoint s).2)).2
        = discarded).
Proof.
  split.
  - cbv zeta. split; [|split].
    + vm_compute. eauto.
    + vm_compute. reflexivity.
    + vm_compute. reflexivity.
  - intros World env s discarded.
    destruct (save_then_load_restores_nothing s discarded)
      as (s1 & written & <- & _ & _ & ->).
    reflexivity.
Qed.

(* ===================================================================== *)
(** ** Properties of batch processing                                      *)
(* ===================================================================== *)

Section BatchProcessing.
Import VectorMigrator.
Context {World : Type} {env : Env World}.

Lemma frames_ret {A} (a : A) : frames (ret (S := State World) a).
Proof. by intros s o s' [= <- <-]. Qed.
Lemma frames_raise {A} e : frames (raise (S := State World) (A := A) e).
Proof. by intros s o s' [= <- <-]. Qed.
Lemma frames_lift_outcome {A} (o : outcome A) : frames (lift_outcome (S := State World) o).
Proof. by intros s o' s' [= <- <-]. Qed.
Lemma frames_gets {A} (f : State World -> A) : frames (gets f).
Proof. by intros s o s' [= <- <-]. Qed.
Lemma frames_on_generator {A} (m : M (EmbeddingGenerator.State World) A) :
  frames (on_generator m).
Proof.
  intros s o s'. unfold on_generator, zoom.
  destruct (m _) as [o' g]. by intros [= <- <-].
Qed.
Lemma frames_bind {A B} (m : M (State World) A) (k : A -> M (State World) B) :
  frames m -> (forall a, frames (k a)) -> frames (bind m k).
Proof.
  intros Hm Hk s o s'. unfold bind.
  destruct (m s) as [[a|e] s1] eqn:Hms.
  - intros Hks. rewrite (Hk a _ _ _ Hks). by eapply Hm.
  - intros [= <- <-]. by eapply Hm.
Qed.
Lemma frames_try_except {A} (m : M (State World) A) h :
  frames m -> (forall e, frames (h e)) -> frames (try_except m h).
Proof.
  intros Hm Hh s o s'. unfold try_except.
  destruct (m s) as [[a|e] s1] eqn:Hms.
  - intros [= <- <-]. by eapply Hm.
  - intros Hhs. rewrite (Hh e _ _ _ Hhs). by eapply Hm.
Qed.
Lemma frames_map_m {A B} (f : A -> M (State World) B) (l : list A) :
  (forall x, frames (f x)) -> frames (map_m f l).
Proof.
  intros Hf. induction l as [|x l IH]; [apply frames_ret|].
  cbn [map_m]. apply frames_bind; [done|]. intros y.
  apply frames_bind; [done|]. intros ys. apply frames_ret.
Qed.

Lemma total_try_except {A} (m : M (State World) A) h :
  (forall e, total (h e)) -> (forall s a s', m s = (Ok a, s') -> True) -> total (try_except m h).
Proof.
  intros Hh _ s. unfold try_except.
  destruct (m s) as [[a|e] s1]; [by eauto|]. apply Hh.
Qed.
Lemma total_ret {S A} (a : A) : total (ret (S := S) a).
Proof. intros s. by eexists _, _. Qed.
Lemma total_map_m {S A B} (f : A -> M S B) (l : list A) :
  (forall x, total (f x)) -> total (map_m f l).
Proof.
  intros Hf. induction l as [|x l IH]; [apply total_ret|].
  intros s. cbn [map_m]. unfold bind.
  destruct (Hf x s) as (y & s1 & ->). destruct (IH s1) as (ys & s2 & ->).
  by eexists _, _.
Qed.
Lemma map_m_length {S A B} (f : A -> M S B) (l : list A) s rs s' :
  map_m f l s = (Ok rs, s') -> length rs = length l.
Proof.
  revert s rs. induction l as [|x l IH]; intros s rs.
  { by intros [= <- <-]. }
  cbn [map_m]. unfold bind.
  destruct (f x s) as [[y|e] s1]; [|done].
  destruct (map_m f l s1) as [[ys|e] s2] eqn:Hrest; [|done].
  intros [= <- <-]. cbn. f_equal. by eapply IH.
Qed.

Create HintDb frames.
#[local] Hint Resolve frames_ret frames_raise frames_lift_outcome frames_gets
  frames_on_generator : frames.

Lemma frames_create_vector_document record er source_type :
  frames (_create_vector_document record er source_type).
Proof.
  unfold _create_vector_document, ask.
  repeat first
    [ apply frames_bind; [|intros ?]
    | match goal with |- frames (match ?x with _ => _ end) => destruct x end
    | solve [auto with frames] ].
Qed.

Lemma frames_process_record k record : frames (process_record k record).
Proof.
  unfold process_record, call.
  apply frames_try_except; [|intros e; apply frames_ret].
  repeat first
    [ apply frames_create_vector_document
    | apply frames_bind; [|intros ?]
    | match goal with |- frames (if ?x then _ else _) => destruct x end
    | solve [auto with frames] ].
Qed.

Lemma total_process_record k record : total (process_record k record).
Proof. apply total_try_except; [intros e; apply total_ret | done]. Qed.


(** A record whose embedding fails yields a failure entry with the error
    text of the embedding result. *)
Lemma process_record_failure k record (s : State World) content er g' :
  _extract_content k record = Ok content ->
  EmbeddingGenerator.generate_embedding content
    (MigrationConfig.embedding_model (config s)) (Some (record_context k record)) true
    (embedding_generator s) = (Ok er, g') ->
  EmbeddingResult.success er = false ->
  process_record k record s
  = (Ok (RecordOutcome.Failure (EmbeddingResult.error er)), set_embedding_generator g' s).
Proof.
  intros Hx Hg Hs. unfold process_record, try_except, bind, lift_outcome, gets.
  rewrite Hx. unfold on_generator at 1. unfold zoom. rewrite Hg, Hs. reflexivity.
Qed.

Lemma migrator_part_progress (s s' : State World) :
  migrator_part s' = migrator_part s -> progress s' = progress s.
Proof. unfold migrator_part. congruence. Qed.
Lemma migrator_part_files (s s' : State World) :
  migrator_part s' = migrator_part s ->
  files s' = files s /\ checkpoint_file s' = checkpoint_file s.
Proof. unfold migrator_part. split; congruence. Qed.

Lemma update_progress_run f (s : State World) :
  update_progress f s = (Ok tt, set_progress (f (progress s)) s).
Proof. reflexivity. Qed.

Lemma slice_length {A} (l : list A) (i b : nat) :
  length (slice l i (i + b)) = Nat.min b (length l - i).
Proof. unfold slice. rewrite length_take, length_drop. f_equal. lia. Qed.

Lemma count_success_bounds (results : list RecordOutcome.t) :
  (0 <= count_success results <= Z.of_nat (length results))%Z.
Proof.
  unfold count_success.
  pose proof (length_filter (fun r => RecordOutcome.success r = true) results).
  lia.
Qed.

(** The loop of [migrate_<kind>_data] over any list of starts: it returns,
    [processed_records] grows by the sizes of the batches,
    [successful_records] by the running totals of the successes, and
    [failed_records] and [errors] stay as they are. *)
Lemma batch_loop_run k (data : list SourceRecord.t) (b : nat) (starts : list nat) :
  forall (sm : Z) (s : State World),
    exists counts sm' s',
      batch_loop k data b starts sm s = (Ok sm', s')
      /\ Forall2 (fun c i => (0 <= c <= Z.of_nat (length (slice data i (i + b))))%Z)
           counts starts
      /\ sm' = (sm + foldr Z.add 0 counts)%Z
      /\ MigrationProgress.processed_records (progress s')
         = (MigrationProgress.processed_records (progress s)
            + Z.of_nat (sum_list ((fun i => length (slice data i (i + b))) <$> starts)))%Z
      /\ MigrationProgress.successful_records (progress s')
         = (MigrationProgress.successful_records (progress s) + running_totals sm counts)%Z
      /\ MigrationProgress.failed_records (progress s')
         = MigrationProgress.failed_records (progress s)
      /\ MigrationProgress.errors (progress s') = MigrationProgress.errors (progress s).
Proof.
  induction starts as [|i starts IH]; intros sm s.
  { exists [], sm, s. cbn. repeat split; [constructor|lia..]. }
  cbn [batch_loop]. unfold bind.
  destruct (total_map_m (process_record k) (slice data i (i + b))
              (total_process_record k) s) as (results & s1 & Hrun).
  pose proof (frames_map_m (process_record k) _ (frames_process_record k)
                _ _ _ Hrun) as Hpart.
  pose proof (map_m_length _ _ _ _ _ Hrun) as Hlen.
  unfold _process_batch_of. rewrite Hrun.
  rewrite !update_progress_run.
  match goal with |- context [batch_loop k data b starts ?sm1 ?s2] =>
    destruct (IH sm1 s2) as (counts & sm' & s' & -> & Hc & Hsm & Hp & Hs & Hf & He) end.
  exists (count_success results :: counts), sm', s'. split; [done|].
  apply migrator_part_progress in Hpart.
  pose proof (count_success_bounds results) as Hb. rewrite Hlen in Hb.
  split; [by constructor|].
  rewrite Hsm, Hp, Hs, Hf, He. cbn. rewrite Hpart.
  repeat split; lia.
Qed.

Lemma blind_ret {A} (a : A) : progress_blind (ret (S := State World) a).
Proof. by intros p s. Qed.
Lemma blind_raise {A} e : progress_blind (raise (S := State World) (A := A) e).
Proof. by intros p s. Qed.
Lemma blind_lift_outcome {A} (o : outcome A) :
  progress_blind (lift_outcome (S := State World) o).
Proof. by intros p s. Qed.
Lemma blind_gets_config : progress_blind (gets (config (World := World))).
Proof. by intros p s. Qed.
Lemma blind_on_generator {A} (m : M (EmbeddingGenerator.State World) A) :
  progress_blind (on_generator m).
Proof.
  intros p s. unfold on_generator, zoom. cbn.
  by destruct (m (embedding_generator s)) as [o g].
Qed.
Lemma blind_bind {A B} (m : M (State World) A) (k : A -> M (State World) B) :
  progress_blind m -> (forall a, progress_blind (k a)) -> progress_blind (bind m k).
Proof.
  intros Hm Hk p s. unfold bind. rewrite Hm.
  destruct (m s) as [[a|e] s1]; [apply Hk|done].
Qed.
Lemma blind_try_except {A} (m : M (State World) A) h :
  progress_blind m -> (forall e, progress_blind (h e)) -> progress_blind (try_except m h).
Proof.
  intros Hm Hh p s. unfold try_except. rewrite Hm.
  destruct (m s) as [[a|e] s1]; [done|apply Hh].
Qed.
Lemma blind_map_m {A B} (f : A -> M (State World) B) (l : list A) :
  (forall x, progress_blind (f x)) -> progress_blind (map_m f l).
Proof.
  intros Hf. induction l as [|x l IH]; [apply blind_ret|].
  cbn [map_m]. apply blind_bind; [done|]. intros y.
  apply blind_bind; [done|]. intros ys. apply blind_ret.
Qed.

Lemma blind_create_vector_document record er source_type :
  progress_blind (_create_vector_document record er source_type).
Proof.
  unfold _create_vector_document, ask.
  repeat first
    [ apply blind_bind; [|intros ?]
    | match goal with |- progress_blind (match ?x with _ => _ end) => destruct x end
    | apply blind_ret | apply blind_raise | apply blind_on_generator ].
Qed.

Lemma blind_process_record k record : progress_blind (process_record k record).
Proof.
  unfold process_record, call.
  apply blind_try_except; [|intros e; apply blind_ret].
  repeat first
    [ apply blind_create_vector_document
    | apply blind_bind; [|intros ?]
    | match goal with |- progress_blind (if ?x then _ else _) => destruct x end
    | apply blind_ret | apply blind_raise | apply blind_on_generator
    | apply blind_lift_outcome | apply blind_gets_config ].
Qed.

Lemma count_success_migrated (results : list RecordOutcome.t) :
  count_success results = migrated results.
Proof.
  unfold count_success. induction results as [|[rid|err] results IH]; [done|..].
  - rewrite filter_cons_True by done. cbn [length migrated]. lia.
  - rewrite filter_cons_False by done. done.
Qed.

Lemma entries_of_batches_lengths k (batches : list (list SourceRecord.t)) :
  forall s : State World,
    Forall2 (fun batch entries => length entries = length batch)
      batches (entries_of_batches k batches s).1.
Proof.
  induction batches as [|batch batches IH]; intros s; [constructor|].
  cbn [entries_of_batches].
  destruct (total_map_m (process_record k) batch (total_process_record k) s)
    as (results & s1 & Hrun).
  unfold _process_batch_of. rewrite Hrun.
  specialize (IH s1). destruct (entries_of_batches k batches s1) as [entries s2].
  constructor; [by eapply map_m_length|done].
Qed.

(** The loop of [migrate_<kind>_data] against the batch processor run on
    its own: the loop returns, its count has grown by the migrated records
    of each batch, the generator and the collaborators are where the batch
    processor left them, and [failed_records] and [errors] are untouched. *)
Lemma batch_loop_entries k (data : list SourceRecord.t) (b : nat) (starts : list nat) :
  forall (sm : Z) (p : MigrationProgress.t) (s : State World),
    let run := entries_of_batches k ((fun i => slice data i (i + b)) <$> starts) s in
    exists sm' p',
      batch_loop k data b starts sm (set_progress p s) = (Ok sm', set_progress p' run.2)
      /\ sm' = (sm + foldr Z.add 0 (migrated <$> run.1))%Z
      /\ MigrationProgress.failed_records p' = MigrationProgress.failed_records p
      /\ MigrationProgress.errors p' = MigrationProgress.errors p.
Proof.
  induction starts as [|i starts IH]; intros sm p s.
  { exists sm, p. cbn. split; [done|]. split; [lia|done]. }
  cbn [batch_loop fmap list_fmap entries_of_batches]. unfold bind at 1.
  unfold _process_batch_of.
  rewrite (blind_map_m _ _ (blind_process_record k) p s).
  destruct (total_map_m (process_record k) (slice data i (i + b))
              (total_process_record k) s) as (results & s1 & Hrun).
  rewrite Hrun. unfold bind. rewrite !update_progress_run.
  match goal with
  | |- context [batch_loop k data b starts ?sm1 (set_progress ?p1 _)] =>
      destruct (IH sm1 p1 s1) as (sm' & p' & Hloop & Hsm & Hf & He)
  end.
  cbn [list_fmap] in Hloop, Hsm.
  change (set_progress ?q (set_progress ?r (set_progress p s1)))
    with (set_progress q s1).
  destruct (entries_of_batches k _ s1) as [entries s2] eqn:Hrest. cbn in *.
  exists sm', p'. split; [exact Hloop|].
  rewrite count_success_migrated in Hsm. split; [lia|].
  rewrite Hf, He. done.
Qed.

Lemma set_progress_same (s : State World) : set_progress (progress s) s = s.
Proof. by destruct s. Qed.

Lemma process_record_success k record (s s1 : State World) rid :
  process_record k record s = (Ok (RecordOutcome.Success rid), s1) ->
  rid = SourceRecord._id record
  /\ exists content er g',
       _extract_content k record = Ok content
       /\ EmbeddingGenerator.generate_embedding content
            (MigrationConfig.embedding_model (config s))
            (Some (record_context k record)) true (embedding_generator s)
          = (Ok er, g')
       /\ EmbeddingResult.success er = true.
Proof.
  unfold process_record, try_except, bind, lift_outcome, gets.
  destruct (_extract_content k record) as [content|e0]; [|discriminate].
  unfold on_generator at 1. unfold zoom.
  destruct (EmbeddingGenerator.generate_embedding _ _ _ _ _) as [[er|e1] g'] eqn:Hg;
    [|discriminate].
  destruct (EmbeddingResult.success er) eqn:Hs; [|discriminate].
  destruct (_create_vector_document _ _ _ _) as [[doc|e2] s2]; [|discriminate].
  destruct (on_generator _ s2) as [[[]|e3] s3]; [|discriminate].
  destruct (call _ s3) as [[i|e4] s4]; [|discriminate].
  intros [= <- _]. split; [done|]. by exists content, er, g'.
Qed.

(** C4, as amended.  For every batch of every kind, from every state: the
    batch processor returns one entry per record, in order, never raises,
    and leaves the progress object, [failed_records] and [errors] included,
    as it was.  A record whose embedding generation fails contributes the
    entry [{'success': False, 'error': <the error text of its result>}], and
    the records after it are processed all the same; an entry reports
    success, with the identifier of its record, only when the embedding of
    that record succeeded.  The loop that calls the processor, over any
    batches and from any count of earlier successes, returns too: its count
    of successful migrations grows by exactly the successfully migrated
    records of each batch ([migrated], read off the entries the processor
    returns for that batch), the generator and the collaborators are where
    the processor left them, and [failed_records] and [errors] are as they
    were. *)
Theorem process_batch_isolates_failures :
  forall (k : SourceKind) (batch : list SourceRecord.t) (s : State World),
    (exists results s',
       _process_batch_of k batch s = (Ok results, s')
       /\ length results = length batch
       /\ progress s' = progress s)
    /\ (forall record rest,
          batch = record :: rest ->
          exists entry s1 entries s2,
            process_record k record s = (Ok entry, s1)
            /\ _process_batch_of k rest s1 = (Ok entries, s2)
            /\ _process_batch_of k batch s = (Ok (entry :: entries), s2)
            /\ (forall content er g',
                  _extract_content k record = Ok content ->
                  EmbeddingGenerator.generate_embedding content
                    (MigrationConfig.embedding_model (config s))
                    (Some (record_context k record)) true (embedding_generator s)
                  = (Ok er, g') ->
                  EmbeddingResult.success er = false ->
                  entry = RecordOutcome.Failure (EmbeddingResult.error er))
            /\ (forall rid,
                  entry = RecordOutcome.Success rid ->
                  rid = SourceRecord._id record
                  /\ exists content er g',
                       _extract_content k record = Ok content
                       /\ EmbeddingGenerator.generate_embedding content
                            (MigrationConfig.embedding_model (config s))
                            (Some (record_context k record)) true (embedding_generator s)
                          = (Ok er, g')
                       /\ EmbeddingResult.success er = true))
    /\ (forall (data : list SourceRecord.t) (b : nat) (starts : list nat) (sm : Z),
          let run :=
            entries_of_batches k ((fun i => slice data i (i + b)) <$> starts) s in
          exists sm' s',
            batch_loop k data b starts sm s = (Ok sm', s')
            /\ Forall2 (fun batch entries => length entries = length batch)
                 ((fun i => slice data i (i + b)) <$> starts) run.1
            /\ sm' = (sm + foldr Z.add 0 (migrated <$> run.1))%Z
            /\ embedding_generator s' = embedding_generator run.2
            /\ MigrationProgress.failed_records (progress s')
               = MigrationProgress.failed_records (progress s)
            /\ MigrationProgress.errors (progress s')
               = MigrationProgress.errors (progress s)).
Proof.
  intros k batch s. split; [|split].
  - destruct (total_map_m (process_record k) batch (total_process_record k) s)
      as (results & s' & Hrun).
    exists results, s'. split; [done|]. split; [by eapply map_m_length|].
    pose proof (frames_map_m (process_record k) batch (frames_process_record k)
                  _ _ _ Hrun) as Hpart.
    by apply migrator_part_progress.
  - intros record rest ->.
    destruct (total_process_record k record s) as (entry & s1 & H1).
    destruct (total_map_m (process_record k) rest (total_process_record k) s1)
      as (entries & s2 & H2).
    exists entry, s1, entries, s2. split; [done|]. split; [done|]. split.
    { unfold _process_batch_of. cbn [map_m]. unfold bind.
      fold (_process_batch_of k rest). unfold _process_batch_of. by rewrite H1, H2. }
    split.
    + intros content er g' Hx Hg Hs.
      rewrite (process_record_failure _ _ _ _ _ _ Hx Hg Hs) in H1. by injection H1.
    + intros rid ->. by eapply process_record_success.
  - intros data b starts sm run.
    destruct (batch_loop_entries k data b starts sm (progress s) s)
      as (sm' & p' & Hloop & Hsm & Hf & He).
    rewrite set_progress_same in Hloop. fold run in Hloop, Hsm.
    exists sm', (set_progress p' run.2). split; [exact Hloop|].
    split; [apply entries_of_batches_lengths|]. split; [exact Hsm|].
    split; [done|]. split; [exact Hf|exact He].
Qed.
End BatchProcessing.

(** The amended C4 at a concrete batch: the provider fails on the first of
    two records; its entry is the failure with the provider's message, and
    the second record is processed; the entry of the second record reports
    success, and its embedding did succeed; the loop over the one batch of
    the two records counts one successful migration and leaves
    [failed_records] and [errors] as they were. *)
Lemma process_batch_isolates_failures_witness :
  let E := scripted_env (fun _ text => ends_with "bad" text) two_record_store in
  let s0 := fresh_migrator MigrationConfig.default in
  let good := SourceRecord.mk (Some "2") (Some "site") None None "good" in
  (exists entries s2,
     VectorMigrator._process_batch_of (env := E) VectorMigrator.Analytics two_records s0
     = (Ok (RecordOutcome.Failure (Some "API Error") :: entries), s2)
     /\ length entries = 1)
  /\ (exists content er g',
        VectorMigrator._extract_content (env := E) VectorMigrator.Analytics good
        = Ok content
        /\ EmbeddingGenerator.generate_embedding (env := E) content EmbeddingModel.GEMINI
             (Some (VectorMigrator.record_context VectorMigrator.Analytics good)) true
             fresh_generator
           = (Ok er, g')
        /\ EmbeddingResult.success er = true)
  /\ (exists sm' s',
        VectorMigrator.batch_loop (env := E) VectorMigrator.Analytics two_records 10 [0]
          0 s0 = (Ok sm', s')
        /\ sm' = 1%Z
        /\ MigrationProgress.failed_records (VectorMigrator.progress s') = 0%Z
        /\ MigrationProgress.errors (VectorMigrator.progress s') = []).
Proof.
  intros E s0 good. split; [|split].
  - pose proof (process_batch_isolates_failures (env := E) VectorMigrator.Analytics
                  two_records s0) as (_ & Hhead & _).
    destruct (Hhead (SourceRecord.mk (Some "1") (Some "site") None None "bad")
                [good] eq_refl)
      as (entry & s1 & entries & s2 & _ & Hrest & Hall & Hfail & _).
    destruct (EmbeddingGenerator.generate_embedding (env := E) "bad"
                EmbeddingModel.GEMINI
                (Some (VectorMigrator.record_context VectorMigrator.Analytics
                         (SourceRecord.mk (Some "1") (Some "site") None None "bad")))
                true fresh_generator) as [[er|e] g'] eqn:Hgen;
      [|vm_compute in Hgen; discriminate Hgen].
    assert (EmbeddingResult.success er = false
            /\ EmbeddingResult.error er = Some "API Error") as [Hs He].
    { vm_compute in Hgen. injection Hgen as <- _. split; reflexivity. }
    rewrite (Hfail "bad" er g' eq_refl Hgen Hs), He in Hall.
    exists entries, s2. split; [exact Hall|].
    apply map_m_length in Hall. cbn in Hall. lia.
  - pose proof (process_batch_isolates_failures (env := E) VectorMigrator.Analytics
                  [good] s0) as (_ & Hhead & _).
    destruct (Hhead good [] eq_refl) as (entry & s1 & entries & s2 & H1 & _ & _ & _ & Hsucc).
    assert (Hentry : entry = RecordOutcome.Success (Some "2")).
    { vm_compute in H1. by injection H1 as <- _. }
    destruct (Hsucc (Some "2") Hentry) as (_ & content & er & g' & Hx & Hg & Hs).
    by exists content, er, g'.
  - pose proof (process_batch_isolates_failures (env := E) VectorMigrator.Analytics
                  [] s0) as (_ & _ & Hloop).
    destruct (Hloop two_records 10 [0] 0%Z) as (sm' & s' & Hrun & _ & Hsm & _ & Hf & He).
    exists sm', s'. split; [exact Hrun|]. split; [|split].
    + rewrite Hsm. vm_compute. reflexivity.
    + rewrite Hf. reflexivity.
    + rewrite He. reflexivity.
Defined.

(** C4, counterexample.  The provider fails on the first of two analytics
    records: the batch processor returns a failure entry for it, and neither
    it nor the loop of [migrate_analytics_data] around it counts the failure
    or keeps its text: [failed_records] stays 0 and [errors] stays empty,
    while both records have been processed. *)
Lemma failed_record_is_not_counted :
  let s0 := fresh_migrator MigrationConfig.default in
  let E := scripted_env (fun _ text => ends_with "bad" text) two_record_store in
  let batch_run := VectorMigrator._process_analytics_batch (env := E) two_records s0 in
  let loop_run :=
    VectorMigrator.migrate_kind_block (env := E) VectorMigrator.Analytics None 10 0 s0 in
  batch_run.1
  = Ok [RecordOutcome.Failure (Some "API Error"); RecordOutcome.Success (Some "2")]
  /\ MigrationProgress.failed_records (VectorMigrator.progress batch_run.2) = 0%Z
  /\ MigrationProgress.errors (VectorMigrator.progress batch_run.2) = []
  /\ is_ok loop_run.1 = true
  /\ MigrationProgress.processed_records (VectorMigrator.progress loop_run.2) = 2%Z
  /\ MigrationProgress.failed_records (VectorMigrator.progress loop_run.2) = 0%Z
  /\ MigrationProgress.errors (VectorMigrator.progress loop_run.2) = [].
Proof. vm_compute. repeat split; reflexivity. Qed.

(* ===================================================================== *)
(** ** Properties of the batches                                           *)
(* ===================================================================== *)

Section Batches.

Lemma range_step_length (n b : nat) : length (range_step n b) = (n + b - 1) / b.
Proof. unfold range_step. by rewrite length_fmap, length_seq. Qed.

Lemma ceil_div (n b : nat) :
  0 < b -> (n + b - 1) / b = n / b + (if n mod b =? 0 then 0 else 1).
Proof.
  intros Hb.
  pose proof (Nat.div_mod_eq n b) as Hdiv.
  pose proof (Nat.mod_upper_bound n b ltac:(lia)) as Hmod.
  destruct (Nat.eqb_spec (n mod b) 0) as [H0|H0].
  - symmetry. apply (Nat.div_unique _ b _ (b - 1)); [lia|]. nia.
  - symmetry. apply (Nat.div_unique _ b _ (n mod b - 1)); [lia|]. nia.
Qed.

Lemma sum_batches_upto (n b m : nat) :
  sum_list ((fun i => Nat.min b (n - i)) <$> ((fun k => k * b) <$> seq 0 m))
  = Nat.min (m * b) n.
Proof.
  induction m as [|m IH]; [done|].
  rewrite seq_S, !fmap_app, sum_list_with_app, IH. cbn. nia.
Qed.

Lemma batch_sizes_sum (n b : nat) : 0 < b -> sum_list (batch_sizes n b) = n.
Proof.
  intros Hb. unfold batch_sizes, range_step. rewrite sum_batches_upto.
  apply Nat.min_r.
  pose proof (Nat.div_mod_eq (n + b - 1) b) as Hdiv.
  pose proof (Nat.mod_upper_bound (n + b - 1) b ltac:(lia)) as Hmod.
  nia.
Qed.

(** Full batches, then the rest if there is one. *)
Lemma batch_sizes_shape (n b : nat) :
  0 < b ->
  batch_sizes n b = replicate (n / b) b ++ (if n mod b =? 0 then [] else [n mod b]).
Proof.
  intros Hb. unfold batch_sizes, range_step. rewrite ceil_div by done.
  pose proof (Nat.div_mod_eq n b) as Hdiv.
  pose proof (Nat.mod_upper_bound n b ltac:(lia)) as Hmod.
  rewrite seq_app, !fmap_app. f_equal.
  - symmetry. apply replicate_as_Forall. split.
    + by rewrite !length_fmap, length_seq.
    + rewrite !Forall_fmap. apply Forall_seq. intros j Hj. cbn. nia.
  - destruct (Nat.eqb_spec (n mod b) 0) as [H0|H0]; [done|]. cbn. f_equal. nia.
Qed.

Lemma concat_slices {A} (data : list A) (b m : nat) :
  concat ((fun i => slice data i (i + b)) <$> ((fun k => k * b) <$> seq 0 m))
  = take (m * b) data.
Proof.
  induction m as [|m IH]; [done|].
  rewrite seq_S, !fmap_app, concat_app, IH. cbn. rewrite app_nil_r.
  unfold slice. replace (m * b + b - m * b) with b by lia.
  rewrite take_take_drop. f_equal. lia.
Qed.

(** The batches are the data, cut in order. *)
Lemma batches_of_concat {A} (data : list A) (b : nat) :
  0 < b -> concat (batches_of data b) = data.
Proof.
  intros Hb. unfold batches_of, range_step. rewrite concat_slices.
  apply take_ge.
  pose proof (Nat.div_mod_eq (length data + b - 1) b) as Hdiv.
  pose proof (Nat.mod_upper_bound (length data + b - 1) b ltac:(lia)) as Hmod.
  nia.
Qed.

Lemma batches_of_sizes {A} (data : list A) (b : nat) :
  length <$> batches_of data b = batch_sizes (length data) b.
Proof.
  unfold batches_of, batch_sizes. rewrite <- list_fmap_compose.
  apply list_fmap_ext. intros _ i _. cbn.
  unfold slice. rewrite length_take, length_drop. f_equal. lia.
Qed.

End Batches.

(* ===================================================================== *)
(** ** Properties of the migrations                                        *)
(* ===================================================================== *)

(** Entering [with LogContext(...)] raises [NameError]: [__enter__] reads
    the global [time], which [utils/logger.py] never binds.  The body does
    not run. *)
Lemma with_LogContext_raises {S A} (clock : M S float) (body : M S A) (s : S) :
  Logger.with_LogContext clock body s
  = (Raise (NameError "name 'time' is not defined"), s).
Proof. reflexivity. Qed.

Section Migration.
Import VectorMigrator.
Context {World : Type} {env : Env World}.

Lemma only_world_changed_refl (s : State World) : only_world_changed s s.
Proof. done. Qed.
Lemma only_world_changed_trans (s1 s2 s3 : State World) :
  only_world_changed s1 s2 -> only_world_changed s2 s3 -> only_world_changed s1 s3.
Proof.
  intros (H1 & H2 & H3) (H4 & H5 & H6). unfold only_world_changed.
  repeat split; congruence.
Qed.

Lemma ask_only_world {A} (f : World -> A * World) (s : State World) :
  exists a s', ask f s = (Ok a, s') /\ only_world_changed s s'.
Proof.
  unfold ask, on_generator, zoom, EmbeddingGenerator.ask.
  destruct (f _) as [a w]. by eexists _, _.
Qed.

Lemma call_run {A} (f : World -> outcome A * World) (s : State World) :
  exists s', call f s = ((f (EmbeddingGenerator.world (embedding_generator s))).1, s')
             /\ only_world_changed s s'.
Proof.
  unfold call, on_generator, zoom, EmbeddingGenerator.call.
  destruct (f _) as [o w]. by eexists.
Qed.

Lemma result_now_run success start_time metadata (s : State World) :
  exists t s',
    result_now success start_time metadata s
    = (Ok (MigrationResult.mk success (progress s) t metadata), s')
    /\ only_world_changed s s'.
Proof.
  unfold result_now, bind, gets.
  destruct (ask_only_world time_time s) as (now & s' & -> & Hs').
  by eexists _, _.
Qed.

(** [migrate_<kind>_data] never runs its block. *)
Lemma migrate_kind_data_name_error k ids batch_size (s : State World) :
  exists t s',
    migrate_kind_data k ids batch_size s
    = (Ok (MigrationResult.mk false (progress s) t
             (MigrationMetadata.Error "name 'time' is not defined")), s')
    /\ only_world_changed s s'.
Proof.
  unfold migrate_kind_data, Logger.log_async_performance, bind.
  destruct (ask_only_world time_time s) as (t0 & s0 & -> & H0).
  unfold migrate_kind_data__wrapped, bind.
  destruct (ask_only_world time_time s0) as (t1 & s1 & -> & H1).
  unfold gets, try_except. rewrite with_LogContext_raises.
  destruct (result_now_run false t1
              (MigrationMetadata.Error (str (NameError "name 'time' is not defined"))) s1)
    as (t & s2 & -> & H2).
  destruct (ask_only_world time_time s2) as (t3 & s3 & -> & H3).
  exists t, s3. split.
  - unfold ret. do 3 f_equal. destruct H0 as [H0 _], H1 as [H1 _].
    unfold migrator_part in *. congruence.
  - eauto using only_world_changed_trans.
Qed.

(** The block of [migrate_<kind>_data] over the fetched records [data],
    with a positive batch size [B]. *)
Lemma migrate_kind_block_processes_all k ids (B : Z) start_time (s : State World) data :
  (0 < B)%Z ->
  data <> [] ->
  (db_find_documents (collection k)
     (match k with Transaction => contractId_filter ids | _ => siteId_filter ids end)
     (EmbeddingGenerator.world (embedding_generator s))).1 = Ok data ->
  exists r s',
    migrate_kind_block k ids B start_time s = (Ok r, s')
    /\ MigrationResult.success r = true
    /\ MigrationResult.progress r = progress s'
    /\ MigrationProgress.processed_records (progress s')
       = (MigrationProgress.processed_records (progress s) + Z.of_nat (length data))%Z.
Proof.
  intros HB Hdata Hfind. unfold migrate_kind_block, bind.
  destruct (call_run (db_find_documents (collection k)
     (match k with Transaction => contractId_filter ids | _ => siteId_filter ids end)) s)
    as (s0 & -> & H0).
  rewrite Hfind. destruct data as [|d data']; [done|].
  set (data := d :: data') in *.
  unfold lift_outcome, py_range.
  destruct (Z.eqb_spec B 0) as [->|_]; [lia|].
  destruct (Z.ltb_spec B 0) as [?|_]; [lia|].
  destruct (batch_loop_run k data (Z.to_nat B)
              (range_step (length data) (Z.to_nat B)) 0%Z s0)
    as (counts & sm & s1 & -> & _ & _ & Hp & _).
  destruct (result_now_run true start_time
              (MigrationMetadata.Totals (length data) sm) s1) as (t & s2 & -> & H2).
  eexists _, _. split; [done|]. cbn [MigrationResult.success MigrationResult.progress].
  split; [done|].
  destruct H0 as [H0 _], H2 as [H2 _].
  apply migrator_part_progress in H0, H2.
  split; [done|]. rewrite H2, Hp, H0. f_equal. f_equal.
  rewrite <- (batch_sizes_sum (length data) (Z.to_nat B)) at 2 by lia.
  unfold batch_sizes. f_equal. apply list_fmap_ext. intros _ i _.
  apply slice_length.
Qed.

(** [_finalize_migration] returns, and no checkpoint file is left. *)
Lemma finalize_migration_removes (s : State World) :
  exists s',
    _finalize_migration s = (Ok tt, s')
    /\ checkpoint_file s' = checkpoint_file s
    /\ files s' !! checkpoint_file s' = None
    /\ should_pause s' = should_pause s.
Proof.
  unfold _finalize_migration, bind.
  destruct (ask_only_world datetime_now s) as (now & s0 & -> & (H0 & _)).
  rewrite update_progress_run. unfold try_except, modify.
  unfold migrator_part in H0.
  assert (files s0 = files s /\ checkpoint_file s0 = checkpoint_file s
          /\ should_pause s0 = should_pause s) as (Hf & Hc & Hsp)
    by (repeat split; congruence).
  destruct s0 as [c p cf ir sp g f]. cbn in *. subst.
  destruct (files s !! checkpoint_file s) eqn:Hl; eexists; cbn.
  - split; [done|]. split; [done|]. split; [|done]. apply lookup_delete_eq.
  - by repeat split.
Qed.

(** Whenever the block of [migrate_all_data] returns, no checkpoint file is
    left: the loop leaves by [break] to [_finalize_migration]. *)
Lemma migrate_all_block_removes_checkpoint others site_ids team_ids start_date end_date
    start_time (s : State World) r s' :
  migrate_all_block others site_ids team_ids start_date end_date start_time s = (Ok r, s') ->
  files s' !! checkpoint_file s' = None.
Proof.
  unfold migrate_all_block, bind, gets.
  destruct ((if MigrationConfig.resume_from_checkpoint (config s)
             then _load_checkpoint else ret tt) s) as [[[]|e] s1]; [|done].
  destruct (_calculate_total_records _ _ _ _ s1) as [[[]|e] s2]; [|done].
  destruct (source_loop _ _ _ _ _ _ _ s2) as [[[]|e] s3]; [|done].
  destruct (finalize_migration_removes s3) as (s4 & -> & Hc & Hf & _).
  destruct (ask_only_world time_time s4) as (t & s5 & -> & (H5 & _)).
  destruct (ask_only_world datetime_now s5) as (t' & s6 & -> & (H6 & _)).
  intros [= _ <-].
  apply migrator_part_files in H5, H6. destruct H5 as [H5 H5'], H6 as [H6 H6'].
  by rewrite H6', H6, H5', H5.
Qed.

(** [migrate_all_data] never runs its block: what the other coroutines
    would do during it is not consulted. *)
Lemma migrate_all_data_name_error others site_ids team_ids start_date end_date
    (s : State World) :
  exists t s',
    migrate_all_data others site_ids team_ids start_date end_date s
    = (Ok (MigrationResult.mk false (progress s') t
             (MigrationMetadata.Error "name 'time' is not defined")), s')
    /\ files s' = files s
    /\ checkpoint_file s' = checkpoint_file s
    /\ should_pause s' = should_pause s
    /\ is_running s' = false
    /\ MigrationProgress.current_source (progress s')
       = MigrationProgress.current_source (progress s)
    /\ MigrationProgress.processed_records (progress s')
       = MigrationProgress.processed_records (progress s).
Proof.
  unfold migrate_all_data, Logger.log_async_performance, bind.
  destruct (ask_only_world time_time s) as (t0 & s0 & -> & (H0 & _)).
  unfold migrate_all_data__wrapped, bind.
  destruct (ask_only_world time_time s0) as (t1 & s1 & -> & (H1 & _)).
  unfold modify.
  destruct (ask_only_world datetime_now (set_is_running true s1))
    as (now & s2 & -> & (H2 & _)).
  rewrite update_progress_run. unfold try_finally, try_except.
  rewrite with_LogContext_raises.
  destruct (result_now_run false t1
              (MigrationMetadata.Error (str (NameError "name 'time' is not defined")))
              (set_progress (MigrationProgress.set_start_time (Some now) (progress s2)) s2))
    as (t & s3 & -> & (H3 & _)).
  destruct (ask_only_world time_time (set_is_running false s3))
    as (t4 & s4 & -> & (H4 & _)).
  exists t, s4. unfold migrator_part in *. cbn in *.
  injection H0 as ? ? ? ? ? ?. injection H1 as ? ? ? ? ? ?.
  injection H2 as ? ? ? ? ? ?. injection H3 as ? ? ? ? ? ?.
  injection H4 as ? ? ? ? ? ?.
  repeat split; try congruence.
  - unfold ret. do 3 f_equal. congruence.
  - transitivity (MigrationProgress.current_source (progress s3)); [congruence|].
    replace (progress s3) with (MigrationProgress.set_start_time (Some now) (progress s2))
      by congruence.
    cbn. congruence.
  - transitivity (MigrationProgress.processed_records (progress s3)); [congruence|].
    replace (progress s3) with (MigrationProgress.set_start_time (Some now) (progress s2))
      by congruence.
    cbn. congruence.
Qed.
End Migration.

(** C7 fails on the code, by a slip outside the loop.  (1) Every call of
    [migrate_<kind>_data], for every kind, argument, state and environment,
    returns a result with [success=False] and the error "name 'time' is not
    defined": [LogContext.__enter__] raises before a record is fetched, and
    the progress is the one the call started with.  (2) The block under the
    [with], had it been entered, does what the claim says: over N >= 1
    fetched records and a batch size B >= 1 it runs over ceil(N/B) batches,
    which are the data cut in order, all of size B but possibly the last,
    and it returns with [processed_records] increased by exactly N.  (3) For
    23 analytics records and [batch_size=10]: the batch sizes are 10, 10, 3
    and the block ends with [processed_records = 23], while
    [migrate_analytics_data] returns the failure, calls no provider, and
    leaves [processed_records = 0]. *)
Theorem migrate_kind_data_never_reaches_batches :
  (forall (World : Type) (env : Env World) (k : VectorMigrator.SourceKind)
          (ids : option (list string)) (batch_size : option Z)
          (s : VectorMigrator.State World),
     exists t s',
       VectorMigrator.migrate_kind_data k ids batch_size s
       = (Ok (MigrationResult.mk false (VectorMigrator.progress s) t
                (MigrationMetadata.Error "name 'time' is not defined")), s')
       /\ only_world_changed s s')
  /\ (forall (World : Type) (env : Env World) (k : VectorMigrator.SourceKind)
             (ids : option (list string)) (B : Z) (start_time : float)
             (s : VectorMigrator.State World) (data : list SourceRecord.t),
        (0 < B)%Z ->
        data <> [] ->
        (db_find_documents (VectorMigrator.collection k)
           (match k with
            | VectorMigrator.Transaction => VectorMigrator.contractId_filter ids
            | _ => VectorMigrator.siteId_filter ids
            end)
           (EmbeddingGenerator.world (VectorMigrator.embedding_generator s))).1 = Ok data ->
        let N := length data in
        let b := Z.to_nat B in
        py_range N B = Ok (range_step N b)
        /\ length (batches_of data b) = (N + b - 1) / b
        /\ (N + b - 1) / b = N / b + (if N mod b =? 0 then 0 else 1)
        /\ concat (batches_of data b) = data
        /\ length <$> batches_of data b
           = replicate (N / b) b ++ (if N mod b =? 0 then [] else [N mod b])
        /\ exists r s',
             VectorMigrator.migrate_kind_block k ids B start_time s = (Ok r, s')
             /\ MigrationResult.success r = true
             /\ MigrationResult.progress r = VectorMigrator.progress s'
             /\ MigrationProgress.processed_records (VectorMigrator.progress s')
                = (MigrationProgress.processed_records (VectorMigrator.progress s)
                   + Z.of_nat N)%Z)
  /\ (let E := scripted_env (fun _ _ => false) (analytics_store 23) in
      let s0 := fresh_migrator MigrationConfig.default in
      let block_run :=
        VectorMigrator.migrate_kind_block (env := E) VectorMigrator.Analytics None 10 0 s0 in
      let run := VectorMigrator.migrate_analytics_data (env := E) None (Some 10%Z) s0 in
      length <$> batches_of (sample_records 23) 10 = [10; 10; 3]
      /\ is_ok block_run.1 = true
      /\ MigrationProgress.processed_records (VectorMigrator.progress block_run.2) = 23%Z
      /\ run.1 = Ok (MigrationResult.mk false MigrationProgress.fresh 1
                       (MigrationMetadata.Error "name 'time' is not defined"))
      /\ MigrationProgress.processed_records (VectorMigrator.progress run.2) = 0%Z
      /\ EmbeddingGenerator.trace (VectorMigrator.embedding_generator run.2) = []).
Proof.
  split; [|split].
  - intros World env k ids batch_size s. apply migrate_kind_data_name_error.
  - intros World env k ids B start_time s data HB Hdata Hfind N b.
    assert (0 < b) as Hb by (unfold b; lia).
    split.
    { unfold py_range.
      destruct (Z.eqb_spec B 0) as [->|_]; [lia|].
      by destruct (Z.ltb_spec B 0) as [?|_]; [lia|]. }
    split.
    { unfold batches_of. by rewrite length_fmap, range_step_length. }
    split; [by apply ceil_div|].
    split; [by apply batches_of_concat|].
    split; [rewrite batches_of_sizes; by apply batch_sizes_shape|].
    by apply migrate_kind_block_processes_all.
  - vm_compute. repeat split; reflexivity.
Qed.

(** The block of C7 at 23 analytics records and batch size 10. *)
Lemma migrate_kind_data_never_reaches_batches_witness :
  let E := scripted_env (fun _ _ => false) (analytics_store 23) in
  let s0 := fresh_migrator MigrationConfig.default in
  length <$> batches_of (sample_records 23) 10 = [10; 10; 3]
  /\ exists r s',
       VectorMigrator.migrate_kind_block (env := E) VectorMigrator.Analytics None 10 0 s0
       = (Ok r, s')
       /\ MigrationProgress.processed_records (VectorMigrator.progress s') = 23%Z.
Proof.
  intros E s0.
  destruct migrate_kind_data_never_reaches_batches as (_ & Hblock & _).
  destruct (Hblock nat E VectorMigrator.Analytics None 10%Z 0%float s0 (sample_records 23))
    as (_ & _ & _ & _ & Hsizes & r & s' & Hrun & _ & _ & Hp).
  - lia.
  - vm_compute. discriminate.
  - reflexivity.
  - split; [exact Hsizes|]. exists r, s'. split; [exact Hrun|]. exact Hp.
Defined.

(** C3 fails on the code, twice over.  (1) Every call of
    [migrate_all_data], whatever the other coroutines would do during it,
    returns a result with [success=False] and the error "name 'time' is not
    defined": [LogContext.__enter__] raises before the loop over the sources
    starts, so no pause is seen and no checkpoint is written; the files are
    as before the call.  (2) The block under the [with], had it been
    entered, does not keep the checkpoint either: whenever it returns, the
    checkpoint file is absent, because the [break] of a paused run leads to
    [_finalize_migration], which removes it.  (3) With the sources analytics
    and sessions and a pause requested during the first: the loop stops
    before sessions with a checkpoint file on disk (which is not a JSON
    document: the dump stopped at the first [Enum] of the configuration),
    the block then returns [success=True] with no checkpoint file left, and
    [migrate_all_data] itself returns the failure with no file written. *)
Theorem migrate_all_data_pause_keeps_no_checkpoint :
  (forall (World : Type) (env : Env World)
          (others : nat -> M (VectorMigrator.State World) unit)
          (site_ids team_ids : option (list string)) (start_date end_date : option datetime)
          (s : VectorMigrator.State World),
     exists t s',
       VectorMigrator.migrate_all_data others site_ids team_ids start_date end_date s
       = (Ok (MigrationResult.mk false (VectorMigrator.progress s') t
                (MigrationMetadata.Error "name 'time' is not defined")), s')
       /\ VectorMigrator.files s' = VectorMigrator.files s
       /\ VectorMigrator.should_pause s' = VectorMigrator.should_pause s
       /\ MigrationProgress.current_source (VectorMigrator.progress s')
          = MigrationProgress.current_source (VectorMigrator.progress s))
  /\ (forall (World : Type) (env : Env World)
             (others : nat -> M (VectorMigrator.State World) unit)
             (site_ids team_ids : option (list string))
             (start_date end_date : option datetime) (start_time : float)
             (s : VectorMigrator.State World),
        let run :=
          VectorMigrator.migrate_all_block others site_ids team_ids start_date end_date
            start_time s in
        is_ok run.1 = true ->
        VectorMigrator.files run.2 !! VectorMigrator.checkpoint_file run.2 = None)
  /\ (let E := scripted_env (fun _ _ => false) (analytics_store 23) in
      let s0 := fresh_migrator two_source_config in
      let loop_run :=
        (VectorMigrator._load_checkpoint;;;
         VectorMigrator._calculate_total_records (env := E) None None None None;;;
         VectorMigrator.source_loop (env := E)
           [DataSource.ANALYTICS; DataSource.SESSIONS] 0 (pause_at (env := E) 1)
           None None None None) s0 in
      let block_run :=
        VectorMigrator.migrate_all_block (env := E) (pause_at (env := E) 1)
          None None None None 0 s0 in
      let run :=
        VectorMigrator.migrate_all_data (env := E) (pause_at (env := E) 1)
          None None None None s0 in
      loop_run.1 = Ok tt
      /\ VectorMigrator.should_pause loop_run.2 = true
      /\ MigrationProgress.current_source (VectorMigrator.progress loop_run.2)
         = Some "analytics"
      /\ (Json.load <$> VectorMigrator.files loop_run.2 !! "migration_checkpoint.json")
         = Some (Raise (JSONDecodeError "Expecting value"))
      /\ MigrationResult.success <$> (match block_run.1 with Ok r => Some r | _ => None end)
         = Some true
      /\ VectorMigrator.should_pause block_run.2 = true
      /\ VectorMigrator.files block_run.2 !! "migration_checkpoint.json" = None
      /\ MigrationResult.success <$> (match run.1 with Ok r => Some r | _ => None end)
         = Some false
      /\ VectorMigrator.files run.2 !! "migration_checkpoint.json" = None).
Proof.
  split; [|split].
  - intros World env others site_ids team_ids start_date end_date s.
    destruct (migrate_all_data_name_error others site_ids team_ids start_date end_date s)
      as (t & s' & Hrun & Hf & _ & Hsp & _ & Hc & _).
    by exists t, s'.
  - intros World env others site_ids team_ids start_date end_date start_time s run Hok.
    destruct run as [[r|e] s'] eqn:Hrun; [|done].
    by eapply migrate_all_block_removes_checkpoint.
  - vm_compute. repeat split; reflexivity.
Qed.

(** The block of C3 at the paused run over two sources. *)
Lemma migrate_all_data_pause_keeps_no_checkpoint_witness :
  let E := scripted_env (fun _ _ => false) (analytics_store 23) in
  let run :=
    VectorMigrator.migrate_all_block (env := E) (pause_at (env := E) 1)
      None None None None 0 (fresh_migrator two_source_config) in
  is_ok run.1 = true
  /\ VectorMigrator.should_pause run.2 = true
  /\ VectorMigrator.files run.2 !! VectorMigrator.checkpoint_file run.2 = None.
Proof.
  intros E run.
  split; [vm_compute; reflexivity|]. split; [vm_compute; reflexivity|].
  destruct migrate_all_data_pause_keeps_no_checkpoint as (_ & Hblock & _).
  apply (Hblock nat E (pause_at (env := E) 1) None None None None 0%float
           (fresh_migrator two_source_config)).
  vm_compute. reflexivity.
Defined.

(* ===================================================================== *)
(** ** Further properties of the embedding generator                       *)
(* ===================================================================== *)

Section GeneratorMore.
Import EmbeddingGenerator.
Context {World : Type} {env : Env World}.

Lemma tick_fields (s : State World) :
  cache (tick s) = cache s /\ batch_size (tick s) = batch_size s
  /\ trace (tick s) = trace s.
Proof. done. Qed.

(** A call of [generate_batch_embeddings], step by step. *)
Lemma generate_batch_embeddings_run texts model requested context use_cache max_workers
    schedule (s : State World) :
  generate_batch_embeddings texts model requested context use_cache max_workers schedule s
  = match generate_batch_embeddings__wrapped texts model requested context use_cache
            max_workers schedule (tick s) with
    | (Ok r, s') => (Ok r, tick s')
    | (Raise e, s') => (Raise e, s')
    end.
Proof. unfold generate_batch_embeddings. apply log_async_performance_run. Qed.

(** The loop over the batches, when the pool cannot be created. *)
Lemma process_batches_no_workers start starts texts model b context use_cache max_workers
    schedule acc (s : State World) :
  (max_workers <= 0)%Z ->
  process_batches (start :: starts) texts model b context use_cache max_workers schedule
    acc s
  = (Raise (ValueError "max_workers must be greater than 0"), s).
Proof.
  intros Hw. cbn [process_batches]. unfold bind at 1. unfold _process_batch, bind.
  destruct (Z.leb_spec max_workers 0) as [_|?]; [done|lia].
Qed.

Lemma range_step_cons (n b : nat) :
  0 < n -> 0 < b -> exists starts, range_step n b = 0 :: starts.
Proof.
  intros Hn Hb. unfold range_step.
  destruct ((n + b - 1) / b) as [|m] eqn:Hm.
  - apply Nat.div_small_iff in Hm; lia.
  - cbn. eauto.
Qed.

(** What a result with a list of embeddings tells about the run. *)
Lemma generate_batch_embeddings_inv texts model requested context use_cache max_workers
    schedule (s s' : State World) r es :
  generate_batch_embeddings texts model requested context use_cache max_workers schedule s
  = (Ok r, s') ->
  BatchEmbeddingResult.embeddings r = Some es ->
  let b := effective_batch_size requested (batch_size s) in
  exists starts acc s2 avg t,
    texts <> []
    /\ py_range (length texts) b = Ok starts
    /\ process_batches starts texts model (Z.to_nat b) context use_cache max_workers
         schedule (collected [] [] [] []) (tick (tick s)) = (Ok acc, s2)
    /\ r = BatchEmbeddingResult.mk
             (Nat.ltb 0 (length (filter (fun e => is_Some e) (c_embeddings acc))))
             (Some (c_embeddings acc)) (Some (c_failed_indices acc)) (length texts)
             (Some t) (Some (c_quality_scores acc))
             (Some (BatchMetadata.mk
                      (length (filter (fun e => is_Some e) (c_embeddings acc)))
                      (length (c_failed_indices acc)) avg
                      (EmbeddingModel.value model) b))
             (Some (c_errors acc)).
Proof.
  intros Hrun Hes b. rewrite generate_batch_embeddings_run in Hrun.
  unfold generate_batch_embeddings__wrapped, bind at 1 in Hrun.
  rewrite ask_time_time in Hrun.
  lazymatch type of Hrun with
  | context [try_except ?body ?h ?st] =>
      destruct (body st) as [[r0|e] s1] eqn:Hbody; unfold try_except in Hrun;
      rewrite Hbody in Hrun
  end.
  2:{ unfold bind in Hrun. rewrite ask_time_time in Hrun.
      injection Hrun as <- _. discriminate Hes. }
  injection Hrun as -> _.
  destruct texts as [|t0 texts].
  { injection Hbody as <- _. discriminate Hes. }
  revert Hbody. unfold bind, gets, lift_outcome.
  change (batch_size (tick (tick s))) with (batch_size s).
  fold (effective_batch_size requested (batch_size s)). fold b.
  destruct (py_range _ b) as [starts|e0] eqn:Hrange; [|discriminate].
  destruct (process_batches _ _ _ _ _ _ _ _ _ _) as [[acc|e1] s2] eqn:Hloop;
    [|discriminate].
  lazymatch goal with
  | |- (let (_, _) := ?x in _) = _ -> _ => destruct x as [[avg|e2] s3]; [|discriminate]
  end.
  rewrite ask_time_time. unfold ret. intros [= <- _].
  eexists starts, acc, s2, avg, _. split; [done|]. split; [done|].
  split; [exact Hloop|]. reflexivity.
Qed.

(** [generate_batch_embeddings] never raises, whatever it is given: its
    result either carries the list of embeddings, or is a failure with one
    error message (an exception of the body of its [try] becomes
    [BatchEmbeddingResult(success=False, errors=[str(e)], processing_time=...)]).
    With no texts it returns [success=False] and [errors=["No texts provided"]]
    and has read the clock three times and done nothing else. *)
Theorem generate_batch_embeddings_never_raises :
  forall texts model requested context use_cache max_workers schedule (s : State World),
    (exists r s',
       generate_batch_embeddings texts model requested context use_cache max_workers
         schedule s = (Ok r, s')
       /\ (is_Some (BatchEmbeddingResult.embeddings r)
           \/ BatchEmbeddingResult.success r = false
              /\ exists msg, BatchEmbeddingResult.errors r = Some [Some msg]))
    /\ generate_batch_embeddings [] model requested context use_cache max_workers
         schedule s
       = (Ok (BatchEmbeddingResult.mk false None None 0 None None None
                (Some [Some "No texts provided"])),
          tick (tick (tick s))).
Proof.
  intros texts model requested context use_cache max_workers schedule s. split.
  - rewrite generate_batch_embeddings_run.
    unfold generate_batch_embeddings__wrapped, bind at 1.
    rewrite ask_time_time.
    lazymatch goal with
    | |- context [try_except ?b ?h ?st] =>
        destruct (b st) as [[r|e] s1] eqn:Hbody; unfold try_except; rewrite Hbody
    end.
    + exists r, (tick s1). split; [done|].
      destruct texts as [|t texts].
      { injection Hbody as <- _. right. split; [done|]. by eexists. }
      revert Hbody. unfold bind, gets, lift_outcome.
      destruct (py_range _ _) as [starts|e0]; [|discriminate].
      destruct (process_batches _ _ _ _ _ _ _ _ _ _) as [[acc|e1] s2]; [|discriminate].
      lazymatch goal with
      | |- (let (_, _) := ?x in _) = _ -> _ =>
          destruct x as [[avg|e2] s3]; [|discriminate]
      end.
      rewrite ask_time_time. unfold ret. intros [= <- _]. left. by eexists.
    + unfold bind. rewrite ask_time_time. eexists _, _. split; [done|].
      right. split; [done|]. by eexists.
  - rewrite generate_batch_embeddings_run.
    unfold generate_batch_embeddings__wrapped, bind, try_except.
    by rewrite ask_time_time.
Qed.

(** With [max_workers <= 0] the thread pool cannot be created:
    [ThreadPoolExecutor] raises in the first batch, and the call returns
    [success=False] with that message as its only error, nothing embedded,
    no provider or cache asked. *)
Theorem generate_batch_embeddings_no_workers :
  forall texts model requested context use_cache max_workers schedule (s : State World),
    texts <> [] ->
    (0 < effective_batch_size requested (batch_size s))%Z ->
    (max_workers <= 0)%Z ->
    exists t s',
      generate_batch_embeddings texts model requested context use_cache max_workers
        schedule s
      = (Ok (BatchEmbeddingResult.mk false None None 0 (Some t) None None
               (Some [Some "max_workers must be greater than 0"])), s')
      /\ trace s' = trace s
      /\ cache s' = cache s.
Proof.
  intros texts model requested context use_cache max_workers schedule s Ht Hb Hw.
  rewrite generate_batch_embeddings_run.
  unfold generate_batch_embeddings__wrapped, bind at 1, try_except.
  rewrite ask_time_time.
  destruct texts as [|t0 texts]; [done|].
  unfold bind at 1, gets. change (batch_size (tick (tick s))) with (batch_size s).
  fold (effective_batch_size requested (batch_size s)).
  set (b := effective_batch_size requested (batch_size s)) in *.
  unfold bind at 1, lift_outcome, py_range.
  destruct (Z.eqb_spec b 0) as [?|_]; [lia|].
  destruct (Z.ltb_spec b 0) as [?|_]; [lia|].
  destruct (range_step_cons (length (t0 :: texts)) (Z.to_nat b)) as [starts ->];
    [cbn; lia|lia|].
  unfold bind at 1. rewrite process_batches_no_workers by done.
  unfold bind. rewrite ask_time_time. by eexists _, _.
Qed.

(** With a negative batch size the range of batch starts is empty: no text
    is looked at, yet the call reports [total_processed = len(texts)] with
    empty lists of embeddings, failures and errors, and [success=False]. *)
Theorem generate_batch_embeddings_negative_batch_size :
  forall texts model requested context use_cache max_workers schedule (s : State World),
    texts <> [] ->
    (effective_batch_size requested (batch_size s) < 0)%Z ->
    exists t s',
      generate_batch_embeddings texts model requested context use_cache max_workers
        schedule s
      = (Ok (BatchEmbeddingResult.mk false (Some []) (Some []) (length texts) (Some t)
               (Some [])
               (Some (BatchMetadata.mk 0 0 0 (EmbeddingModel.value model)
                        (effective_batch_size requested (batch_size s))))
               (Some [])), s')
      /\ trace s' = trace s
      /\ cache s' = cache s.
Proof.
  intros texts model requested context use_cache max_workers schedule s Ht Hb.
  rewrite generate_batch_embeddings_run.
  unfold generate_batch_embeddings__wrapped, bind at 1, try_except.
  rewrite ask_time_time.
  destruct texts as [|t0 texts]; [done|].
  unfold bind at 1, gets. change (batch_size (tick (tick s))) with (batch_size s).
  fold (effective_batch_size requested (batch_size s)).
  set (b := effective_batch_size requested (batch_size s)) in *.
  unfold bind at 1, lift_outcome, py_range.
  destruct (Z.eqb_spec b 0) as [?|_]; [lia|].
  destruct (Z.ltb_spec b 0) as [_|?]; [|lia].
  cbn [process_batches]. unfold bind, ret. cbn [c_quality_scores]. cbv beta iota.
  rewrite ask_time_time. by eexists _, _.
Qed.
Lemma sum_list_with_as_fmap {A} (f : A -> nat) (l : list A) :
  sum_list_with f l = sum_list (f <$> l).
Proof. induction l as [|x l IH]; [done|]. cbn. by rewrite IH. Qed.

Lemma range_step_elem_lt (n b i : nat) : 0 < b -> i ∈ range_step n b -> i < n.
Proof.
  intros Hb. unfold range_step. intros (k & -> & Hk)%list_elem_of_fmap.
  apply elem_of_seq in Hk.
  pose proof (Nat.div_mod_eq (n + b - 1) b) as Hdiv.
  pose proof (Nat.mod_upper_bound (n + b - 1) b ltac:(lia)) as Hmod.
  nia.
Qed.

(** One turn of the inner loop appends one embedding and one score, and
    for a failed result one failed index and one error. *)
Lemma collect_result_shape i (acc : Collected) j r :
  let acc' := collect_result i acc (j, r) in
  length (c_embeddings acc') = S (length (c_embeddings acc))
  /\ length (c_quality_scores acc') = S (length (c_quality_scores acc))
  /\ length (c_failed_indices acc') + length (c_errors acc)
     = length (c_errors acc') + length (c_failed_indices acc)
  /\ forall n, i + j < n ->
               Forall (fun k => k < n) (c_failed_indices acc) ->
               Forall (fun k => k < n) (c_failed_indices acc').
Proof.
  unfold collect_result. destruct (EmbeddingResult.success r); cbn;
    rewrite ?length_app; cbn.
  - split; [lia|]. split; [lia|]. split; [lia|]. done.
  - split; [lia|]. split; [lia|]. split; [lia|]. intros n Hn Hall.
    apply Forall_app. split; [done|]. by constructor.
Qed.

Lemma collect_results_shape i (rs : list EmbeddingResult.t) :
  forall (j : nat) (acc : Collected),
    let acc' := fold_left (collect_result i) (zip (seq j (length rs)) rs) acc in
    length (c_embeddings acc') = length (c_embeddings acc) + length rs
    /\ length (c_quality_scores acc') = length (c_quality_scores acc) + length rs
    /\ length (c_failed_indices acc') + length (c_errors acc)
       = length (c_errors acc') + length (c_failed_indices acc)
    /\ forall n, i + j + length rs <= n ->
                 Forall (fun k => k < n) (c_failed_indices acc) ->
                 Forall (fun k => k < n) (c_failed_indices acc').
Proof.
  induction rs as [|r rs IH]; intros j acc.
  { cbn. split; [lia|]. split; [lia|]. split; [lia|]. done. }
  cbn [length seq zip zip_with fold_left].
  destruct (collect_result_shape i acc j r) as (He1 & Hq1 & Hf1 & Hn1).
  destruct (IH (S j) (collect_result i acc (j, r))) as (He & Hq & Hf & Hn).
  cbv zeta in *. rewrite He, Hq.
  split; [lia|]. split; [lia|]. split; [lia|].
  intros n Hle Hall. apply Hn; [lia|]. apply Hn1; [lia|done].
Qed.

Lemma process_batch_length texts model context use_cache max_workers order
    (s s' : State World) rs :
  _process_batch texts model context use_cache max_workers order s = (Ok rs, s') ->
  length rs = length order.
Proof.
  unfold _process_batch, bind.
  destruct (if Z.leb max_workers 0 then _ else _) as [[[]|e] s0]; [|done].
  destruct (submit_tasks _ _ _ _) as [futures [e|]].
  - unfold raise. by destruct (for_each _ _ s0) as [[[]|e'] s1].
  - apply map_m_length.
Qed.

(** The outer loop: what it adds to the accumulators. *)
Lemma process_batches_shape texts model b context use_cache max_workers schedule
    (starts : list nat) :
  forall (acc acc' : Collected) (s s' : State World),
    process_batches starts texts model b context use_cache max_workers schedule acc s
    = (Ok acc', s') ->
    length (c_embeddings acc')
    = length (c_embeddings acc) + sum_list_with (fun i => length (schedule i)) starts
    /\ length (c_quality_scores acc')
       = length (c_quality_scores acc)
         + sum_list_with (fun i => length (schedule i)) starts
    /\ length (c_failed_indices acc') + length (c_errors acc)
       = length (c_errors acc') + length (c_failed_indices acc)
    /\ forall n, Forall (fun i => i + length (schedule i) <= n) starts ->
                 Forall (fun k => k < n) (c_failed_indices acc) ->
                 Forall (fun k => k < n) (c_failed_indices acc').
Proof.
  induction starts as [|i starts IH]; intros acc acc' s s'.
  { intros [= <- _]. cbn. split; [lia|]. split; [lia|]. split; [lia|]. done. }
  cbn [process_batches]. unfold bind at 1.
  destruct (_process_batch _ _ _ _ _ _ s) as [[rs|e] s1] eqn:Hbatch; [|done].
  apply process_batch_length in Hbatch.
  intros Hrest. apply IH in Hrest as (He & Hq & Hf & Hn).
  destruct (collect_results_shape i rs 0 acc) as (He' & Hq' & Hf' & Hn').
  fold (collect_batch i acc rs) in He', Hq', Hf', Hn'.
  cbn [sum_list_with]. rewrite He, Hq, He', Hq', Hbatch.
  split; [lia|]. split; [lia|]. split; [lia|].
  intros n Hstarts Hall. apply Forall_cons in Hstarts as [Hi Hstarts].
  apply Hn; [done|]. apply Hn'; [lia|done].
Qed.

(** A batch result that carries a list of embeddings is well formed: as
    many scores as embeddings, as many errors as failed indices, the counts
    of the metadata are the lengths of the lists, and [success] says whether
    one embedding at least is there.  When the batch size is positive and
    every batch hands back as many results as it has texts, there is one
    embedding per text and every failed index is a position of [texts]. *)
Theorem generate_batch_embeddings_shape :
  forall texts model requested context use_cache max_workers schedule
         (s s' : State World) r es,
    generate_batch_embeddings texts model requested context use_cache max_workers
      schedule s = (Ok r, s') ->
    BatchEmbeddingResult.embeddings r = Some es ->
    let b := effective_batch_size requested (batch_size s) in
    exists qs fi er md,
      BatchEmbeddingResult.quality_scores r = Some qs
      /\ BatchEmbeddingResult.failed_indices r = Some fi
      /\ BatchEmbeddingResult.errors r = Some er
      /\ BatchEmbeddingResult.metadata r = Some md
      /\ length qs = length es
      /\ length er = length fi
      /\ BatchMetadata.failed_count md = length fi
      /\ BatchMetadata.successful_count md = length (filter (fun e => is_Some e) es)
      /\ BatchEmbeddingResult.success r
         = Nat.ltb 0 (BatchMetadata.successful_count md)
      /\ BatchEmbeddingResult.total_processed r = length texts
      /\ ((0 < b)%Z ->
          (forall i, i ∈ range_step (length texts) (Z.to_nat b) ->
                     length (schedule i)
                     = length (slice texts i (i + Z.to_nat b))) ->
          length es = length texts
          /\ Forall (fun k => k < length texts) fi).
Proof.
  intros texts model requested context use_cache max_workers schedule s s' r es
    Hrun Hes b.
  destruct (generate_batch_embeddings_inv _ _ _ _ _ _ _ _ _ _ _ Hrun Hes)
    as (starts & acc & s2 & avg & t & Ht & Hrange & Hloop & ->).
  fold b in Hrange, Hloop. injection Hes as <-.
  apply process_batches_shape in Hloop as (He & Hq & Hf & Hn). cbn in He, Hq, Hf.
  eexists _, _, _, _. do 4 (split; [reflexivity|]).
  cbn [BatchMetadata.failed_count BatchMetadata.successful_count
       BatchEmbeddingResult.success BatchEmbeddingResult.total_processed].
  split; [lia|]. split; [lia|]. split; [done|]. split; [done|]. split; [done|].
  split; [done|]. intros Hb Hsched. split.
  - rewrite He. unfold py_range in Hrange.
    destruct (Z.eqb_spec b 0) as [?|_]; [lia|].
    destruct (Z.ltb_spec b 0) as [?|_]; [lia|]. injection Hrange as <-.
    rewrite sum_list_with_as_fmap.
    rewrite <- (batch_sizes_sum (length texts) (Z.to_nat b)) at 2 by lia.
    unfold batch_sizes. f_equal. apply list_fmap_ext. intros k i Hi.
    rewrite Hsched by (by eapply list_elem_of_lookup_2). apply slice_length.
  - apply Hn; [|constructor]. unfold py_range in Hrange.
    destruct (Z.eqb_spec b 0) as [?|_]; [lia|].
    destruct (Z.ltb_spec b 0) as [?|_]; [lia|]. injection Hrange as <-.
    apply Forall_forall. intros i Hi. rewrite (Hsched i Hi), slice_length.
    apply range_step_elem_lt in Hi; lia.
Qed.
Lemma provider_embedding_run model text (s : State World) :
  exists o s',
    _generate_provider_embedding model text s = (o, s')
    /\ cache s' = cache s
    /\ batch_size s' = batch_size s
    /\ trace s' = trace s ++ [ProviderCall model text].
Proof.
  unfold _generate_provider_embedding, bind, log_event, modify, try_except, call, raise.
  cbn. destruct (provider_embed _ _ _) as [[v|e] w]; by eexists _, _.
Qed.

(** The provider step of [generate_embedding]: one provider call for the
    four models with a provider, none for [LOCAL], which is refused. *)
Lemma embedding_step_run model text (s : State World) :
  let step :=
    match model with
    | EmbeddingModel.GEMINI => _generate_gemini_embedding text
    | EmbeddingModel.OPENAI => _generate_openai_embedding text
    | EmbeddingModel.SENTENCE_TRANSFORMER => _generate_sentence_transformer_embedding text
    | EmbeddingModel.HUGGINGFACE => _generate_huggingface_embedding text
    | EmbeddingModel.LOCAL =>
        raise (ValueError ("Unsupported model: " +:+ EmbeddingModel.repr model))
    end in
  exists o s',
    step s = (o, s')
    /\ cache s' = cache s
    /\ batch_size s' = batch_size s
    /\ trace s'
       = trace s ++ provider_calls model text
    /\ (model = EmbeddingModel.LOCAL ->
        o = Raise (ValueError "Unsupported model: EmbeddingModel.LOCAL")).
Proof.
  destruct model; cbn zeta.
  1-4: lazymatch goal with
       | |- context [provider_calls ?m _] =>
           destruct (provider_embedding_run m text s) as (o & s' & Hrun & Hc & Hb & Ht);
           exists o, s'; split; [exact Hrun|]; split; [done|]; split; [done|];
           split; [done|]; discriminate
       end.
  eexists _, _. split; [reflexivity|]. split; [done|]. split; [done|].
  split; [by rewrite app_nil_r|done].
Qed.

(** A call with [use_cache=False] leaves the memory cache as it is and asks
    the store nothing; it calls the provider exactly once (not at all for
    [LOCAL]), with the preprocessed text.  What the provider returns is
    what the caller gets: a vector [v] comes back in a successful result,
    with [len(v)] as [dimensions], the score of [validate_embedding] for
    [v], the elapsed time and no error; an exception [e] comes back as the
    failed result with [str(e)].  For [LOCAL] the result is the failure
    "Unsupported model: EmbeddingModel.LOCAL". *)
Theorem generate_embedding_uncached :
  forall text model context (s : State World),
    let processed_text := _preprocess_text text context in
    (exists r s',
       generate_embedding text model context false s = (Ok r, s')
       /\ cache s' = cache s
       /\ batch_size s' = batch_size s
       /\ trace s' = trace s ++ provider_calls model processed_text)
    /\ (forall v w',
          model <> EmbeddingModel.LOCAL ->
          provider_embed model processed_text (world (tick (tick s))) = (Ok v, w') ->
          let s1 := after_calls (tick (tick s)) [ProviderCall model processed_text] w' in
          generate_embedding text model context false s
          = (Ok (EmbeddingResult.mk true (Some v) (Some (EmbeddingModel.value model))
                   (Some (length v))
                   (Some (EmbeddingQualityValidator.validate_embedding v text model))
                   (Some (clock_of s1 - clock_of (tick s))%float)
                   (Some (Metadata.Generated (String.length text)
                            (String.length processed_text) context))
                   None),
             tick (tick s1)))
    /\ (forall e w',
          model <> EmbeddingModel.LOCAL ->
          provider_embed model processed_text (world (tick (tick s))) = (Raise e, w') ->
          let s1 := after_calls (tick (tick s)) [ProviderCall model processed_text] w' in
          generate_embedding text model context false s
          = (Ok (EmbeddingResult.failed (str e)
                   (Some (clock_of s1 - clock_of (tick s))%float)),
             tick (tick s1)))
    /\ generate_embedding text EmbeddingModel.LOCAL context false s
       = (Ok (EmbeddingResult.failed "Unsupported model: EmbeddingModel.LOCAL"
                (Some (clock_of (tick (tick s)) - clock_of (tick s))%float)),
          tick (tick (tick (tick s)))).
Proof.
  intros text model context s processed_text. subst processed_text.
  split; [|split; [|split]].
  - rewrite generate_embedding_run.
    unfold generate_embedding_try, bind at 1, ret at 1. unfold bind at 1.
    destruct (embedding_step_run model (_preprocess_text text context) (tick (tick s)))
      as (o & s1 & -> & Hc & Hb & Ht & _).
    destruct o as [v|e].
    + unfold bind. rewrite ask_time_time. unfold ret. by eexists _, _.
    + by eexists _, _.
  - intros v w' Hm Hp s1. rewrite generate_embedding_run.
    unfold generate_embedding_try, bind at 1, ret at 1. unfold bind at 1.
    rewrite (provider_step_run model _ (tick (tick s)) (Ok v) w' Hm Hp).
    fold s1.
    unfold bind. rewrite ask_time_time. reflexivity.
  - intros e w' Hm Hp s1. rewrite generate_embedding_run.
    unfold generate_embedding_try, bind at 1, ret at 1. unfold bind at 1.
    by rewrite (provider_step_run model _ (tick (tick s)) (Raise e) w' Hm Hp).
  - by rewrite generate_embedding_run.
Qed.

Lemma successful_result_generated v model q t md :
  successful_result
    (EmbeddingResult.mk true (Some v) (Some (EmbeddingModel.value model))
       (Some (length v)) (Some q) (Some t) (Some md) None).
Proof. split; [done|]. split; [done|]. by exists v. Qed.

Lemma cache_of_successes_tick (s : State World) :
  cache_of_successes s -> cache_of_successes (tick s).
Proof. done. Qed.

Lemma get_cached_embedding_keeps text model (s s' : State World) o :
  cache_of_successes s ->
  _get_cached_embedding text model s = (o, s') ->
  cache_of_successes s'
  /\ forall r, o = Ok (Some r) -> successful_result r.
Proof.
  intros Hinv. unfold _get_cached_embedding, bind, gets.
  destruct (cache s !! _generate_cache_key text model) as [r0|] eqn:Hc.
  { unfold ret. intros [= <- <-]. split; [done|]. intros r [= <-].
    by eapply Hinv. }
  unfold log_event, modify, call, ret. cbn.
  destruct (db_find_one_cache _ _) as [[[doc|]|e] w]; cbn; intros [= <- <-].
  - split.
    + apply map_Forall_insert_2; [|done]. apply successful_result_generated.
    + intros r [= <-]. apply successful_result_generated.
  - split; [done|]. intros r. discriminate.
  - split; [done|]. intros r. discriminate.
Qed.

Lemma cache_embedding_keeps text model r (s s' : State World) o :
  cache_of_successes s ->
  successful_result r ->
  _cache_embedding text model r s = (o, s') ->
  cache_of_successes s'.
Proof.
  intros Hinv Hr.
  unfold _cache_embedding, bind, modify, try_except, log_event, call, ask, raise, ret.
  assert (map_Forall (fun _ r => successful_result r)
            (<[_generate_cache_key text model := r]> (cache s))) as Hins
    by (by apply map_Forall_insert_2).
  destruct (EmbeddingResult.embedding r); cbn.
  - destruct (time_time _) as [t w]. cbn.
    destruct (db_insert_cache _ _) as [[i|e] w']; cbn; by intros [= <- <-].
  - by intros [= <- <-].
Qed.

(** The memory cache holds successful results only, and every call keeps it
    so: a failed result is never stored, and a result that reports success,
    from the cache or fresh, carries a vector, its length and no error. *)
Theorem generate_embedding_keeps_cache_of_successes :
  forall text model context use_cache (s s' : State World) r,
    cache_of_successes s ->
    generate_embedding text model context use_cache s = (Ok r, s') ->
    cache_of_successes s'
    /\ (EmbeddingResult.success r = true -> successful_result r)
    /\ (EmbeddingResult.success r = false ->
        EmbeddingResult.embedding r = None /\ is_Some (EmbeddingResult.error r)).
Proof.
  intros text model context use_cache s s' r Hinv.
  rewrite generate_embedding_run.
  assert (Hinv2 : cache_of_successes (tick (tick s))) by done.
  revert Hinv2. generalize (tick (tick s)) as s0. intros s0 Hinv0.
  unfold generate_embedding_try, bind at 1.
  destruct ((if use_cache then _get_cached_embedding text model else ret None) s0)
    as [[cached|e] s1] eqn:Hget.
  2:{ intros [= <- <-]. split; [|split; [done|by eauto]].
      do 2 apply cache_of_successes_tick.
      destruct use_cache; [|by injection Hget as _ <-].
      by eapply get_cached_embedding_keeps. }
  assert (cache_of_successes s1
          /\ forall r0, cached = Some r0 -> successful_result r0) as [Hinv1 Hhit].
  { destruct use_cache.
    - destruct (get_cached_embedding_keeps _ _ _ _ _ Hinv0 Hget) as [H1 H2].
      split; [done|]. intros r0 ->. by apply H2.
    - injection Hget as <- <-. split; [done|]. discriminate. }
  destruct cached as [r0|].
  { unfold ret. intros [= <- <-]. specialize (Hhit r0 eq_refl).
    split; [by apply cache_of_successes_tick|]. split; [done|].
    intros Hf. destruct Hhit as [Hs _]. congruence. }
  unfold bind at 1.
  destruct (embedding_step_run model (_preprocess_text text context) s1)
    as (o & s2 & -> & Hc & _ & _ & _).
  assert (Hinv2 : cache_of_successes s2) by (unfold cache_of_successes; by rewrite Hc).
  destruct o as [v|e].
  2:{ intros [= <- <-]. split; [by do 2 apply cache_of_successes_tick|].
      split; [done|by eauto]. }
  unfold bind at 1. rewrite ask_time_time. unfold bind at 1.
  match goal with
  | |- context [EmbeddingResult.mk true (Some v) ?m ?d (Some ?q) (Some ?t) (Some ?md) None] =>
      pose proof (successful_result_generated v model q t md) as Hres
  end.
  destruct ((if use_cache then _ else ret tt) (tick s2)) as [[[]|e] s3] eqn:Hput.
  - unfold ret. intros [= <- <-]. split.
    + apply cache_of_successes_tick.
      destruct use_cache; [|by injection Hput as <-].
      eapply cache_embedding_keeps; [| |exact Hput]; done.
    + split; [done|]. intros Hf. discriminate Hf.
  - intros [= <- <-]. split.
    + do 2 apply cache_of_successes_tick.
      destruct use_cache; [|by injection Hput as _ <-].
      eapply cache_embedding_keeps; [| |exact Hput]; done.
    + split; [done|]. by eauto.
Qed.
End GeneratorMore.

Section GeneratorMoreRuns.
Import EmbeddingGenerator.

Lemma generate_batch_embeddings_no_workers_witness :
  let E := scripted_env (fun _ _ => false) (fun _ => []) in
  exists t s',
    generate_batch_embeddings (env := E) ["alpha"; "beta"] EmbeddingModel.GEMINI
      (Some 2%Z) None false 0 (fun _ => [0; 1]) fresh_generator
    = (Ok (BatchEmbeddingResult.mk false None None 0 (Some t) None None
             (Some [Some "max_workers must be greater than 0"])), s')
    /\ trace s' = [].
Proof.
  intros E.
  destruct (generate_batch_embeddings_no_workers (env := E) ["alpha"; "beta"]
              EmbeddingModel.GEMINI (Some 2%Z) None false 0%Z (fun _ => [0; 1])
              fresh_generator) as (t & s' & Hrun & Ht & _);
    [discriminate | reflexivity | lia |].
  exists t, s'. split; [exact Hrun | exact Ht].
Defined.

Lemma generate_batch_embeddings_negative_batch_size_witness :
  let E := scripted_env (fun _ _ => false) (fun _ => []) in
  exists t s',
    generate_batch_embeddings (env := E) ["alpha"; "beta"] EmbeddingModel.GEMINI
      (Some (-1)%Z) None false 4 (fun _ => [0; 1]) fresh_generator
    = (Ok (BatchEmbeddingResult.mk false (Some []) (Some []) 2 (Some t) (Some [])
             (Some (BatchMetadata.mk 0 0 0 "gemini" (-1))) (Some [])), s')
    /\ trace s' = [].
Proof.
  intros E.
  destruct (generate_batch_embeddings_negative_batch_size (env := E) ["alpha"; "beta"]
              EmbeddingModel.GEMINI (Some (-1)%Z) None false 4%Z (fun _ => [0; 1])
              fresh_generator) as (t & s' & Hrun & Ht & _);
    [discriminate | reflexivity |].
  exists t, s'. split; [exact Hrun | exact Ht].
Defined.

(** Two texts, each with its own context, in one batch whose second task
    finishes first; the provider fails on the first text. *)
Lemma generate_batch_embeddings_shape_witness :
  let E := scripted_env (fun _ t => ends_with "alpha" t) (fun _ => []) in
  let c0 := Context.mk (Some "analytics") None None None None None in
  let c1 := Context.mk (Some "session") None None None None None in
  let run :=
    generate_batch_embeddings (env := E) ["alpha"; "beta"] EmbeddingModel.GEMINI
      (Some 2%Z) (Some [c0; c1]) false 4 (fun _ => [1; 0]) fresh_generator in
  exists r es fi,
    run.1 = Ok r
    /\ BatchEmbeddingResult.embeddings r = Some es
    /\ BatchEmbeddingResult.failed_indices r = Some fi
    /\ length es = 2
    /\ Forall (fun k => k < 2) fi
    /\ length fi = 1
    /\ trace run.2
       = [ProviderCall EmbeddingModel.GEMINI (_preprocess_text "beta" (Some c1));
          ProviderCall EmbeddingModel.GEMINI (_preprocess_text "alpha" (Some c0))].
Proof.
  intros E c0 c1 run.
  destruct run as [[r|e] s'] eqn:Hrun; [|vm_compute in Hrun; discriminate Hrun].
  assert (exists es, BatchEmbeddingResult.embeddings r = Some es) as [es Hes].
  { pose proof Hrun as Hrun'. vm_compute in Hrun'. injection Hrun' as <- _. by eexists. }
  destruct (generate_batch_embeddings_shape (env := E) _ _ _ _ _ _ _ _ _ _ _ Hrun Hes)
    as (qs & fi & er & md & _ & Hfi & _ & _ & _ & _ & _ & _ & _ & _ & Hfull).
  destruct Hfull as [Hlen Hidx]; [reflexivity| |].
  { intros i Hi. vm_compute in Hi. apply list_elem_of_singleton in Hi as ->. reflexivity. }
  exists r, es, fi. split; [done|]. split; [done|]. split; [done|].
  split; [exact Hlen|]. split; [exact Hidx|].
  pose proof Hrun as Hrun'. vm_compute in Hrun'. injection Hrun' as <- <-.
  injection Hfi as <-. split; reflexivity.
Defined.

(** An uncached call at a provider that answers, and at one that fails. *)
Lemma generate_embedding_uncached_witness :
  generate_embedding (env := scripted_env (fun _ _ => false) (fun _ => []))
    "alpha" EmbeddingModel.GEMINI None false fresh_generator
  = (Ok (EmbeddingResult.mk true (Some [5; 1]%float) (Some "gemini") (Some 2)
           (Some 0.55%float) (Some 1%float) (Some (Metadata.Generated 5 5 None)) None),
     EmbeddingGenerator.mk ∅ 100 [ProviderCall EmbeddingModel.GEMINI "alpha"] 4)
  /\ generate_embedding (env := scripted_env (fun _ _ => true) (fun _ => []))
       "alpha" EmbeddingModel.GEMINI None false fresh_generator
     = (Ok (EmbeddingResult.failed "API Error" (Some 1%float)),
        EmbeddingGenerator.mk ∅ 100 [ProviderCall EmbeddingModel.GEMINI "alpha"] 4).
Proof.
  destruct (generate_embedding_uncached
              (env := scripted_env (fun _ _ => false) (fun _ => []))
              "alpha" EmbeddingModel.GEMINI None fresh_generator) as (_ & Hok & _).
  destruct (generate_embedding_uncached
              (env := scripted_env (fun _ _ => true) (fun _ => []))
              "alpha" EmbeddingModel.GEMINI None fresh_generator) as (_ & _ & Hfail & _).
  split.
  - etransitivity;
      [apply (Hok [5; 1]%float 2); [discriminate | reflexivity]
      |vm_compute; reflexivity].
  - etransitivity;
      [apply (Hfail (Exn "Exception" "API Error") 2); [discriminate | reflexivity]
      |vm_compute; reflexivity].
Defined.

Lemma generate_embedding_keeps_cache_of_successes_witness :
  let E := scripted_env (fun _ _ => false) (fun _ => []) in
  let run :=
    generate_embedding (env := E) "alpha" EmbeddingModel.GEMINI None true
      fresh_generator in
  cache_of_successes run.2
  /\ is_Some (cache run.2 !! "alpha:gemini").
Proof.
  intros E run. split; [|vm_compute; by eexists].
  destruct run as [[r|e] s'] eqn:Hrun; [|vm_compute in Hrun; discriminate Hrun].
  apply (generate_embedding_keeps_cache_of_successes (env := E) "alpha"
           EmbeddingModel.GEMINI None true fresh_generator s' r);
    [apply map_Forall_empty | exact Hrun].
Defined.

End GeneratorMoreRuns.

(* ===================================================================== *)
(** ** Properties of the contexts of a batch                               *)
(* ===================================================================== *)

Section BatchContexts.
Import EmbeddingGenerator.
Context {World : Type} {env : Env World}.




Lemma text_context_at_lookup (cs : list Context.t) (i : nat) c :
  cs !! i = Some c -> text_context_at (Some cs) i = Ok (Some c).
Proof. intros Hc. destruct cs as [|c0 cs]; [done|]. cbn. by rewrite Hc. Qed.

Lemma text_context_at_missing (cs : list Context.t) (i : nat) :
  cs <> [] -> cs !! i = None ->
  text_context_at (Some cs) i = Raise (Exn "IndexError" "list index out of range").
Proof. intros Hne Hc. destruct cs as [|c0 cs]; [done|]. cbn. by rewrite Hc. Qed.


(** The submitting loop when the contexts run out before the texts: the
    texts that have a context become tasks, and the loop stops with
    [IndexError]. *)
Lemma submit_tasks_short model use_cache (texts : list string) :
  forall (j : nat) (cs : list Context.t),
    cs <> [] ->
    length (drop j cs) < length texts ->
    submit_tasks (zip (seq j (length texts)) texts) model (Some cs) use_cache
    = (zip_with (fun text c => generate_embedding text model (Some c) use_cache)
         texts (drop j cs),
       Some (Exn "IndexError" "list index out of range")).
Proof.
  induction texts as [|text texts IH]; intros j cs Hne Hlen; [cbn in Hlen; lia|].
  cbn [length seq zip zip_with submit_tasks].
  destruct (drop j cs) as [|c rest] eqn:Hdrop.
  - assert (Hj : cs !! j = None).
    { apply lookup_ge_None. apply (f_equal length) in Hdrop.
      rewrite length_drop in Hdrop. cbn in Hdrop.
      destruct (decide (length cs <= j)); [done|].
      (* drop j cs = [] gives length cs - j = 0 *) lia. }
    by rewrite (text_context_at_missing cs j Hne Hj).
  - assert (Hj : cs !! j = Some c).
    { rewrite <- (Nat.add_0_r j), <- lookup_drop, Hdrop. done. }
    assert (Hrest : drop (S j) cs = rest).
    { replace (S j) with (j + 1) by lia. rewrite <- drop_drop, Hdrop. done. }
    rewrite (text_context_at_lookup cs j c Hj).
    change (zip_with pair (seq (S j) (length texts)) texts)
      with (zip (seq (S j) (length texts)) texts).
    rewrite (IH (S j) cs Hne) by (rewrite Hrest; cbn in Hlen; lia).
    by rewrite Hrest.
Qed.

(** Waiting for tasks whose results nobody reads never raises. *)
Lemma wait_for_tasks_total (futures : list (M (State World) EmbeddingResult.t))
    (order : list nat) :
  total (for_each order
           (fun i =>
              match futures !! i with
              | Some future => try_except (_ <- future;; ret tt) (fun _ => ret tt)
              | None => ret tt
              end)).
Proof.
  induction order as [|i order IH]; intros s; [by eexists _, _|].
  cbn [for_each]. unfold bind at 1.
  destruct (futures !! i) as [future|].
  - destruct (try_except (_ <- future;; ret tt) (fun _ => ret tt) s)
      as [[[]|e] s1] eqn:Hstep; [apply IH|].
    unfold try_except, bind, ret in Hstep.
    by destruct (future s) as [[r|e'] s'].
  - unfold ret. apply IH.
Qed.

(** [_process_batch] when the contexts run out before the texts. *)
Lemma process_batch_short_context texts contexts model use_cache max_workers order
    (s : State World) :
  (0 < max_workers)%Z ->
  contexts <> [] ->
  length contexts < length texts ->
  exists s',
    _process_batch texts model (Some contexts) use_cache max_workers order s
    = (Raise (Exn "IndexError" "list index out of range"), s').
Proof.
  intros Hw Hne Hlen. unfold _process_batch, bind at 1.
  destruct (Z.leb_spec max_workers 0) as [?|_]; [lia|]. unfold ret at 1.
  rewrite (submit_tasks_short model use_cache texts 0 contexts)
    by (rewrite ?drop_0; done).
  cbv beta iota. unfold bind at 1.
  lazymatch goal with
  | |- context [for_each ?o ?f ?st] =>
      destruct (wait_for_tasks_total
                  (zip_with (fun text c => generate_embedding text model (Some c) use_cache)
                     texts (drop 0 contexts)) o st) as ([] & s1 & Hwait)
  end.
  rewrite Hwait. by eexists.
Qed.


(** A list of contexts that is not empty and shorter than the list of texts
    of a single batch fails the whole call: [context[i]] raises
    [IndexError] for the first text without a context, and the caller gets
    [success=False] with the one error "list index out of range" and no
    embedding, not even for the texts that had a context. *)
Theorem generate_batch_embeddings_short_context :
  forall texts contexts model requested use_cache max_workers schedule (s : State World),
    contexts <> [] ->
    length contexts < length texts ->
    (Z.of_nat (length texts) <= effective_batch_size requested (batch_size s))%Z ->
    (0 < max_workers)%Z ->
    exists t s',
      generate_batch_embeddings texts model requested (Some contexts) use_cache
        max_workers schedule s
      = (Ok (BatchEmbeddingResult.mk false None None 0 (Some t) None None
               (Some [Some "list index out of range"])), s').
Proof.
  intros texts contexts model requested use_cache max_workers schedule s
    Hne Hlen Hb Hw.
  rewrite generate_batch_embeddings_run.
  unfold generate_batch_embeddings__wrapped, bind at 1, try_except.
  rewrite ask_time_time.
  destruct texts as [|t0 texts]; [cbn in Hlen; lia|].
  unfold bind at 1, gets. change (batch_size (tick (tick s))) with (batch_size s).
  fold (effective_batch_size requested (batch_size s)).
  set (b := effective_batch_size requested (batch_size s)) in *.
  set (n := length (t0 :: texts)) in *.
  assert (Hn : 0 < n) by (unfold n; cbn; lia).
  unfold bind at 1, lift_outcome, py_range.
  destruct (Z.eqb_spec b 0) as [?|_]; [lia|].
  destruct (Z.ltb_spec b 0) as [?|_]; [lia|].
  assert (Hrange : range_step n (Z.to_nat b) = [0]).
  { unfold range_step.
    replace ((n + Z.to_nat b - 1) / Z.to_nat b) with 1; [done|].
    apply (Nat.div_unique _ _ _ (n - 1)); lia. }
  rewrite Hrange. cbn [process_batches]. unfold bind at 1.
  destruct contexts as [|c0 contexts]; [done|].
  assert (Hslice_t : slice (t0 :: texts) 0 (0 + Z.to_nat b) = t0 :: texts).
  { unfold slice. rewrite drop_0. apply take_ge. fold n. lia. }
  assert (Hslice_c : slice (c0 :: contexts) 0 (0 + Z.to_nat b) = c0 :: contexts).
  { unfold slice. rewrite drop_0. apply take_ge. unfold n in *. cbn in *. lia. }
  rewrite Hslice_t, Hslice_c.
  unfold bind at 1.
  destruct (process_batch_short_context (t0 :: texts) (c0 :: contexts) model use_cache
              max_workers (schedule 0) (tick (tick s)) Hw Hne Hlen) as (s1 & ->).
  unfold bind. rewrite ask_time_time. unfold ret. by eexists _, _.
Qed.

End BatchContexts.
Section BatchContextsRuns.
Import EmbeddingGenerator.


(** Two texts and one context in one batch: the call fails as a whole,
    after the text that had a context has been sent to the provider. *)
Lemma generate_batch_embeddings_short_context_witness :
  let E := scripted_env (fun _ _ => false) (fun _ => []) in
  let c0 := Context.mk (Some "analytics") None None None None None in
  exists t s',
    generate_batch_embeddings (env := E) ["alpha"; "beta"] EmbeddingModel.GEMINI
      (Some 2%Z) (Some [c0]) false 4 (fun _ => [0; 1]) fresh_generator
    = (Ok (BatchEmbeddingResult.mk false None None 0 (Some t) None None
             (Some [Some "list index out of range"])), s')
    /\ trace s' = [ProviderCall EmbeddingModel.GEMINI (_preprocess_text "alpha" (Some c0))].
Proof.
  intros E c0.
  destruct (generate_batch_embeddings_short_context (env := E) ["alpha"; "beta"] [c0]
              EmbeddingModel.GEMINI (Some 2%Z) false 4%Z (fun _ => [0; 1])
              fresh_generator) as (t & s' & Hrun);
    [discriminate | cbn; lia | vm_compute; discriminate | lia |].
  exists t, s'. split; [exact Hrun|].
  pose proof Hrun as Hrun'. vm_compute in Hrun'. by injection Hrun' as _ <-.
Defined.

End BatchContextsRuns.

(* ===================================================================== *)
(** ** Properties of the text preprocessing                                *)
(* ===================================================================== *)

Section Preprocessing.
Import EmbeddingGenerator.

Lemma substring_length_le (n : nat) (s : string) :
  String.length (substring 0 n s) <= n.
Proof.
  revert s. induction n as [|n IH]; intros [|c s]; cbn; try lia.
  specialize (IH s). lia.
Qed.

(** Whatever the text and the context, the processed text that goes to a
    provider has at most 8000 characters. *)
Theorem preprocess_text_bounded :
  forall (text : string) (context : option Context.t),
    String.length (_preprocess_text text context) <= 8000.
Proof.
  intros text context. unfold _preprocess_text. cbv zeta.
  generalize 8000 at 1 2 3 as max_tokens. intros max_tokens.
  destruct (Nat.ltb_spec max_tokens
              (String.length
                 match context with
                 | Some c =>
                     if Context.truthy c
                     then _format_context c
                          +:+ String (ascii_of_nat 10) (String (ascii_of_nat 10) "")
                          +:+ Text.strip text
                     else Text.strip text
                 | None => Text.strip text
                 end)) as [Hlong|Hshort].
  - apply substring_length_le.
  - exact Hshort.
Qed.

(** A context dictionary that is not empty but has none of the four keys
    the formatter knows (or has them empty, or [importance] 0) formats to
    the empty string, and the processed text is then the stripped text
    behind two newlines. *)
Theorem preprocess_text_unrecognised_context :
  forall (text : string) (c : Context.t),
    Context.truthy c = true ->
    Text.nonempty (Context.data_type c) = false ->
    Text.nonempty (Context.source_type c) = false ->
    Text.nonempty (Context.timeframe c) = false ->
    (Context.importance c = None \/ Context.importance c = Some 0%Z) ->
    _format_context c = ""
    /\ (String.length (Text.strip text) + 2 <= 8000 ->
        _preprocess_text text (Some c)
        = String (ascii_of_nat 10) (String (ascii_of_nat 10) (Text.strip text))).
Proof.
  intros text c Ht Hd Hs Hf Hi.
  assert (Hfmt : _format_context c = "").
  { unfold _format_context. rewrite Hd, Hs, Hf. by destruct Hi as [-> | ->]. }
  split; [done|]. intros Hlen.
  unfold _preprocess_text. rewrite Ht, Hfmt. cbv zeta.
  change ("" +:+ String (ascii_of_nat 10) (String (ascii_of_nat 10) "")
          +:+ Text.strip text)
    with (String (ascii_of_nat 10) (String (ascii_of_nat 10) (Text.strip text))).
  destruct (Nat.ltb_spec 8000
              (String.length
                 (String (ascii_of_nat 10)
                    (String (ascii_of_nat 10) (Text.strip text))))) as [Hlong|_];
    [|done].
  cbn [String.length] in Hlong. lia.
Qed.

Lemma preprocess_text_unrecognised_context_witness :
  _preprocess_text "  visits " (Some (Context.mk None None None None (Some "site") None))
  = String (ascii_of_nat 10) (String (ascii_of_nat 10) "visits").
Proof.
  apply (preprocess_text_unrecognised_context "  visits "
           (Context.mk None None None None (Some "site") None));
    [reflexivity..| |].
  - by left.
  - vm_compute. lia.
Defined.

End Preprocessing.
(* ===================================================================== *)
(** ** Properties of the similarity measures                               *)
(* ===================================================================== *)

Section SimilarityMore.
Import EmbeddingGenerator.

(** Binary64 multiplication commutes, NaN and signed zeros included. *)
Lemma SFmul_comm prec emax (x y : spec_float) :
  SFmul prec emax x y = SFmul prec emax y x.
Proof.
  destruct x as [sx|sx| |sx mx ex], y as [sy|sy| |sy my ey]; cbn;
    rewrite ?(xorb_comm sx sy); try reflexivity.
  by rewrite (Pos.mul_comm mx my), (Z.add_comm ex ey).
Qed.

Lemma float_mul_comm (x y : float) : (x * y = y * x)%float.
Proof. apply Prim2SF_inj. rewrite !mul_spec. apply SFmul_comm. Qed.

Lemma dot_fold_comm (a b : Np.ndarray) (acc : float) :
  fold_left (fun acc p => (acc + p.1 * p.2)%float) (zip a b) acc
  = fold_left (fun acc p => (acc + p.1 * p.2)%float) (zip b a) acc.
Proof.
  revert b acc. induction a as [|x a IH]; intros [|y b] acc; try reflexivity.
  cbn. rewrite (float_mul_comm x y). apply IH.
Qed.

Lemma dot_comm (a b : Np.ndarray) : Np.dot a b = Np.dot b a.
Proof.
  unfold Np.dot. rewrite (Nat.eqb_sym (length a) (length b)).
  destruct (Nat.eqb _ _); [|done]. by rewrite dot_fold_comm.
Qed.

Lemma cosine_similarity_comm (a b : Np.ndarray) :
  Np.cosine_similarity a b = Np.cosine_similarity b a.
Proof.
  unfold Np.cosine_similarity.
  rewrite (orb_comm (Nat.eqb (length a) 0)), (andb_comm (forallb _ a)),
    (Nat.eqb_sym (length a) (length b)), (dot_comm (Np.unit_row a)).
  reflexivity.
Qed.

(** The cosine and the dot-product similarity are symmetric, bit for bit:
    swapping the two embeddings gives the same float (and the same 0.0 when
    the pair is rejected). *)
Theorem calculate_similarity_symmetric :
  forall (a b : Np.ndarray),
    calculate_similarity a b "cosine" = calculate_similarity b a "cosine"
    /\ calculate_similarity a b "dot" = calculate_similarity b a "dot".
Proof.
  intros a b. unfold calculate_similarity, calculate_similarity_try. cbn [String.eqb].
  split.
  - change (String.eqb "cosine" "cosine") with true. cbv iota.
    by rewrite cosine_similarity_comm.
  - change (String.eqb "dot" "cosine") with false.
    change (String.eqb "dot" "euclidean") with false.
    change (String.eqb "dot" "dot") with true. cbv iota.
    by rewrite dot_comm.
Qed.

(** Two embeddings of different dimensions are not an error for the
    caller: the shape error of numpy or scikit-learn is swallowed and the
    similarity is reported as 0.0, for the cosine and the dot product
    always, for the Euclidean measure unless one of the two has a single
    component (numpy then broadcasts it). *)
Theorem calculate_similarity_dimension_mismatch :
  forall (a b : Np.ndarray),
    length a <> length b ->
    calculate_similarity a b "cosine" = Ok 0%float
    /\ calculate_similarity a b "dot" = Ok 0%float
    /\ (length a <> 1 -> length b <> 1 ->
        calculate_similarity a b "euclidean" = Ok 0%float).
Proof.
  intros a b Hlen.
  assert (Hneq : Nat.eqb (length a) (length b) = false) by by apply Nat.eqb_neq.
  unfold calculate_similarity, calculate_similarity_try.
  change (String.eqb "cosine" "cosine") with true.
  change (String.eqb "dot" "cosine") with false.
  change (String.eqb "dot" "euclidean") with false.
  change (String.eqb "dot" "dot") with true.
  change (String.eqb "euclidean" "cosine") with false.
  change (String.eqb "euclidean" "euclidean") with true.
  cbv iota. split; [|split].
  - unfold Np.cosine_similarity. rewrite Hneq.
    destruct (_ || _); [done|]. by destruct (negb _).
  - unfold Np.dot. by rewrite Hneq.
  - intros Ha Hb. unfold Np.subtract. rewrite Hneq.
    destruct a as [|x [|x' a]], b as [|y [|y' b]]; cbn in *; done.
Qed.

Lemma calculate_similarity_dimension_mismatch_witness :
  calculate_similarity [1%float; 2%float; 3%float] [1%float; 2%float] "cosine"
  = Ok 0%float
  /\ calculate_similarity [1%float; 2%float; 3%float] [1%float; 2%float] "euclidean"
     = Ok 0%float.
Proof.
  destruct (calculate_similarity_dimension_mismatch
              [1%float; 2%float; 3%float] [1%float; 2%float]) as (Hc & _ & He).
  - cbn. lia.
  - split; [exact Hc|]. apply He; cbn; lia.
Defined.

End SimilarityMore.
(* ===================================================================== *)
(** ** Properties of the similarity search                                 *)
(* ===================================================================== *)

Section FloatOrder.

Lemma SFcompare_antisym (x y : spec_float) :
  SFcompare y x = option_map CompOpp (SFcompare x y).
Proof.
  destruct x as [sx|sx| |sx mx ex], y as [sy|sy| |sy my ey]; cbn;
    try (by (try destruct sx; try destruct sy)).
  destruct sx, sy; cbn; try done; rewrite (Z.compare_antisym ex ey);
    destruct (ex ?= ey)%Z; cbn; try done;
    change (Pos.compare_cont Eq my mx) with (Pos.compare my mx);
    change (Pos.compare_cont Eq mx my) with (Pos.compare mx my);
    rewrite (Pos.compare_antisym mx my); by destruct (mx ?= my)%positive.
Qed.

Lemma SFcompare_None (x y : spec_float) :
  SFcompare x y = None -> x = S754_nan \/ y = S754_nan.
Proof.
  destruct x as [sx|sx| |sx mx ex], y as [sy|sy| |sy my ey]; cbn; try discriminate;
    auto.
Qed.

Lemma SFcompare_nan_r (x : spec_float) : SFcompare x S754_nan = None.
Proof. by destruct x. Qed.

Lemma SFleb_trans (x y z : spec_float) :
  SFleb x y = true -> SFleb y z = true -> SFleb x z = true.
Proof.
  unfold SFleb.
  destruct x as [sx|sx| |sx mx ex], y as [sy|sy| |sy my ey], z as [sz|sz| |sz mz ez];
    cbn; try discriminate; try done;
    try (by (try destruct sx; try destruct sy; try destruct sz)).
  destruct sx, sy, sz; cbn; try discriminate; try done;
    change (Pos.compare_cont Eq mx my) with (Pos.compare mx my);
    change (Pos.compare_cont Eq my mz) with (Pos.compare my mz);
    change (Pos.compare_cont Eq mx mz) with (Pos.compare mx mz);
    destruct (Z.compare_spec ex ey), (Z.compare_spec ey ez), (Z.compare_spec ex ez);
    try discriminate; try done; try lia; subst;
    destruct (Pos.compare_spec mx my), (Pos.compare_spec my mz),
      (Pos.compare_spec mx mz);
    cbn; try discriminate; try done; try lia.
Qed.

(** On binary64 numbers. *)
Lemma leb_trans (x y z : float) :
  PrimFloat.leb x y = true -> PrimFloat.leb y z = true -> PrimFloat.leb x z = true.
Proof. rewrite !leb_spec. apply SFleb_trans. Qed.

(** Two numbers that are at least some threshold are not NaN, so one of
    them is at most the other. *)
Lemma leb_of_not_ltb (t x y : float) :
  PrimFloat.leb t x = true -> PrimFloat.leb t y = true ->
  PrimFloat.ltb x y = false -> PrimFloat.leb y x = true.
Proof.
  rewrite !leb_spec, ltb_spec. unfold SFleb, SFltb.
  intros Hx Hy. rewrite (SFcompare_antisym (Prim2SF x) (Prim2SF y)).
  destruct (SFcompare (Prim2SF x) (Prim2SF y)) as [[]|] eqn:Hc; cbn; try done.
  apply SFcompare_None in Hc as [Hc|Hc]; rewrite Hc, SFcompare_nan_r in *; done.
Qed.

Lemma leb_of_ltb (x y : float) :
  PrimFloat.ltb x y = true -> PrimFloat.leb x y = true.
Proof.
  rewrite leb_spec, ltb_spec. unfold SFleb, SFltb.
  by destruct (SFcompare _ _) as [[]|].
Qed.

End FloatOrder.

Section SimilaritySearch.
Import EmbeddingGenerator.

Lemma insert_descending_perm x l : insert_descending x l ≡ₚ x :: l.
Proof.
  induction l as [|y l IH]; [done|]. cbn.
  destruct (PrimFloat.ltb x.2 y.2); [|done].
  rewrite IH. apply Permutation_swap.
Qed.

Lemma sort_descending_perm l : sort_descending l ≡ₚ l.
Proof.
  induction l as [|x l IH]; [done|]. cbn.
  by rewrite insert_descending_perm, IH.
Qed.

Lemma insert_descending_sorted (t : float) x l :
  PrimFloat.leb t x.2 = true ->
  Forall (fun p => PrimFloat.leb t p.2 = true) l ->
  StronglySorted not_better l ->
  StronglySorted not_better (insert_descending x l).
Proof.
  intros Hx Hall Hsorted.
  induction Hsorted as [|y l Hl IH Hy]; cbn.
  { repeat constructor. }
  apply Forall_cons in Hall as [Hty Hall].
  destruct (PrimFloat.ltb x.2 y.2) eqn:Hlt.
  - constructor; [by apply IH|].
    rewrite insert_descending_perm. constructor; [|done].
    by apply leb_of_ltb.
  - assert (Hyx : not_better x y) by (by eapply leb_of_not_ltb).
    constructor; [by constructor|]. constructor; [done|].
    eapply Forall_impl; [exact Hy|]. intros q Hq. unfold not_better in *.
    by eapply leb_trans.
Qed.

Lemma sort_descending_sorted (t : float) l :
  Forall (fun p => PrimFloat.leb t p.2 = true) l ->
  StronglySorted not_better (sort_descending l).
Proof.
  induction l as [|x l IH]; intros Hall; cbn; [constructor|].
  apply Forall_cons in Hall as [Hx Hall].
  apply (insert_descending_sorted t); [done| |by apply IH].
  by rewrite sort_descending_perm.
Qed.

(** What the loop over the candidates collects. *)
Lemma similar_candidates_spec query threshold (cands : list (option Np.ndarray)) :
  forall (start : nat),
    exists sims,
      similar_candidates query (zip (seq start (length cands)) cands) threshold = Ok sims
      /\ (forall i sim,
            (i, sim) ∈ sims <->
            exists c, start <= i /\ cands !! (i - start) = Some (Some c)
                      /\ calculate_similarity query c "cosine" = Ok sim
                      /\ PrimFloat.leb threshold sim = true)
      /\ StronglySorted lt (fst <$> sims).
Proof.
  induction cands as [|cand cands IH]; intros start.
  { exists []. split; [done|]. split; [|constructor].
    intros i sim. split; [by intros ?%elem_of_nil|]. by intros (c & _ & ? & _). }
  destruct (IH (S start)) as (sims & Hrun & Hspec & Hsorted).
  cbn [length seq zip zip_with similar_candidates].
  assert (Hshift : forall i, S start <= i ->
            (cand :: cands) !! (i - start) = cands !! (i - S start)).
  { intros i Hi. replace (i - start) with (S (i - S start)) by lia. done. }
  assert (Hlow : Forall (fun i => S start <= i) (fst <$> sims)).
  { apply Forall_forall. intros i (p & -> & Hp)%list_elem_of_fmap.
    destruct p as [i sim]. apply Hspec in Hp as (c & Hi & _). done. }
  destruct cand as [c0|].
  - unfold and_then at 1.
    destruct (calculate_similarity query c0 "cosine") as [sim0|e] eqn:Hsim0.
    2:{ unfold calculate_similarity in Hsim0.
        by destruct (calculate_similarity_try _ _ _). }
    rewrite Hrun. cbn [and_then].
    destruct (PrimFloat.leb threshold sim0) eqn:Hthr.
    + eexists. split; [reflexivity|]. split.
      * intros i sim. rewrite elem_of_cons, Hspec. split.
        -- intros [[= -> ->]|(c & Hi & Hc & Hs & Ht)].
           ++ exists c0. rewrite Nat.sub_diag. done.
           ++ exists c. rewrite Hshift by done. split; [lia|done].
        -- intros (c & Hi & Hc & Hs & Ht).
           destruct (decide (i = start)) as [->|Hne].
           ++ left. rewrite Nat.sub_diag in Hc. injection Hc as <-. congruence.
           ++ right. exists c. rewrite <- Hshift by lia. split; [lia|done].
      * cbn. constructor; [done|].
        eapply Forall_impl; [exact Hlow|]. cbn. lia.
    + exists sims. split; [done|]. split; [|done].
      intros i sim. rewrite Hspec. split.
      * intros (c & Hi & Hc & Hs & Ht). exists c.
        rewrite Hshift by done. split; [lia|done].
      * intros (c & Hi & Hc & Hs & Ht).
        destruct (decide (i = start)) as [->|Hne].
        -- rewrite Nat.sub_diag in Hc. injection Hc as <-. congruence.
        -- exists c. rewrite <- Hshift by lia. split; [lia|done].
  - exists sims. split; [done|]. split; [|done].
    intros i sim. rewrite Hspec. split.
    + intros (c & Hi & Hc & Hs & Ht). exists c.
      rewrite Hshift by done. split; [lia|done].
    + intros (c & Hi & Hc & Hs & Ht).
      destruct (decide (i = start)) as [->|Hne].
      * rewrite Nat.sub_diag in Hc. discriminate Hc.
      * exists c. rewrite <- Hshift by lia. split; [lia|done].
Qed.

Lemma py_take_prefix {A} (k : Z) (l : list A) : exists n, py_take k l = take n l.
Proof. unfold py_take. destruct (Z.leb 0 k); eauto. Qed.

Lemma StronglySorted_lt_NoDup (l : list nat) : StronglySorted lt l -> NoDup l.
Proof.
  induction 1 as [|x l Hl IH Hx]; constructor; [|done].
  intros Hin. eapply Forall_forall in Hx; [|exact Hin]. lia.
Qed.

Lemma StronglySorted_take {A} (R : A -> A -> Prop) n (l : list A) :
  StronglySorted R l -> StronglySorted R (take n l).
Proof.
  intros Hs. revert n. induction Hs as [|x l Hl IH Hx]; intros [|n]; cbn;
    try constructor; [apply IH|].
  eapply Forall_forall. intros y Hy. eapply Forall_forall in Hx; [exact Hx|].
  by eapply (subseteq_take n l).
Qed.

Lemma StronglySorted_take_drop {A} (R : A -> A -> Prop) n (l : list A) x y :
  StronglySorted R l -> x ∈ take n l -> y ∈ drop n l -> R x y.
Proof.
  intros Hs. revert n. induction Hs as [|z l Hl IH Hz]; intros n Hx Hy.
  { rewrite take_nil in Hx. by apply elem_of_nil in Hx. }
  destruct n as [|n]; cbn in *; [by apply elem_of_nil in Hx|].
  apply elem_of_cons in Hx as [->|Hx]; [|by eapply IH].
  eapply Forall_forall in Hz; [exact Hz|]. by eapply (subseteq_drop n l).
Qed.

Lemma NoDup_fmap_take_perm (sims sorted : list (nat * float)) (n : nat) :
  NoDup (fst <$> sims) -> sorted ≡ₚ sims -> NoDup (fst <$> take n sorted).
Proof.
  intros Hnd Hperm. rewrite fmap_take.
  apply (sublist_NoDup _ (fst <$> sorted)); [by rewrite Hperm|apply sublist_take].
Qed.

Lemma sorted_indices_length (l : list nat) (m : nat) :
  StronglySorted lt l -> Forall (fun i => i < m) l -> length l <= m.
Proof.
  intros Hs Hall. transitivity (length (seq 0 m)); [|by rewrite length_seq].
  apply submseteq_length.
  apply NoDup_submseteq; [by apply StronglySorted_lt_NoDup|].
  intros i Hi. apply elem_of_seq. eapply Forall_forall in Hall; [|exact Hi]. lia.
Qed.

(** [find_similar_embeddings], for every query, candidate list, [top_k]
    and threshold.  Every pair [(i, sim)] it returns names a candidate that
    is not [None], with its cosine similarity to the query, which is at
    least the threshold; no index comes twice; the pairs come best first;
    there are at most [top_k] of them (for [top_k >= 0]); a candidate that
    qualifies and is left out is not better than any pair returned; and
    with [top_k] at least the number of candidates none is left out. *)
Theorem find_similar_embeddings_spec :
  forall (query : Np.ndarray) (cands : list (option Np.ndarray)) (top_k : Z)
         (threshold : float),
    let result := find_similar_embeddings query cands top_k threshold in
    (forall i sim,
       (i, sim) ∈ result ->
       exists c, cands !! i = Some (Some c)
                 /\ calculate_similarity query c "cosine" = Ok sim
                 /\ PrimFloat.leb threshold sim = true)
    /\ NoDup (fst <$> result)
    /\ StronglySorted not_better result
    /\ ((0 <= top_k)%Z -> length result <= Z.to_nat top_k)
    /\ (forall j c sim,
          cands !! j = Some (Some c) ->
          calculate_similarity query c "cosine" = Ok sim ->
          PrimFloat.leb threshold sim = true ->
          (j, sim) ∈ result
          \/ forall p, p ∈ result -> PrimFloat.leb sim p.2 = true)
    /\ ((Z.of_nat (length cands) <= top_k)%Z ->
        forall j c sim,
          cands !! j = Some (Some c) ->
          calculate_similarity query c "cosine" = Ok sim ->
          PrimFloat.leb threshold sim = true ->
          (j, sim) ∈ result).
Proof.
  intros query cands top_k threshold result. subst result.
  unfold find_similar_embeddings.
  destruct (similar_candidates_spec query threshold cands 0)
    as (sims & -> & Hspec & Hidx).
  assert (Hthr : Forall (fun p => PrimFloat.leb threshold p.2 = true) sims).
  { apply Forall_forall. intros [i sim] Hp. by apply Hspec in Hp as (c & _ & _ & _ & ?). }
  pose proof (sort_descending_sorted threshold sims Hthr) as Hsorted.
  pose proof (sort_descending_perm sims) as Hperm.
  destruct (py_take_prefix top_k (sort_descending sims)) as [n Hn].
  assert (Hsub : forall p, p ∈ py_take top_k (sort_descending sims) -> p ∈ sims).
  { intros p Hp. rewrite Hn in Hp. apply elem_of_take in Hp as (k & Hp & _).
    rewrite <- Hperm. by eapply list_elem_of_lookup_2. }
  assert (Hqual : forall j c sim,
            cands !! j = Some (Some c) ->
            calculate_similarity query c "cosine" = Ok sim ->
            PrimFloat.leb threshold sim = true -> (j, sim) ∈ sort_descending sims).
  { intros j c sim Hc Hs Ht. rewrite Hperm. apply Hspec. exists c.
    rewrite Nat.sub_0_r. split; [lia|done]. }
  split; [|split; [|split; [|split; [|split]]]].
  - intros i sim Hp. apply Hsub, Hspec in Hp as (c & _ & Hc & Hs & Ht).
    rewrite Nat.sub_0_r in Hc. by exists c.
  - rewrite Hn. apply (NoDup_fmap_take_perm sims); [|done].
    by apply StronglySorted_lt_NoDup.
  - rewrite Hn. by apply StronglySorted_take.
  - intros Hk. unfold py_take. destruct (Z.leb_spec 0 top_k) as [_|?]; [|lia].
    rewrite length_take. lia.
  - intros j c sim Hc Hs Ht. specialize (Hqual j c sim Hc Hs Ht).
    rewrite <- (take_drop n (sort_descending sims)) in Hqual.
    apply elem_of_app in Hqual as [Hin|Hout]; [left; by rewrite Hn|].
    right. intros p Hp. rewrite Hn in Hp.
    change (not_better p (j, sim)).
    by apply (StronglySorted_take_drop _ n (sort_descending sims) p (j, sim)).
  - intros Hk j c sim Hc Hs Ht. specialize (Hqual j c sim Hc Hs Ht).
    unfold py_take. destruct (Z.leb_spec 0 top_k) as [_|?]; [|lia].
    rewrite take_ge; [done|].
    rewrite Hperm.
    assert (length sims <= length cands); [|lia].
    rewrite <- (length_fmap fst sims).
    apply (sorted_indices_length _ (length cands)); [done|].
    apply Forall_forall. intros i (p & -> & Hp)%list_elem_of_fmap.
    destruct p as [i sim']. apply Hspec in Hp as (c' & _ & Hc' & _).
    rewrite Nat.sub_0_r in Hc'. by apply lookup_lt_Some in Hc'.
Qed.

End SimilaritySearch.
Section SimilaritySearchRuns.
Import EmbeddingGenerator.

(** The search among three candidates, one of them [None] and one
    orthogonal to the query: the candidate equal to the query is found. *)
Lemma find_similar_embeddings_spec_witness :
  (0, 1%float)
  ∈ find_similar_embeddings [1%float; 0%float]
      [Some [1%float; 0%float]; None; Some [0%float; 1%float]] 10 0.7.
Proof.
  destruct (find_similar_embeddings_spec [1%float; 0%float]
              [Some [1%float; 0%float]; None; Some [0%float; 1%float]] 10 0.7)
    as (_ & _ & _ & _ & _ & Hall).
  apply (Hall ltac:(cbn; lia) 0 [1%float; 0%float] 1%float);
    [reflexivity | vm_compute; reflexivity | reflexivity].
Defined.

End SimilaritySearchRuns.

(* ===================================================================== *)
(** ** Properties of the optimizer                                         *)
(* ===================================================================== *)

Section Optimizer.
Import EmbeddingOptimizer.

Lemma forallb_Forall {A} (f : A -> bool) (l : list A) :
  forallb f l = true -> Forall (fun x => f x = true) l.
Proof.
  induction l as [|x l IH]; cbn; [constructor|].
  intros [Hx Hl]%andb_prop. constructor; [done|by apply IH].
Qed.

Lemma as_matrix_ok (embeddings rows : list Np.ndarray) :
  as_matrix embeddings = Ok rows ->
  rows = embeddings /\ Forall (fun r => length r = width embeddings) embeddings.
Proof.
  unfold as_matrix. destruct embeddings as [|r rest]; [by intros [= <-]|].
  destruct (forallb _ _) eqn:Hall; [|done]. intros [= <-]. split; [done|].
  apply forallb_Forall in Hall. eapply Forall_impl; [exact Hall|].
  intros r' Hr'. by apply Nat.eqb_eq in Hr'.
Qed.

Lemma mean_axis0_length rows : length (mean_axis0 rows) = width rows.
Proof. unfold mean_axis0. by rewrite length_fmap, length_seq. Qed.
Lemma std_axis0_length rows : length (std_axis0 rows) = width rows.
Proof. unfold std_axis0. by rewrite length_fmap, length_seq. Qed.

Lemma Forall2_fmap_same_length {A} (f : list A -> list A) (l : list (list A)) :
  Forall (fun e => length (f e) = length e) l ->
  Forall2 (fun e e' => length e' = length e) l (f <$> l).
Proof. induction 1; constructor; done. Qed.

Lemma Forall2_same_length_refl {A} (l : list (list A)) :
  Forall2 (fun e e' => length e' = length e) l l.
Proof. induction l; constructor; done. Qed.

(** [optimize_embeddings] never raises and keeps the shape of its input,
    whatever the optimization type: as many embeddings come back, each of
    the dimension it had.  When the embeddings do not all have one
    dimension, "standardize" and "center" cannot build the matrix, and the
    input comes back as it is; so it does for a type that is none of the
    three known ones. *)
Theorem optimize_embeddings_keeps_shape :
  forall (embeddings : list Np.ndarray) (optimization_type : string),
    Forall2 (fun e e' => length e' = length e) embeddings
      (optimize_embeddings embeddings optimization_type)
    /\ (forall e, as_matrix embeddings = Raise e ->
                  optimization_type <> "normalize" ->
                  optimize_embeddings embeddings optimization_type = embeddings)
    /\ (optimization_type <> "normalize" ->
        optimization_type <> "standardize" ->
        optimization_type <> "center" ->
        optimize_embeddings embeddings optimization_type = embeddings).
Proof.
  intros embeddings optimization_type. unfold optimize_embeddings.
  destruct (String.eqb_spec optimization_type "normalize") as [->|Hn].
  { split; [|split; done].
    apply Forall2_fmap_same_length, Forall_forall. intros e _.
    apply normalize_length. }
  destruct (String.eqb_spec optimization_type "standardize") as [->|Hs].
  { unfold _standardize_embeddings.
    destruct (as_matrix embeddings) as [rows|e] eqn:Hm.
    - apply as_matrix_ok in Hm as [-> Hw]. split; [|split; done].
      apply Forall2_fmap_same_length. eapply Forall_impl; [exact Hw|].
      intros r Hr. cbn beta in Hr |- *.
      rewrite length_fmap, !length_zip_with, mean_axis0_length, std_axis0_length. lia.
    - split; [apply Forall2_same_length_refl|]. split; done. }
  destruct (String.eqb_spec optimization_type "center") as [->|Hc].
  { unfold _center_embeddings.
    destruct (as_matrix embeddings) as [rows|e] eqn:Hm.
    - apply as_matrix_ok in Hm as [-> Hw]. split; [|split; done].
      apply Forall2_fmap_same_length. eapply Forall_impl; [exact Hw|].
      intros r Hr. cbn beta in Hr |- *.
      rewrite length_fmap, !length_zip_with, mean_axis0_length. lia.
    - split; [apply Forall2_same_length_refl|]. split; done. }
  split; [apply Forall2_same_length_refl|]. split; done.
Qed.

Lemma optimize_embeddings_keeps_shape_witness :
  optimize_embeddings [[1%float; 2%float]; [3%float; 4%float; 5%float]] "center"
  = [[1%float; 2%float]; [3%float; 4%float; 5%float]]
  /\ optimize_embeddings [[1%float; 2%float]; [3%float; 4%float; 5%float]] "whiten"
     = [[1%float; 2%float]; [3%float; 4%float; 5%float]].
Proof.
  destruct (optimize_embeddings_keeps_shape [[1%float; 2%float]; [3%float; 4%float; 5%float]] "center")
    as (_ & Hragged & _).
  destruct (optimize_embeddings_keeps_shape [[1%float; 2%float]; [3%float; 4%float; 5%float]] "whiten")
    as (_ & _ & Hunknown).
  split.
  - apply (Hragged (ValueError "setting an array element with a sequence"));
      [reflexivity|discriminate].
  - apply Hunknown; discriminate.
Defined.

End Optimizer.
(* ===================================================================== *)
(** ** Further properties of the migrator                                  *)
(* ===================================================================== *)

Section MigratorMore.
Import VectorMigrator.
Context {World : Type} {env : Env World}.

(** [_finalize_migration] never raises.  It stamps [estimated_completion]
    with the time it read, removes the checkpoint file if there is one, and
    changes nothing else: the other files, the flags, the configuration and
    the other fields of the progress are as before. *)
Theorem finalize_migration_spec :
  forall (s : State World),
    exists now s',
      _finalize_migration s = (Ok tt, s')
      /\ progress s' = MigrationProgress.set_estimated_completion (Some now) (progress s)
      /\ files s' = delete (checkpoint_file s) (files s)
      /\ files s' !! checkpoint_file s = None
      /\ (forall f, f <> checkpoint_file s -> files s' !! f = files s !! f)
      /\ (config s', checkpoint_file s', is_running s', should_pause s')
         = (config s, checkpoint_file s, is_running s, should_pause s).
Proof.
  intros s. unfold _finalize_migration, bind.
  destruct (ask_only_world datetime_now s) as (now & s0 & -> & (H0 & _)).
  rewrite update_progress_run. unfold try_except, modify.
  unfold migrator_part in H0. injection H0 as Hc Hp Hcf Hr Hsp Hf.
  exists now. destruct s0 as [c p cf ir sp g f]. cbn in *. subst.
  destruct (files s !! checkpoint_file s) eqn:Hl; eexists; cbn.
  - split; [done|]. split; [done|]. split; [done|].
    split; [apply lookup_delete_eq|]. split; [|done].
    intros f Hf. by apply lookup_delete_ne.
  - split; [done|]. split; [done|]. split; [by rewrite delete_id|].
    split; [done|]. split; done.
Qed.

(** [_load_checkpoint] never raises and, whatever the file holds, touches
    nothing but the five restored fields of the progress: the files, the
    flags, the configuration, the generator and the fields
    [skipped_records], [start_time], [estimated_completion] and [errors]
    are as before.  With no checkpoint file the whole state is as before. *)
Theorem load_checkpoint_frame :
  forall (s : State World),
    exists s',
      _load_checkpoint s = (Ok tt, s')
      /\ (config s', checkpoint_file s', is_running s', should_pause s', files s')
         = (config s, checkpoint_file s, is_running s, should_pause s, files s)
      /\ embedding_generator s' = embedding_generator s
      /\ (MigrationProgress.skipped_records (progress s'),
          MigrationProgress.start_time (progress s'),
          MigrationProgress.estimated_completion (progress s'),
          MigrationProgress.errors (progress s'))
         = (MigrationProgress.skipped_records (progress s),
            MigrationProgress.start_time (progress s),
            MigrationProgress.estimated_completion (progress s),
            MigrationProgress.errors (progress s))
      /\ (files s !! checkpoint_file s = None -> s' = s).
Proof.
  intros s.
  unfold _load_checkpoint, try_except, bind, get, lift_outcome, ret, raise,
    update_progress, modify.
  destruct (files s !! checkpoint_file s) as [content|] eqn:Hf; cbv beta iota.
  2:{ exists s. by repeat split. }
  destruct (Json.load content) as [data|e0]; cbv beta iota.
  2:{ exists s. by repeat split. }
  destruct (Json.getitem data "progress") as [pd|e1]; cbv beta iota.
  2:{ exists s. by repeat split. }
  repeat lazymatch goal with
         | |- context [and_then ?a ?b] =>
             destruct (and_then a b) as [?|?]; cbv beta iota
         end.
  all: eexists; split; [reflexivity|]; by repeat split.
Qed.

(** A checkpoint file that holds a JSON document with the five keys under
    "progress" is restored field by field. *)
Theorem load_checkpoint_restores :
  forall (s : State World) content data pd total processed successful failed source,
    files s !! checkpoint_file s = Some content ->
    Json.load content = Ok data ->
    Json.getitem data "progress" = Ok pd ->
    Json.getitem pd "total_records" = Ok (Json.PInt total) ->
    Json.getitem pd "processed_records" = Ok (Json.PInt processed) ->
    Json.getitem pd "successful_records" = Ok (Json.PInt successful) ->
    Json.getitem pd "failed_records" = Ok (Json.PInt failed) ->
    and_then (Json.getitem pd "current_source") as_optional_str = Ok source ->
    exists s',
      _load_checkpoint s = (Ok tt, s')
      /\ progress s'
         = MigrationProgress.mk total processed successful failed
             (MigrationProgress.skipped_records (progress s)) source
             (MigrationProgress.start_time (progress s))
             (MigrationProgress.estimated_completion (progress s))
             (MigrationProgress.errors (progress s)).
Proof.
  intros s content data pd total processed successful failed source
    Hf Hload Hp Ht Hpr Hsu Hfa Hsrc.
  unfold _load_checkpoint, try_except, bind, get, lift_outcome.
  rewrite Hf. unfold ret at 1. cbv beta iota. rewrite Hload, Hp.
  unfold and_then at 1. rewrite Ht. cbn [as_int]. rewrite update_progress_run.
  unfold and_then at 1. rewrite Hpr. cbn [as_int]. rewrite update_progress_run.
  unfold and_then at 1. rewrite Hsu. cbn [as_int]. rewrite update_progress_run.
  unfold and_then at 1. rewrite Hfa. cbn [as_int]. rewrite update_progress_run.
  rewrite Hsrc. rewrite update_progress_run.
  eexists. split; reflexivity.
Qed.

(** The restore is not atomic: when a key is missing, the fields before it
    have been overwritten and the rest keep their values, and no error is
    raised.  Here the document has "total_records" and lacks
    "processed_records". *)
Theorem load_checkpoint_partial :
  forall (s : State World) content data pd total e,
    files s !! checkpoint_file s = Some content ->
    Json.load content = Ok data ->
    Json.getitem data "progress" = Ok pd ->
    Json.getitem pd "total_records" = Ok (Json.PInt total) ->
    Json.getitem pd "processed_records" = Raise e ->
    _load_checkpoint s
    = (Ok tt, set_progress (MigrationProgress.set_total_records total (progress s)) s).
Proof.
  intros s content data pd total e Hf Hload Hp Ht Hpr.
  unfold _load_checkpoint, try_except, bind, get, lift_outcome.
  rewrite Hf. unfold ret at 1. cbv beta iota. rewrite Hload, Hp.
  unfold and_then at 1. rewrite Ht. cbn [as_int]. rewrite update_progress_run.
  unfold and_then at 1. rewrite Hpr. reflexivity.
Qed.

(** [pause_migration] sets [should_pause] and leaves a checkpoint file on
    disk; [resume_migration] after it clears the flag, keeps the file, and
    leaves the progress as it was in memory. *)
Theorem pause_then_resume :
  forall (s : State World),
    exists s1 s2,
      pause_migration s = (Ok tt, s1)
      /\ should_pause s1 = true
      /\ is_Some (files s1 !! checkpoint_file s1)
      /\ progress s1 = progress s
      /\ resume_migration s1 = (Ok tt, s2)
      /\ should_pause s2 = false
      /\ files s2 = files s1
      /\ checkpoint_file s2 = checkpoint_file s
      /\ progress s2 = progress s.
Proof.
  intros s. unfold pause_migration, resume_migration, bind, modify.
  destruct (save_checkpoint_run (set_should_pause true s))
    as (written & e & s1 & Hsave & Henc & Hfiles & Hcf & Hp & Hc & Hsp).
  rewrite Hsave. exists s1.
  destruct (load_checkpoint_frame (set_should_pause false s1))
    as (s2 & Hload & Hframe & _ & _ & _).
  rewrite Hload. exists s2. injection Hframe as _ Hcf2 _ Hsp2 Hf2.
  split; [done|]. split; [by rewrite Hsp|].
  split; [rewrite Hfiles, Hcf; rewrite lookup_insert_eq; by eexists|].
  split; [done|]. split; [done|]. split; [done|]. split; [done|].
  split; [by rewrite Hcf2|].
  (* what the load read is the file the save left: not a JSON document *)
  destruct (encode_checkpoint_truncated (progress (set_should_pause true s))
              (config (set_should_pause true s))
              (fst (datetime_now (EmbeddingGenerator.world
                      (embedding_generator (set_should_pause true s))))))
    as (written' & e' & Henc' & Hbad).
  rewrite Henc in Henc'. injection Henc' as <- <-.
  rewrite (load_truncated (set_should_pause false s1) written) in Hload.
  - injection Hload as <-. cbn. exact Hp.
  - cbn. by rewrite Hfiles, Hcf, lookup_insert_eq.
  - exact Hbad.
Qed.

End MigratorMore.

Section MigratorMoreRuns.
Import VectorMigrator.

Lemma finalize_migration_spec_witness :
  let E := scripted_env (fun _ _ => false) (fun _ => []) in
  let s0 :=
    set_files (<["other.json" := []]> (<["migration_checkpoint.json" := []]> ∅))
      (fresh_migrator MigrationConfig.default) in
  files (_finalize_migration (env := E) s0).2 !! "other.json" = Some [].
Proof.
  intros E s0.
  destruct (finalize_migration_spec (env := E) s0) as (now & s' & Hrun & _ & _ & _ & Hother & _).
  rewrite Hrun. cbn [snd]. rewrite (Hother "other.json"); [reflexivity|discriminate].
Defined.

Lemma load_checkpoint_frame_witness :
  let s0 := fresh_migrator MigrationConfig.default in
  _load_checkpoint s0 = (Ok tt, s0).
Proof.
  intros s0. destruct (load_checkpoint_frame s0) as (s' & Hrun & _ & _ & _ & Hnone).
  rewrite Hrun. f_equal. apply Hnone. reflexivity.
Defined.

(** A checkpoint document without the configuration, as a file. *)
Lemma load_checkpoint_restores_witness :
  let content :=
    (Json.encode
       (Json.PDict
          [("progress",
            Json.PDict [("total_records", Json.PInt 100);
                        ("processed_records", Json.PInt 50);
                        ("successful_records", Json.PInt 45);
                        ("failed_records", Json.PInt 0);
                        ("current_source", Json.PStr "analytics")]);
           ("timestamp", Json.PStr "2024-01-01T00:00:00")])).1 in
  let s0 :=
    set_files (<["migration_checkpoint.json" := content]> ∅)
      (fresh_migrator MigrationConfig.default) in
  progress (_load_checkpoint s0).2
  = MigrationProgress.mk 100 50 45 0 0 (Some "analytics") None None [].
Proof.
  intros content s0.
  destruct (load_checkpoint_restores s0 content
              (Json.PDict
                 [("progress",
                   Json.PDict [("total_records", Json.PInt 100);
                               ("processed_records", Json.PInt 50);
                               ("successful_records", Json.PInt 45);
                               ("failed_records", Json.PInt 0);
                               ("current_source", Json.PStr "analytics")]);
                  ("timestamp", Json.PStr "2024-01-01T00:00:00")])
              (Json.PDict [("total_records", Json.PInt 100);
                           ("processed_records", Json.PInt 50);
                           ("successful_records", Json.PInt 45);
                           ("failed_records", Json.PInt 0);
                           ("current_source", Json.PStr "analytics")])
              100%Z 50%Z 45%Z 0%Z (Some "analytics"))
    as (s' & Hrun & Hp); [reflexivity..|].
  rewrite Hrun. exact Hp.
Defined.

(** A checkpoint document that has only "total_records". *)
Lemma load_checkpoint_partial_witness :
  let content :=
    (Json.encode
       (Json.PDict [("progress", Json.PDict [("total_records", Json.PInt 100)])])).1 in
  let s0 :=
    set_files (<["migration_checkpoint.json" := content]> ∅)
      (fresh_migrator MigrationConfig.default) in
  progress (_load_checkpoint s0).2
  = MigrationProgress.mk 100 0 0 0 0 None None None [].
Proof.
  intros content s0.
  rewrite (load_checkpoint_partial s0 content
             (Json.PDict [("progress", Json.PDict [("total_records", Json.PInt 100)])])
             (Json.PDict [("total_records", Json.PInt 100)])
             100%Z (KeyError "processed_records"));
    reflexivity.
Defined.

End MigratorMoreRuns.
